(** * NetZero TestOps: the carbon impact calculator

    A shallow embedding of [Demo/impact_calculator.py] (class
    [CarbonImpactCalculator]) and the properties of its four methods:
    [calculate_base_consumption], [calculate_framework_comparison],
    [calculate_annual_projections] and [generate_carbon_report].

    The Python code is arithmetic on numbers, the [/] operator that raises
    [ZeroDivisionError] on a zero divisor, and two readings of the wall clock
    ([datetime.now().isoformat()]).  The embedding keeps all three:
    - the arithmetic is written once, over an interface [Number] with two
      instances, IEEE binary64 (what CPython's [float] is) and the exact
      rationals;
    - a call of a method either returns a value or raises ([outcome]);
    - the methods that read the clock thread it explicitly ([clocked]).

    The dicts the methods take and return have fixed keys and are records
    here, so a dict with a key missing or a value that is not a number (a
    [KeyError] or [TypeError] in Python) is not an input of the model.  The
    quantities of a sample are numbers of the one number type, as the
    signature of [calculate_base_consumption] has them ([float]). *)

From Stdlib Require Import ZArith QArith List String Bool Lia.
From Stdlib Require Import Floats.
Import ListNotations.

(** ** Numbers *)

(** The operations the calculator applies to its numbers.  [int] is the
    conversion Python applies to an [int] operand of mixed arithmetic, [lit]
    reads a decimal literal such as [0.372], [quot] is the quotient [/]
    delivers once it has found the divisor to be nonzero, and [is_zero] is
    that test ([b == 0]). *)
Class Number (F : Type) : Type := {
  int : Z -> F;
  lit : Q -> F;
  add : F -> F -> F;
  sub : F -> F -> F;
  mul : F -> F -> F;
  quot : F -> F -> F;
  is_zero : F -> bool
}.

Declare Scope num_scope.
Delimit Scope num_scope with num.
Infix "+" := add : num_scope.
Infix "-" := sub : num_scope.
Infix "*" := mul : num_scope.

(** The built-in [sum]: the [int] 0, then the items added from left to right.
    (On floats CPython from 3.12 on also compensates the rounding error of
    these additions, so that its sum can differ from this one in the last
    place; over the rationals there is no rounding.) *)
Definition sum {F : Type} {num : Number F} (l : list F) : F :=
  fold_left add l (int 0).

(** The literals the source divides by. *)
Definition int_divisors : list Z := [3600; 1000; 3600000; 22]%Z.
Definition lit_divisors : list Q := [4.6]%Q.

(** What the proofs need of a number system: the [int] 0 is zero and the
    literal divisors are not. *)
Class Lawful (F : Type) {num : Number F} : Prop := {
  int_0_is_zero : is_zero (int 0) = true;
  int_divisor_nonzero : forall z, In z int_divisors -> is_zero (int z) = false;
  lit_divisor_nonzero : forall q, In q lit_divisors -> is_zero (lit q) = false
}.
Arguments Lawful F {num}.

(** The length of a non-empty list is not zero as a number. *)
Class Counts (F : Type) {num : Number F} : Prop := {
  count_nonzero : forall n : nat, is_zero (int (Z.of_nat (S n))) = false
}.
Arguments Counts F {num}.

(** *** Exact rationals *)

#[export] Instance Q_number : Number Q := {|
  int := inject_Z;
  lit := fun q => q;
  add := Qplus;
  sub := Qminus;
  mul := Qmult;
  quot := Qdiv;
  is_zero := fun q => Qeq_bool q 0
|}.

(** *** IEEE binary64, CPython's [float] *)

Module Binary64.

(** [float(n)]: the nearest double, ties to even.  CPython raises
    [OverflowError] where this gives an infinity (from 2^1024 - 2^970 on in
    absolute value); such integers are outside the model, see
    [converts_to_float]. *)
Definition of_int (z : Z) : float :=
  SF2Prim (binary_normalize prec emax z 0 false).

(** A decimal literal is the double nearest to it; with numerator and
    denominator below 2^53 that is their correctly rounded quotient. *)
Definition of_literal (q : Q) : float :=
  PrimFloat.div (of_int (Qnum q)) (of_int (Zpos (Qden q))).

(** [b == 0.0] in [float_div]: true of both zeros, false of a NaN. *)
Definition is_zero (x : float) : bool := PrimFloat.eqb x 0%float.

End Binary64.

(** The ints CPython converts to a float, as [float * int] does with its int:
    it raises [OverflowError] ("int too large to convert to float") for an
    int that rounds to 2^1024, that is from 2^1024 - 2^970 on in absolute
    value.  [of_int] gives an infinity there; this error is not part of the
    model, and what is stated of [int n] for a variable [n] is stated for
    these ints. *)
Definition converts_to_float (n : Z) : Prop :=
  (Z.abs n < 2 ^ 1024 - 2 ^ 970)%Z.

#[export] Instance float_number : Number float := {|
  int := Binary64.of_int;
  lit := Binary64.of_literal;
  add := PrimFloat.add;
  sub := PrimFloat.sub;
  mul := PrimFloat.mul;
  quot := PrimFloat.div;
  is_zero := Binary64.is_zero
|}.

(** ** Calls that return or raise *)

(** The only exception the calculator's own code can raise on numbers. *)
Inductive exn : Set := ZeroDivisionError.

Inductive outcome (A : Type) : Type :=
| Returned (a : A)
| Raised (e : exn).
Arguments Returned {A} a.
Arguments Raised {A} e.

Definition bind {A B : Type} (c : outcome A) (k : A -> outcome B) : outcome B :=
  match c with
  | Returned a => k a
  | Raised e => Raised e
  end.

Declare Scope py_scope.
Delimit Scope py_scope with py.
Notation "x <- c ;; k" := (bind c (fun x => k))
  (at level 61, c at next level, right associativity) : py_scope.

(** [a / b]: [float_div] and [long_true_divide] both test the divisor first. *)
Definition div {F : Type} {num : Number F} (a b : F) : outcome F :=
  if is_zero b then Raised ZeroDivisionError else Returned (quot a b).
Infix "/" := div : num_scope.

(** ** Calls that read the clock *)

(** [datetime.now().isoformat()] gives a string.  The clock is the sequence
    of the readings still to come. *)
Definition isoformat : Set := string.
Definition clock : Set := nat -> isoformat.

Definition clocked (A : Type) : Type := clock -> outcome (A * clock).

Definition ret {A : Type} (a : A) : clocked A := fun c => Returned (a, c).

Definition cbind {A B : Type} (m : clocked A) (k : A -> clocked B) : clocked B :=
  fun c =>
    match m c with
    | Returned (a, c') => k a c'
    | Raised e => Raised e
    end.

Definition lift {A : Type} (o : outcome A) : clocked A :=
  fun c =>
    match o with
    | Returned a => Returned (a, c)
    | Raised e => Raised e
    end.

Definition now : clocked isoformat :=
  fun c => Returned (c 0%nat, fun n => c (S n)).

Declare Scope clocked_scope.
Delimit Scope clocked_scope with clocked.
Notation "x <- c ;; k" := (cbind c (fun x => k))
  (at level 61, c at next level, right associativity) : clocked_scope.
Notation "x <~ o ;; k" := (cbind (lift o) (fun x => k))
  (at level 61, o at next level, right associativity) : clocked_scope.

(** The value of a call, the clock forgotten. *)
Definition value {A : Type} (o : outcome (A * clock)) : outcome A :=
  match o with
  | Returned (a, _) => Returned a
  | Raised e => Raised e
  end.

(** ** The data: dicts with fixed keys, as records

    A field has the name of its key.  Where two dicts share a key the field
    of one carries a prefix: [in_duration_seconds] and the like for the keys
    of [input_parameters], [annual_energy_saved_kwh] and
    [daily_energy_saved_kwh] for the key [energy_saved_kwh] of the annual and
    the daily impact (likewise [carbon_saved_kg]), and [saved_energy_joules],
    [saved_carbon_g_co2e] for the two keys the projection reads. *)

Section Calculator.

Context {F : Type} {num : Number F}.

Local Open Scope num_scope.

(** The attributes [__init__] sets on the calculator. *)
Record CarbonImpactCalculator : Type := {
  GRID_INTENSITY : F;
  CPU_BASE_WATTS : F;
  MEMORY_WATTS_PER_GB : F;
  STORAGE_WATTS_PER_GB : F;
  NETWORK_WATTS_PER_MB : F;
  CLOUD_PUE : F;
  ENERGY_COST_PER_KWH : F;
  CARBON_CREDIT_COST_PER_TON : F
}.

Definition init : CarbonImpactCalculator := {|
  GRID_INTENSITY := int 400;
  CPU_BASE_WATTS := int 30;
  MEMORY_WATTS_PER_GB := lit 0.372;
  STORAGE_WATTS_PER_GB := lit 0.65;
  NETWORK_WATTS_PER_MB := lit 0.0036;
  CLOUD_PUE := lit 1.12;
  ENERGY_COST_PER_KWH := lit 0.12;
  CARBON_CREDIT_COST_PER_TON := int 25
|}.

(** A metrics dict, as the caller passes it with [**]: the two keys with a
    default in the signature may be absent. *)
Record Metrics : Type := {
  duration_seconds : F;
  cpu_utilization : F;
  memory_gb : F;
  storage_gb : option F;
  network_mb : option F
}.

Record Scenario : Type := {
  name : string;
  sustainable_metrics : Metrics;
  wasteful_metrics : Metrics
}.

(** The result of [calculate_base_consumption]. *)
Record Breakdown : Type := {
  cpu_wh : F;
  memory_wh : F;
  storage_wh : F;
  network_wh : F;
  pue_overhead_wh : F
}.

Record Energy : Type := {
  total_wh : F;
  total_joules : F;
  total_kwh : F;
  breakdown : Breakdown
}.

Record Carbon : Type := {
  total_g_co2e : F;
  total_kg_co2e : F;
  grid_intensity_used : F
}.

Record InputParameters : Type := {
  in_duration_seconds : F;
  in_cpu_utilization : F;
  in_memory_gb : F;
  in_storage_gb : F;
  in_network_mb : F
}.

Record Consumption : Type := {
  energy : Energy;
  carbon : Carbon;
  input_parameters : InputParameters
}.

(** The result of [calculate_framework_comparison]; the report adds the
    key [scenario_name] to it. *)
Record ComparisonSummary : Type := {
  energy_reduction_percent : F;
  carbon_reduction_percent : F;
  performance_improvement_percent : F;
  energy_saved_joules : F;
  carbon_saved_g_co2e : F
}.

Record EfficiencyAnalysis : Type := {
  cpu_efficiency_improvement : F;
  memory_efficiency_improvement : F
}.

Record Comparison : Type := {
  timestamp : isoformat;
  comparison_summary : ComparisonSummary;
  sustainable_framework : Consumption;
  wasteful_framework : Consumption;
  efficiency_analysis : EfficiencyAnalysis;
  scenario_name : option string
}.

(** What [calculate_annual_projections] reads of its argument
    [comparison_result]: the two savings under [comparison_summary].  The
    report passes a dict that holds nothing else. *)
Record Savings : Type := {
  saved_energy_joules : F;
  saved_carbon_g_co2e : F
}.

Definition savings_of (c : Comparison) : Savings := {|
  saved_energy_joules := energy_saved_joules (comparison_summary c);
  saved_carbon_g_co2e := carbon_saved_g_co2e (comparison_summary c)
|}.

(** The result of [calculate_annual_projections]. *)
Record ProjectionParameters : Type := {
  daily_tests : Z;
  projection_days : Z;
  energy_cost_per_kwh : F;
  carbon_credit_cost_per_ton : F
}.

Record AnnualEnvironmentalImpact : Type := {
  annual_energy_saved_kwh : F;
  annual_carbon_saved_kg : F;
  annual_carbon_saved_tons : F;
  equivalent_cars_removed : F;
  equivalent_trees_planted : F
}.

Record AnnualCostSavings : Type := {
  energy_cost_savings : F;
  carbon_credit_savings : F;
  total_savings : F
}.

Record DailyImpact : Type := {
  daily_energy_saved_kwh : F;
  daily_carbon_saved_kg : F
}.

Record Projections : Type := {
  projection_parameters : ProjectionParameters;
  annual_environmental_impact : AnnualEnvironmentalImpact;
  annual_cost_savings : AnnualCostSavings;
  daily_impact : DailyImpact
}.

(** The result of [generate_carbon_report]. *)
Record ReportMetadata : Type := {
  generated_timestamp : isoformat;
  scenarios_analyzed : nat;
  calculator_version : string
}.

Record ExecutiveSummary : Type := {
  average_carbon_reduction_percent : F;
  average_energy_reduction_percent : F;
  total_energy_saved_joules : F;
  total_carbon_saved_g_co2e : F
}.

Record Methodology : Type := {
  grid_intensity_g_co2_kwh : F;
  cpu_base_watts : F;
  memory_watts_per_gb : F;
  cloud_pue_factor : F;
  standards_compliance : list string
}.

Record Report : Type := {
  report_metadata : ReportMetadata;
  executive_summary : ExecutiveSummary;
  detailed_scenarios : list Comparison;
  annual_projections : Projections;
  methodology : Methodology
}.

(** ** The methods *)

Section Methods.

Variable self : CarbonImpactCalculator.

Definition calculate_base_consumption
    (duration_seconds cpu_utilization memory_gb storage_gb network_mb : F)
    : outcome Consumption :=
  (duration_hours <- duration_seconds / int 3600 ;;
   let cpu_energy := CPU_BASE_WATTS self * cpu_utilization * duration_hours in
   let memory_energy := MEMORY_WATTS_PER_GB self * memory_gb * duration_hours in
   let storage_energy :=
     STORAGE_WATTS_PER_GB self * storage_gb * duration_hours in
   let network_energy :=
     NETWORK_WATTS_PER_MB self * network_mb * duration_hours in
   let total_energy_wh :=
     cpu_energy + memory_energy + storage_energy + network_energy in
   let total_energy_with_pue_wh := total_energy_wh * CLOUD_PUE self in
   let total_energy_joules := total_energy_with_pue_wh * int 3600 in
   total_energy_kwh <- total_energy_with_pue_wh / int 1000 ;;
   let carbon_g_co2e := total_energy_kwh * GRID_INTENSITY self in
   carbon_kg_co2e <- carbon_g_co2e / int 1000 ;;
   Returned {|
     energy := {|
       total_wh := total_energy_with_pue_wh;
       total_joules := total_energy_joules;
       total_kwh := total_energy_kwh;
       breakdown := {|
         cpu_wh := cpu_energy;
         memory_wh := memory_energy;
         storage_wh := storage_energy;
         network_wh := network_energy;
         pue_overhead_wh := total_energy_with_pue_wh - total_energy_wh
       |}
     |};
     carbon := {|
       total_g_co2e := carbon_g_co2e;
       total_kg_co2e := carbon_kg_co2e;
       grid_intensity_used := GRID_INTENSITY self
     |};
     input_parameters := {|
       in_duration_seconds := duration_seconds;
       in_cpu_utilization := cpu_utilization;
       in_memory_gb := memory_gb;
       in_storage_gb := storage_gb;
       in_network_mb := network_mb
     |}
   |})%py.

(** The call of [calculate_base_consumption] on an unpacked metrics dict:
    an absent [storage_gb] or [network_mb] takes its default, the [int] 0. *)
Definition default (o : option F) : F :=
  match o with
  | Some x => x
  | None => int 0
  end.

Definition calculate_base_consumption_kw (m : Metrics) : outcome Consumption :=
  calculate_base_consumption (duration_seconds m) (cpu_utilization m)
    (memory_gb m) (default (storage_gb m)) (default (network_mb m)).

Definition calculate_framework_comparison
    (sustainable_metrics wasteful_metrics : Metrics) : clocked Comparison :=
  (sustainable_result <~ calculate_base_consumption_kw sustainable_metrics ;;
   wasteful_result <~ calculate_base_consumption_kw wasteful_metrics ;;
   energy_ratio <~
     (total_joules (energy wasteful_result)
        - total_joules (energy sustainable_result))
     / total_joules (energy wasteful_result) ;;
   let energy_reduction := energy_ratio * int 100 in
   carbon_ratio <~
     (total_g_co2e (carbon wasteful_result)
        - total_g_co2e (carbon sustainable_result))
     / total_g_co2e (carbon wasteful_result) ;;
   let carbon_reduction := carbon_ratio * int 100 in
   duration_ratio <~
     (duration_seconds wasteful_metrics - duration_seconds sustainable_metrics)
     / duration_seconds wasteful_metrics ;;
   let performance_improvement := duration_ratio * int 100 in
   let energy_saved_joules :=
     total_joules (energy wasteful_result)
       - total_joules (energy sustainable_result) in
   let carbon_saved_g_co2e :=
     total_g_co2e (carbon wasteful_result)
       - total_g_co2e (carbon sustainable_result) in
   timestamp_now <- now ;;
   cpu_ratio <~
     (cpu_utilization wasteful_metrics - cpu_utilization sustainable_metrics)
     / cpu_utilization wasteful_metrics ;;
   memory_ratio <~
     (memory_gb wasteful_metrics - memory_gb sustainable_metrics)
     / memory_gb wasteful_metrics ;;
   ret {|
     timestamp := timestamp_now;
     comparison_summary := {|
       energy_reduction_percent := energy_reduction;
       carbon_reduction_percent := carbon_reduction;
       performance_improvement_percent := performance_improvement;
       energy_saved_joules := energy_saved_joules;
       carbon_saved_g_co2e := carbon_saved_g_co2e
     |};
     sustainable_framework := sustainable_result;
     wasteful_framework := wasteful_result;
     efficiency_analysis := {|
       cpu_efficiency_improvement := cpu_ratio * int 100;
       memory_efficiency_improvement := memory_ratio * int 100
     |};
     scenario_name := None
   |})%clocked.

Definition calculate_annual_projections
    (daily_tests : Z) (comparison_result : Savings) : outcome Projections :=
  (daily_energy_saved_kwh <-
     (saved_energy_joules comparison_result * int daily_tests) / int 3600000 ;;
   daily_carbon_saved_kg <-
     (saved_carbon_g_co2e comparison_result * int daily_tests) / int 1000 ;;
   let annual_energy_saved_kwh := daily_energy_saved_kwh * int 365 in
   let annual_carbon_saved_kg := daily_carbon_saved_kg * int 365 in
   annual_carbon_saved_tons <- annual_carbon_saved_kg / int 1000 ;;
   let annual_energy_cost_savings :=
     annual_energy_saved_kwh * ENERGY_COST_PER_KWH self in
   let annual_carbon_credit_savings :=
     annual_carbon_saved_tons * CARBON_CREDIT_COST_PER_TON self in
   let total_annual_savings :=
     annual_energy_cost_savings + annual_carbon_credit_savings in
   cars <- annual_carbon_saved_tons / lit 4.6 ;;
   trees <- annual_carbon_saved_kg / int 22 ;;
   Returned {|
     projection_parameters := {|
       daily_tests := daily_tests;
       projection_days := 365;
       energy_cost_per_kwh := ENERGY_COST_PER_KWH self;
       carbon_credit_cost_per_ton := CARBON_CREDIT_COST_PER_TON self
     |};
     annual_environmental_impact := {|
       annual_energy_saved_kwh := annual_energy_saved_kwh;
       annual_carbon_saved_kg := annual_carbon_saved_kg;
       annual_carbon_saved_tons := annual_carbon_saved_tons;
       equivalent_cars_removed := cars;
       equivalent_trees_planted := trees
     |};
     annual_cost_savings := {|
       energy_cost_savings := annual_energy_cost_savings;
       carbon_credit_savings := annual_carbon_credit_savings;
       total_savings := total_annual_savings
     |};
     daily_impact := {|
       daily_energy_saved_kwh := daily_energy_saved_kwh;
       daily_carbon_saved_kg := daily_carbon_saved_kg
     |}
   |})%py.

(** [comparison['scenario_name'] = scenario['name']] *)
Definition set_scenario_name (c : Comparison) (n : string) : Comparison := {|
  timestamp := timestamp c;
  comparison_summary := comparison_summary c;
  sustainable_framework := sustainable_framework c;
  wasteful_framework := wasteful_framework c;
  efficiency_analysis := efficiency_analysis c;
  scenario_name := Some n
|}.

(** The [for] loop of [generate_carbon_report], appending to
    [total_comparisons]. *)
Fixpoint compare_scenarios (test_scenarios : list Scenario)
    (total_comparisons : list Comparison) : clocked (list Comparison) :=
  match test_scenarios with
  | [] => ret total_comparisons
  | scenario :: rest =>
      (comparison <- calculate_framework_comparison
                       (sustainable_metrics scenario) (wasteful_metrics scenario) ;;
       let comparison := set_scenario_name comparison (name scenario) in
       compare_scenarios rest (total_comparisons ++ [comparison]))%clocked
  end.

(** [len(l)] as an operand of [/]. *)
Definition len {A : Type} (l : list A) : F := int (Z.of_nat (List.length l)).

Definition generate_carbon_report (test_scenarios : list Scenario)
    : clocked Report :=
  (total_comparisons <- compare_scenarios test_scenarios [] ;;
   let total_energy_saved :=
     sum (map (fun c => energy_saved_joules (comparison_summary c))
            total_comparisons) in
   let total_carbon_saved :=
     sum (map (fun c => carbon_saved_g_co2e (comparison_summary c))
            total_comparisons) in
   avg_carbon_reduction <~
     sum (map (fun c => carbon_reduction_percent (comparison_summary c))
            total_comparisons)
     / len total_comparisons ;;
   avg_energy_reduction <~
     sum (map (fun c => energy_reduction_percent (comparison_summary c))
            total_comparisons)
     / len total_comparisons ;;
   mean_energy_saved <~ total_energy_saved / len test_scenarios ;;
   mean_carbon_saved <~ total_carbon_saved / len test_scenarios ;;
   let mock_comparison := {|
     saved_energy_joules := mean_energy_saved;
     saved_carbon_g_co2e := mean_carbon_saved
   |} in
   annual_projections <~ calculate_annual_projections 100 mock_comparison ;;
   generated <- now ;;
   ret {|
     report_metadata := {|
       generated_timestamp := generated;
       scenarios_analyzed := List.length test_scenarios;
       calculator_version := "1.0.0"%string
     |};
     executive_summary := {|
       average_carbon_reduction_percent := avg_carbon_reduction;
       average_energy_reduction_percent := avg_energy_reduction;
       total_energy_saved_joules := total_energy_saved;
       total_carbon_saved_g_co2e := total_carbon_saved
     |};
     detailed_scenarios := total_comparisons;
     annual_projections := annual_projections;
     methodology := {|
       grid_intensity_g_co2_kwh := GRID_INTENSITY self;
       cpu_base_watts := CPU_BASE_WATTS self;
       memory_watts_per_gb := MEMORY_WATTS_PER_GB self;
       cloud_pue_factor := CLOUD_PUE self;
       standards_compliance :=
         ["Software Carbon Intensity (SCI) Specification";
          "GHG Protocol Scope 2 Guidance";
          "Green Software Foundation Standards"]%string
     |}
   |})%clocked.

End Methods.

End Calculator.

Arguments CarbonImpactCalculator F : clear implicits.
Arguments Metrics F : clear implicits.
Arguments Scenario F : clear implicits.
Arguments Breakdown F : clear implicits.
Arguments Energy F : clear implicits.
Arguments Carbon F : clear implicits.
Arguments InputParameters F : clear implicits.
Arguments Consumption F : clear implicits.
Arguments ComparisonSummary F : clear implicits.
Arguments EfficiencyAnalysis F : clear implicits.
Arguments Comparison F : clear implicits.
Arguments Savings F : clear implicits.
Arguments ProjectionParameters F : clear implicits.
Arguments AnnualEnvironmentalImpact F : clear implicits.
Arguments AnnualCostSavings F : clear implicits.
Arguments DailyImpact F : clear implicits.
Arguments Projections F : clear implicits.
Arguments ExecutiveSummary F : clear implicits.
Arguments Methodology F : clear implicits.
Arguments Report F : clear implicits.

(** ** The scenarios of [main] *)

Section Main.

Context {F : Type} {num : Number F}.

Definition metrics_of (d c m s n : Q) : Metrics F := {|
  duration_seconds := lit d;
  cpu_utilization := lit c;
  memory_gb := lit m;
  storage_gb := Some (lit s);
  network_mb := Some (lit n)
|}.

Definition login_test : Scenario F := {|
  name := "E-commerce Login Test"%string;
  sustainable_metrics := metrics_of 2.1 0.20 0.8 0.1 2.5;
  wasteful_metrics := metrics_of 6.8 0.75 3.2 0.5 8.1
|}.

Definition search_test : Scenario F := {|
  name := "Product Search Test"%string;
  sustainable_metrics := metrics_of 1.8 0.18 0.9 0.2 3.1;
  wasteful_metrics := metrics_of 5.9 0.68 2.8 0.7 9.4
|}.

Definition checkout_test : Scenario F := {|
  name := "Checkout Process Test"%string;
  sustainable_metrics := metrics_of 3.2 0.25 1.1 0.3 4.2;
  wasteful_metrics := metrics_of 8.7 0.82 3.8 0.9 12.6
|}.

Definition test_scenarios : list (Scenario F) :=
  [login_test; search_test; checkout_test].

(** Two more scenarios for the examples: the login test against a baseline
    that took no time, and against a baseline that used no CPU. *)
Definition stalled_test : Scenario F := {|
  name := "Stalled baseline"%string;
  sustainable_metrics := metrics_of 2.1 0.20 0.8 0.1 2.5;
  wasteful_metrics := metrics_of 0 0.75 3.2 0.5 8.1
|}.

Definition idle_test : Scenario F := {|
  name := "Idle baseline"%string;
  sustainable_metrics := metrics_of 2.1 0.20 0.8 0.1 2.5;
  wasteful_metrics := metrics_of 6.8 0 3.2 0.5 8.1
|}.

End Main.

(** A clock for the examples: reading [n] is [n] microseconds after midnight,
    so the first million readings all differ. *)
Fixpoint digits (k : nat) (n : nat) : string :=
  match k with
  | O => EmptyString
  | S k' => String.append (digits k' (Nat.div n 10))
              (String (Ascii.ascii_of_nat (48 + Nat.modulo n 10)) EmptyString)
  end.

Definition example_clock : clock :=
  fun n => String.append "2025-01-01T00:00:00."%string (digits 6 n).

(** ** The vocabulary of the properties *)

(** The error kinds the specification names.  The source defines no
    exception of its own; what it raises is Python's [ZeroDivisionError]. *)
Inductive error_kind : Set := InvalidInput | DivisionByZero | EmptyInput.

Definition kind_of (e : exn) : error_kind :=
  match e with
  | ZeroDivisionError => DivisionByZero
  end.

(** A call fails with kind [k] when it raises an exception of that kind. *)
Definition fails_with {A : Type} (o : outcome A) (k : error_kind) : Prop :=
  exists e, o = Raised e /\ kind_of e = k.

Definition map_outcome {A B : Type} (f : A -> B) (o : outcome A) : outcome B :=
  match o with
  | Returned a => Returned (f a)
  | Raised e => Raised e
  end.

Section Vocabulary.

Context {F : Type} {num : Number F}.
Variable self : CarbonImpactCalculator F.

Local Open Scope num_scope.

(** The energy figures of a result [r] in terms of the sample and the
    coefficients. *)
Definition energy_formulas (duration_s cpu mem sto net : F)
    (r : Consumption F) : Prop :=
  let e := energy r in
  let b := breakdown e in
  cpu_wh b = CPU_BASE_WATTS self * cpu * quot duration_s (int 3600) /\
  memory_wh b = MEMORY_WATTS_PER_GB self * mem * quot duration_s (int 3600) /\
  storage_wh b = STORAGE_WATTS_PER_GB self * sto * quot duration_s (int 3600) /\
  network_wh b = NETWORK_WATTS_PER_MB self * net * quot duration_s (int 3600) /\
  total_wh e =
    (cpu_wh b + memory_wh b + storage_wh b + network_wh b) * CLOUD_PUE self /\
  total_joules e = total_wh e * int 3600 /\
  total_kwh e = quot (total_wh e) (int 1000).

(** The carbon figures of a result [r]. *)
Definition carbon_formulas (r : Consumption F) : Prop :=
  let k := carbon r in
  total_g_co2e k = total_kwh (energy r) * GRID_INTENSITY self /\
  total_kg_co2e k = quot (total_g_co2e k) (int 1000) /\
  grid_intensity_used k = GRID_INTENSITY self.

(** The sample as the result records it. *)
Definition echoes_input (duration_s cpu mem sto net : F)
    (r : Consumption F) : Prop :=
  input_parameters r = {|
    in_duration_seconds := duration_s;
    in_cpu_utilization := cpu;
    in_memory_gb := mem;
    in_storage_gb := sto;
    in_network_mb := net
  |}.

(** The figures of a projection [p] in terms of the savings and the number
    of daily tests. *)
Definition projection_formulas (daily_tests : Z) (c : Savings F)
    (p : Projections F) : Prop :=
  let d := daily_impact p in
  let a := annual_environmental_impact p in
  let k := annual_cost_savings p in
  daily_energy_saved_kwh d =
    quot (saved_energy_joules c * int daily_tests) (int 3600000) /\
  daily_carbon_saved_kg d =
    quot (saved_carbon_g_co2e c * int daily_tests) (int 1000) /\
  annual_energy_saved_kwh a = daily_energy_saved_kwh d * int 365 /\
  annual_carbon_saved_kg a = daily_carbon_saved_kg d * int 365 /\
  annual_carbon_saved_tons a = quot (annual_carbon_saved_kg a) (int 1000) /\
  energy_cost_savings k = annual_energy_saved_kwh a * ENERGY_COST_PER_KWH self /\
  carbon_credit_savings k =
    annual_carbon_saved_tons a * CARBON_CREDIT_COST_PER_TON self /\
  total_savings k = energy_cost_savings k + carbon_credit_savings k /\
  equivalent_cars_removed a = quot (annual_carbon_saved_tons a) (lit 4.6) /\
  equivalent_trees_planted a = quot (annual_carbon_saved_kg a) (int 22).

(** One of the three denominators the specification names is exactly zero:
    the baseline's [total_joules], its carbon in grams, or its duration.  The
    baseline is the wasteful profile. *)
Definition zero_denominator (wasteful : Metrics F) : Prop :=
  exists r,
    calculate_base_consumption_kw self wasteful = Returned r /\
    (is_zero (total_joules (energy r)) = true \/
     is_zero (total_g_co2e (carbon r)) = true \/
     is_zero (duration_seconds wasteful) = true).

(** The three are all nonzero. *)
Definition nonzero_denominators (wasteful : Metrics F) : Prop :=
  exists r,
    calculate_base_consumption_kw self wasteful = Returned r /\
    is_zero (total_joules (energy r)) = false /\
    is_zero (total_g_co2e (carbon r)) = false /\
    is_zero (duration_seconds wasteful) = false.

(** The three percentages of the summary are defined: the divisions by the
    baseline's [total_joules], carbon and duration return. *)
Definition summary_defined (sustainable wasteful : Metrics F) : Prop :=
  exists rs rw e c p,
    calculate_base_consumption_kw self sustainable = Returned rs /\
    calculate_base_consumption_kw self wasteful = Returned rw /\
    (total_joules (energy rw) - total_joules (energy rs))
    / total_joules (energy rw) = Returned e /\
    (total_g_co2e (carbon rw) - total_g_co2e (carbon rs))
    / total_g_co2e (carbon rw) = Returned c /\
    (duration_seconds wasteful - duration_seconds sustainable)
    / duration_seconds wasteful = Returned p.

(** The comparison of a scenario, its name set, at some reading of the
    clock. *)
Definition comparison_of (sc : Scenario F) (c : Comparison F) : Prop :=
  exists clk c0,
    value (calculate_framework_comparison self
             (sustainable_metrics sc) (wasteful_metrics sc) clk) = Returned c0 /\
    c = set_scenario_name c0 (name sc).

(** The comparison of a scenario succeeds. *)
Definition comparison_succeeds (sc : Scenario F) : Prop :=
  exists c, comparison_of sc c.

(** A failure inside the analyzer is caught and reported by the engine when
    the aggregator, its only caller, still returns a report for the
    collection; it is an uncontrolled exception when the aggregator raises
    with it. *)
Definition reported_by_engine (scs : list (Scenario F)) (clk : clock) : Prop :=
  exists r, value (generate_carbon_report self scs clk) = Returned r.

(** The sum over the scenarios, in the words of the specification: the
    items added one after the other, in their order, to the int 0. *)
Fixpoint added_in_order (start : F) (items : list F) : F :=
  match items with
  | [] => start
  | x :: rest => added_in_order (start + x) rest
  end.

Definition sum_over (items : list F) : F := added_in_order (int 0) items.

(** The arithmetic mean: the sum divided by the number of items. *)
Definition mean_over (items : list F) : F :=
  quot (sum_over items) (int (Z.of_nat (List.length items))).

(** The summary of a report [r] over the scenarios [scs]: the averages are
    the means and the totals the sums over the comparisons it lists, and the
    figures of its projection are those of 100 tests a day at the mean
    saving, the totals divided by the number of scenarios. *)
Definition report_aggregates (scs : list (Scenario F)) (r : Report F) : Prop :=
  let cs := detailed_scenarios r in
  let x := executive_summary r in
  let n := int (Z.of_nat (List.length scs)) in
  average_carbon_reduction_percent x =
    mean_over (map (fun c => carbon_reduction_percent (comparison_summary c)) cs) /\
  average_energy_reduction_percent x =
    mean_over (map (fun c => energy_reduction_percent (comparison_summary c)) cs) /\
  total_energy_saved_joules x =
    sum_over (map (fun c => energy_saved_joules (comparison_summary c)) cs) /\
  total_carbon_saved_g_co2e x =
    sum_over (map (fun c => carbon_saved_g_co2e (comparison_summary c)) cs) /\
  projection_formulas 100 {|
    saved_energy_joules :=
      quot (sum_over (map (fun c => energy_saved_joules (comparison_summary c))
                        cs)) n;
    saved_carbon_g_co2e :=
      quot (sum_over (map (fun c => carbon_saved_g_co2e (comparison_summary c))
                        cs)) n
  |} (annual_projections r).

(** A comparison and a report with their clock readings blanked. *)
Definition without_timestamp (c : Comparison F) : Comparison F := {|
  timestamp := EmptyString;
  comparison_summary := comparison_summary c;
  sustainable_framework := sustainable_framework c;
  wasteful_framework := wasteful_framework c;
  efficiency_analysis := efficiency_analysis c;
  scenario_name := scenario_name c
|}.

Definition without_timestamps (r : Report F) : Report F := {|
  report_metadata := {|
    generated_timestamp := EmptyString;
    scenarios_analyzed := scenarios_analyzed (report_metadata r);
    calculator_version := calculator_version (report_metadata r)
  |};
  executive_summary := executive_summary r;
  detailed_scenarios := map without_timestamp (detailed_scenarios r);
  annual_projections := annual_projections r;
  methodology := methodology r
|}.

End Vocabulary.

(** In binary64: a valid sample, and the order of two calls by the
    [total_wh] they return.  [<=?] is Python's [<=] on floats, false when
    either side is a NaN. *)
Definition valid_sample (duration_s cpu mem sto net : float) : Prop :=
  (0 <=? duration_s)%float = true /\
  (0 <=? cpu)%float = true /\ (cpu <=? 1)%float = true /\
  (0 <=? mem)%float = true /\
  (0 <=? sto)%float = true /\
  (0 <=? net)%float = true.

Definition total_wh_le (o1 o2 : outcome (Consumption float)) : Prop :=
  exists r1 r2,
    o1 = Returned r1 /\ o2 = Returned r2 /\
    (total_wh (energy r1) <=? total_wh (energy r2))%float = true.

(** The [total_wh] of a call is a NaN. *)
Definition total_wh_is_nan (o : outcome (Consumption float)) : Prop :=
  exists r, o = Returned r /\ is_nan (total_wh (energy r)) = true.

(** A valid sample of finite quantities: no infinity among them
    ([cpu], at most 1, is finite). *)
Definition finite_valid_sample (duration_s cpu mem sto net : float) : Prop :=
  valid_sample duration_s cpu mem sto net /\
  (duration_s <? infinity)%float = true /\
  (mem <? infinity)%float = true /\
  (sto <? infinity)%float = true /\
  (net <? infinity)%float = true.

(** [total_wh] does not decrease when one quantity of the sample grows to
    another sample of the kind [sample] and the others stay. *)
Definition total_wh_monotone_among
    (sample : float -> float -> float -> float -> float -> Prop)
    (self : CarbonImpactCalculator float)
    (duration_s cpu mem sto net : float) : Prop :=
  let here := calculate_base_consumption self duration_s cpu mem sto net in
  (forall duration_s',
     (duration_s <=? duration_s')%float = true ->
     sample duration_s' cpu mem sto net ->
     total_wh_le here
       (calculate_base_consumption self duration_s' cpu mem sto net)) /\
  (forall cpu',
     (cpu <=? cpu')%float = true ->
     sample duration_s cpu' mem sto net ->
     total_wh_le here
       (calculate_base_consumption self duration_s cpu' mem sto net)) /\
  (forall mem',
     (mem <=? mem')%float = true ->
     sample duration_s cpu mem' sto net ->
     total_wh_le here
       (calculate_base_consumption self duration_s cpu mem' sto net)) /\
  (forall sto',
     (sto <=? sto')%float = true ->
     sample duration_s cpu mem sto' net ->
     total_wh_le here
       (calculate_base_consumption self duration_s cpu mem sto' net)) /\
  (forall net',
     (net <=? net')%float = true ->
     sample duration_s cpu mem sto net' ->
     total_wh_le here
       (calculate_base_consumption self duration_s cpu mem sto net')).

(** The same among all valid samples. *)
Definition total_wh_monotone_at (self : CarbonImpactCalculator float)
    (duration_s cpu mem sto net : float) : Prop :=
  total_wh_monotone_among valid_sample self duration_s cpu mem sto net.

(** ** Rounding to binary64, in integers

    What the operations of binary64 compute, after the specification of
    the Standard Library ([SpecFloat]): a non-negative real is given by a
    fraction [A / D] in units of [2 ^ e]; it is truncated to its integral part
    with a location, the position of the rest with respect to the half, and
    rounded to the nearest integer, to the even one in case of a tie. *)

Definition loc_of (r d : Z) : location :=
  if (r =? 0)%Z then loc_Exact else loc_Inexact (2 * r ?= d)%Z.

(** The mantissa [m] and the location [l] are those of the fraction
    [A / D]. *)
Definition located (A D m : Z) (l : location) : Prop :=
  (0 <= A /\ 0 < D /\ m = A / D)%Z /\ l = loc_of (A mod D)%Z D.

(** [A / D] rounded to the nearest integer, ties to even. *)
Definition rne (A D : Z) : Z :=
  round_nearest_even (A / D)%Z (loc_of (A mod D)%Z D).

(** The binary64 number of value [n * 2 ^ e], for [n] of at most 53 bits or
    the 54-bit [2 ^ 53]: zero, a finite number, or the infinity it overflows
    to. *)
Definition encode (n e : Z) : spec_float :=
  let (m, e') := if (n =? 2 ^ 53)%Z then (2 ^ 52, e + 1)%Z else (n, e) in
  match m with
  | Zpos p => if (e' <=? 971)%Z then S754_finite false p e'
              else S754_infinity false
  | Z0 => S754_zero false
  | Zneg _ => S754_nan
  end.

(** The non-negative floats: a zero, a positive number, the positive
    infinity; and the finite ones among them. *)
Definition nonneg (x : spec_float) : Prop :=
  match x with
  | S754_zero _ => True
  | S754_finite s _ _ => s = false
  | S754_infinity s => s = false
  | S754_nan => False
  end.

Definition finite_nonneg (x : spec_float) : Prop :=
  match x with
  | S754_zero _ => True
  | S754_finite s _ _ => s = false
  | _ => False
  end.

(** A mantissa and an exponent as binary64 has them: at most 53 bits (or
    [2 ^ 53], before the carry), and 53 bits exactly above the smallest
    exponent. *)
Definition canonical_pair (n e : Z) : Prop :=
  (0 <= n <= 2 ^ 53 /\ -1074 <= e /\ (2 ^ 52 <= n \/ e = -1074))%Z.

(** The value of [n * 2 ^ e] in units of [2 ^ -1074], the smallest positive
    number. *)
Definition units (n e : Z) : Z := (n * 2 ^ (e + 1074))%Z.

(** What [Prim2SF] gives: 53 bits at most, exponents within the range. *)
Definition valid64 (x : spec_float) : Prop :=
  SpecFloat.valid_binary prec emax x = true.

(** [x] is the float the fraction [A / D], in units of [2 ^ e], rounds to. *)
Definition rounding (x : spec_float) (A D e : Z) : Prop :=
  exists m l,
    x = binary_round_aux prec emax false m e l /\
    located A D m l /\
    (e <= fexp prec emax (Zdigits2 m + e))%Z.

(** [<=] on floats. *)
Definition le64 (x y : spec_float) : Prop := SFleb x y = true.

Definition positive_finite (x : spec_float) : Prop :=
  exists m e, x = S754_finite false m e.

(** The same of the floats of the machine. *)
Definition nonneg_float (a : float) : Prop := nonneg (Prim2SF a).
Definition finite_float (a : float) : Prop := finite_nonneg (Prim2SF a).
Definition positive_float (a : float) : Prop := positive_finite (Prim2SF a).

(** The largest finite float, [sys.float_info.max]. *)
Definition largest : float := 0x1.fffffffffffffp+1023%float.


(** ** More vocabulary: the comparison and the report in closed form *)

(** The clock after [n] readings. *)
Fixpoint later (n : nat) (clk : clock) : clock :=
  match n with
  | O => clk
  | S n' => later n' (fun i => clk (S i))
  end.

Section ComparisonVocabulary.

Context {F : Type} {num : Number F}.
Variable self : CarbonImpactCalculator F.

Local Open Scope num_scope.

(** All five divisors of the comparison are nonzero: the baseline's
    [total_joules], carbon and duration, and its [cpu_utilization] and
    [memory_gb]. *)
Definition all_divisors_nonzero (wasteful : Metrics F) : Prop :=
  nonzero_denominators self wasteful /\
  is_zero (cpu_utilization wasteful) = false /\
  is_zero (memory_gb wasteful) = false.

(** The dict the comparison returns, given the two estimates and the reading
    of the clock. *)
Definition comparison_record (sustainable wasteful : Metrics F)
    (rs rw : Consumption F) (stamp : isoformat) : Comparison F := {|
  timestamp := stamp;
  comparison_summary := {|
    energy_reduction_percent :=
      quot (total_joules (energy rw) - total_joules (energy rs))
        (total_joules (energy rw)) * int 100;
    carbon_reduction_percent :=
      quot (total_g_co2e (carbon rw) - total_g_co2e (carbon rs))
        (total_g_co2e (carbon rw)) * int 100;
    performance_improvement_percent :=
      quot (duration_seconds wasteful - duration_seconds sustainable)
        (duration_seconds wasteful) * int 100;
    energy_saved_joules :=
      total_joules (energy rw) - total_joules (energy rs);
    carbon_saved_g_co2e :=
      total_g_co2e (carbon rw) - total_g_co2e (carbon rs)
  |};
  sustainable_framework := rs;
  wasteful_framework := rw;
  efficiency_analysis := {|
    cpu_efficiency_improvement :=
      quot (cpu_utilization wasteful - cpu_utilization sustainable)
        (cpu_utilization wasteful) * int 100;
    memory_efficiency_improvement :=
      quot (memory_gb wasteful - memory_gb sustainable)
        (memory_gb wasteful) * int 100
  |};
  scenario_name := None
|}.

(** The dict the report returns, given the comparisons of its loop, the
    projection and the reading of the clock. *)
Definition report_record (test_scenarios : list (Scenario F))
    (total_comparisons : list (Comparison F)) (p : Projections F)
    (stamp : isoformat) : Report F := {|
  report_metadata := {|
    generated_timestamp := stamp;
    scenarios_analyzed := List.length test_scenarios;
    calculator_version := "1.0.0"%string
  |};
  executive_summary := {|
    average_carbon_reduction_percent :=
      quot (sum (map (fun c => carbon_reduction_percent (comparison_summary c))
                   total_comparisons))
        (len total_comparisons);
    average_energy_reduction_percent :=
      quot (sum (map (fun c => energy_reduction_percent (comparison_summary c))
                   total_comparisons))
        (len total_comparisons);
    total_energy_saved_joules :=
      sum (map (fun c => energy_saved_joules (comparison_summary c))
             total_comparisons);
    total_carbon_saved_g_co2e :=
      sum (map (fun c => carbon_saved_g_co2e (comparison_summary c))
             total_comparisons)
  |};
  detailed_scenarios := total_comparisons;
  annual_projections := p;
  methodology := {|
    grid_intensity_g_co2_kwh := GRID_INTENSITY self;
    cpu_base_watts := CPU_BASE_WATTS self;
    memory_watts_per_gb := MEMORY_WATTS_PER_GB self;
    cloud_pue_factor := CLOUD_PUE self;
    standards_compliance :=
      ["Software Carbon Intensity (SCI) Specification";
       "GHG Protocol Scope 2 Guidance";
       "Green Software Foundation Standards"]%string
  |}
|}.

(** The mean saving the report projects. *)
Definition mean_savings (test_scenarios : list (Scenario F))
    (total_comparisons : list (Comparison F)) : Savings F := {|
  saved_energy_joules :=
    quot (sum (map (fun c => energy_saved_joules (comparison_summary c))
                 total_comparisons))
      (len test_scenarios);
  saved_carbon_g_co2e :=
    quot (sum (map (fun c => carbon_saved_g_co2e (comparison_summary c))
                 total_comparisons))
      (len test_scenarios)
|}.

(** What the report keeps of its run: the number of scenarios, their names
    and the readings of the clock, in order, and the coefficients. *)
Definition report_bookkeeping (test_scenarios : list (Scenario F))
    (clk : clock) (r : Report F) (k : clock) : Prop :=
  let n := List.length test_scenarios in
  scenarios_analyzed (report_metadata r) = n /\
  List.length (detailed_scenarios r) = n /\
  map scenario_name (detailed_scenarios r)
  = map (fun sc => Some (name sc)) test_scenarios /\
  map timestamp (detailed_scenarios r) = map clk (seq 0 n) /\
  generated_timestamp (report_metadata r) = clk n /\
  k = later (S n) clk /\
  grid_intensity_g_co2_kwh (methodology r) = GRID_INTENSITY self /\
  cpu_base_watts (methodology r) = CPU_BASE_WATTS self /\
  memory_watts_per_gb (methodology r) = MEMORY_WATTS_PER_GB self /\
  cloud_pue_factor (methodology r) = CLOUD_PUE self.

End ComparisonVocabulary.

(** * [Demo/netzero_demo.py]

    The hackathon demonstration: a calculator of two class methods, two
    simulated frameworks that log three tests each, and the comparison of
    their totals.  [print] and [time.sleep] have no part in the values and
    are left out; the file written by [save_results] is the dict it builds. *)

Module NetZeroDemo.

Section Demo.

Context {F : Type} {num : Number F}.

Local Open Scope num_scope.

(** ** [class CarbonCalculator] *)

Definition GRID_INTENSITY : F := int 400.
Definition CPU_POWER_WATTS : F := int 30.
Definition MEMORY_POWER_PER_GB : F := lit 0.372.

Definition calculate_energy_consumption (cpu_time_seconds memory_gb : F) : F :=
  let cpu_energy_joules := cpu_time_seconds * CPU_POWER_WATTS in
  let memory_energy_joules :=
    cpu_time_seconds * memory_gb * MEMORY_POWER_PER_GB in
  cpu_energy_joules + memory_energy_joules.

Definition calculate_carbon_footprint (energy_joules : F) : outcome F :=
  (energy_wh <- energy_joules / int 3600 ;;
   energy_kwh <- energy_wh / int 1000 ;;
   Returned (energy_kwh * GRID_INTENSITY))%py.

(** ** [class TestFrameworkSimulator] *)

(** An entry of [execution_logs]. *)
Record Execution : Type := {
  test : string;
  duration_seconds : F;
  energy_joules : F;
  carbon_g_co2e : F;
  timestamp : isoformat
}.

Record TestFrameworkSimulator : Type := {
  name : string;
  execution_logs : list Execution;
  total_energy : F;
  total_carbon : F
}.

(** [TestFrameworkSimulator.__init__]; the totals start at [0.0]. *)
Definition TestFrameworkSimulator_init (name : string)
    : TestFrameworkSimulator := {|
  name := name;
  execution_logs := [];
  total_energy := lit 0;
  total_carbon := lit 0
|}.

(** The method mutates [self]; here it returns the object after the call. *)
Definition log_execution (self : TestFrameworkSimulator) (test_name : string)
    (duration energy carbon : F) : clocked TestFrameworkSimulator :=
  (stamp <- now ;;
   ret {|
     name := name self;
     execution_logs :=
       execution_logs self ++ [{|
         test := test_name;
         duration_seconds := duration;
         energy_joules := energy;
         carbon_g_co2e := carbon;
         timestamp := stamp
       |}];
     total_energy := total_energy self + energy;
     total_carbon := total_carbon self + carbon
   |})%clocked.

(** ** [class GreenerFrameworkSimulator] *)

Record GreenerFrameworkSimulator : Type := {
  simulator : TestFrameworkSimulator;
  http_client_initialized : bool;
  config_cached : bool
}.

Definition GreenerFrameworkSimulator_init : GreenerFrameworkSimulator := {|
  simulator := TestFrameworkSimulator_init "GreenerTestFramework";
  http_client_initialized := false;
  config_cached := false
|}.

Definition greener_scenarios : list (string * F * F) :=
  [("Test_Login"%string, lit 0.75, lit 0.5);
   ("Test_Inventory"%string, lit 0.85, lit 0.3);
   ("Test_Checkout"%string, lit 0.95, lit 0.6)].

(** The [for] loop of [GreenerFrameworkSimulator.run_test_suite]. *)
Fixpoint greener_tests (test_scenarios : list (string * F * F))
    (self : TestFrameworkSimulator) : clocked TestFrameworkSimulator :=
  match test_scenarios with
  | [] => ret self
  | (test_name, duration, memory_gb) :: rest =>
      (let energy := calculate_energy_consumption duration memory_gb in
       carbon <~ calculate_carbon_footprint energy ;;
       self <- log_execution self test_name duration energy carbon ;;
       greener_tests rest self)%clocked
  end.

Definition greener_run_test_suite (self : GreenerFrameworkSimulator)
    : clocked GreenerFrameworkSimulator :=
  let http_client_initialized :=
    if negb (http_client_initialized self) then true
    else http_client_initialized self in
  let config_cached :=
    if negb (config_cached self) then true else config_cached self in
  (logged <- greener_tests greener_scenarios (simulator self) ;;
   ret {|
     simulator := logged;
     http_client_initialized := http_client_initialized;
     config_cached := config_cached
   |})%clocked.

(** ** [class NonGreenFrameworkSimulator] *)

Definition NonGreenFrameworkSimulator_init : TestFrameworkSimulator :=
  TestFrameworkSimulator_init "NonGreenTestFramework".

Definition non_green_scenarios : list (string * F * F) :=
  [("Test_Login"%string, lit 2.35, lit 0.8);
   ("Test_Inventory"%string, lit 0.94, lit 0.4);
   ("Test_Checkout"%string, lit 2.85, lit 0.9)].

(** The outer [for] loop of [NonGreenFrameworkSimulator.run_test_suite].  The
    inner loop over [range(1, 4)] prints and sleeps; the [duration] and
    [memory_gb] it computes are used for nothing else.  [3 * 0.1] is the
    product of the int 3 and the float 0.1. *)
Fixpoint non_green_tests (test_scenarios : list (string * F * F))
    (self : TestFrameworkSimulator) : clocked TestFrameworkSimulator :=
  match test_scenarios with
  | [] => ret self
  | (test_name, base_duration, base_memory) :: rest =>
      (let final_duration := base_duration + (int 3 * lit 0.1) in
       let final_memory := base_memory + (int 3 * lit 0.1) in
       let energy :=
         calculate_energy_consumption final_duration final_memory in
       carbon <~ calculate_carbon_footprint energy ;;
       self <- log_execution self test_name final_duration energy carbon ;;
       non_green_tests rest self)%clocked
  end.

Definition non_green_run_test_suite (self : TestFrameworkSimulator)
    : clocked TestFrameworkSimulator :=
  non_green_tests non_green_scenarios self.

(** ** [class HackathonDemonstrtor] *)

Record HackathonDemonstrtor : Type := {
  green_framework : GreenerFrameworkSimulator;
  wasteful_framework : TestFrameworkSimulator
}.

Definition HackathonDemonstrtor_init : HackathonDemonstrtor := {|
  green_framework := GreenerFrameworkSimulator_init;
  wasteful_framework := NonGreenFrameworkSimulator_init
|}.

(** The numbers [display_comparison_results] computes and prints. *)
Record Displayed : Type := {
  energy_reduction : F;
  carbon_reduction : F;
  performance_improvement : F;
  monthly_energy_savings : F;
  monthly_carbon_savings : F;
  monthly_cost_savings : F
}.

(** [sum(log['duration_seconds'] for log in execution_logs)] *)
Definition logged_duration (self : TestFrameworkSimulator) : F :=
  sum (map duration_seconds (execution_logs self)).

Definition display_comparison_results (self : HackathonDemonstrtor)
    : outcome Displayed :=
  (let baseline_energy := total_energy (wasteful_framework self) in
   let optimized_energy := total_energy (simulator (green_framework self)) in
   energy_ratio <- (baseline_energy - optimized_energy) / baseline_energy ;;
   let energy_reduction := energy_ratio * int 100 in
   let baseline_carbon := total_carbon (wasteful_framework self) in
   let optimized_carbon := total_carbon (simulator (green_framework self)) in
   carbon_ratio <- (baseline_carbon - optimized_carbon) / baseline_carbon ;;
   let carbon_reduction := carbon_ratio * int 100 in
   let baseline_duration := logged_duration (wasteful_framework self) in
   let optimized_duration :=
     logged_duration (simulator (green_framework self)) in
   performance_ratio <-
     (baseline_duration - optimized_duration) / baseline_duration ;;
   let performance_improvement := performance_ratio * int 100 in
   monthly_energy_wh <-
     ((baseline_energy - optimized_energy) * int 1000) / int 3600 ;;
   monthly_energy_savings <- monthly_energy_wh / int 1000 ;;
   monthly_carbon_savings <-
     ((baseline_carbon - optimized_carbon) * int 1000) / int 1000 ;;
   let monthly_cost_savings := monthly_energy_savings * lit 0.12 in
   Returned {|
     energy_reduction := energy_reduction;
     carbon_reduction := carbon_reduction;
     performance_improvement := performance_improvement;
     monthly_energy_savings := monthly_energy_savings;
     monthly_carbon_savings := monthly_carbon_savings;
     monthly_cost_savings := monthly_cost_savings
   |})%py.

(** The dict [save_results] dumps; its [methodology] entry, three constant
    strings, is left out.  The keys [name] and [execution_logs] of the two
    framework entries are the fields [framework_name] and [logs]. *)
Record FrameworkResults : Type := {
  framework_name : string;
  total_energy_joules : F;
  total_carbon_g_co2e : F;
  logs : list Execution
}.

Record Improvements : Type := {
  energy_reduction_percentage : F;
  carbon_reduction_percentage : F;
  performance_improvement_percentage : F
}.

Record Results : Type := {
  hackathon_demo_timestamp : isoformat;
  baseline_framework : FrameworkResults;
  optimized_framework : FrameworkResults;
  improvements : Improvements
}.

Definition framework_results (s : TestFrameworkSimulator)
    : FrameworkResults := {|
  framework_name := name s;
  total_energy_joules := total_energy s;
  total_carbon_g_co2e := total_carbon s;
  logs := execution_logs s
|}.

Definition save_results (self : HackathonDemonstrtor) : clocked Results :=
  (let wasteful := wasteful_framework self in
   let green := simulator (green_framework self) in
   stamp <- now ;;
   energy_ratio <~
     (total_energy wasteful - total_energy green) / total_energy wasteful ;;
   carbon_ratio <~
     (total_carbon wasteful - total_carbon green) / total_carbon wasteful ;;
   performance_ratio <~
     (logged_duration wasteful - logged_duration green)
     / logged_duration wasteful ;;
   ret {|
     hackathon_demo_timestamp := stamp;
     baseline_framework := framework_results wasteful;
     optimized_framework := framework_results green;
     improvements := {|
       energy_reduction_percentage := energy_ratio * int 100;
       carbon_reduction_percentage := carbon_ratio * int 100;
       performance_improvement_percentage := performance_ratio * int 100
     |}
   |})%clocked.

(** The demonstrator after the run, and the results it saved. *)
Definition run_comparative_demo (self : HackathonDemonstrtor)
    : clocked (HackathonDemonstrtor * Results) :=
  (wasteful <- non_green_run_test_suite (wasteful_framework self) ;;
   green <- greener_run_test_suite (green_framework self) ;;
   let self := {| green_framework := green; wasteful_framework := wasteful |} in
   displayed <~ display_comparison_results self ;;
   results <- save_results self ;;
   ret (self, results))%clocked.

Definition main : clocked (HackathonDemonstrtor * Results) :=
  run_comparative_demo HackathonDemonstrtor_init.

(** ** Vocabulary *)

(** The totals of a simulator are the sums of its log, added in order
    from [0.0]. *)
Definition totals_match_logs (s : TestFrameworkSimulator) : Prop :=
  total_energy s
  = fold_left add (map energy_joules (execution_logs s)) (lit 0) /\
  total_carbon s
  = fold_left add (map carbon_g_co2e (execution_logs s)) (lit 0).

(** The carbon of a log entry is the footprint of its energy. *)
Definition footprint_logged (l : Execution) : Prop :=
  calculate_carbon_footprint (energy_joules l) = Returned (carbon_g_co2e l).

(** What a simulator has become after logging the tests of [scenarios],
    given the measure [measure] of a scenario's duration and memory: the
    entries [added] are appended, one for each scenario in order, each with
    the next reading of the clock, and their energy and carbon are added to
    the totals in order. *)
Definition suite_logged (measure : F -> F -> F * F)
    (scenarios : list (string * F * F)) (clk : clock)
    (s s' : TestFrameworkSimulator) (k : clock) : Prop :=
  exists added,
    execution_logs s' = execution_logs s ++ added /\
    name s' = name s /\
    map test added = map (fun sc => fst (fst sc)) scenarios /\
    map duration_seconds added
    = map (fun sc => fst (measure (snd (fst sc)) (snd sc))) scenarios /\
    map energy_joules added
    = map (fun sc => let (d, m) := measure (snd (fst sc)) (snd sc) in
                     calculate_energy_consumption d m) scenarios /\
    Forall footprint_logged added /\
    map timestamp added = map clk (seq 0 (List.length scenarios)) /\
    k = later (List.length scenarios) clk /\
    total_energy s'
    = fold_left add (map energy_joules added) (total_energy s) /\
    total_carbon s'
    = fold_left add (map carbon_g_co2e added) (total_carbon s).

(** The green suite measures a scenario as it is, the wasteful suite with
    three tenths added to its duration and to its memory. *)
Definition as_given (duration memory_gb : F) : F * F := (duration, memory_gb).

Definition inflated (base_duration base_memory : F) : F * F :=
  (base_duration + (int 3 * lit 0.1), base_memory + (int 3 * lit 0.1)).

(** The three numbers the comparison divides by are nonzero. *)
Definition baseline_nonzero (self : HackathonDemonstrtor) : Prop :=
  is_zero (total_energy (wasteful_framework self)) = false /\
  is_zero (total_carbon (wasteful_framework self)) = false /\
  is_zero (logged_duration (wasteful_framework self)) = false.

End Demo.

Arguments Execution F : clear implicits.
Arguments TestFrameworkSimulator F : clear implicits.
Arguments GreenerFrameworkSimulator F : clear implicits.
Arguments HackathonDemonstrtor F : clear implicits.
Arguments Displayed F : clear implicits.
Arguments FrameworkResults F : clear implicits.
Arguments Improvements F : clear implicits.
Arguments Results F : clear implicits.

End NetZeroDemo.

(** * [Demo/dashboard_simulator.py]

    The dashboard: two running totals, fed by simulated executions whose
    resource use is drawn at random.  [print] and [time.sleep] are left out,
    the file written by [save_simulation_results] is the dict it builds. *)

(** [a > b] on numbers. *)
Class Compare (F : Type) : Type := {
  gtb : F -> F -> bool
}.

#[export] Instance float_compare : Compare float := {|
  gtb := fun a b => PrimFloat.ltb b a
|}.

Module Dashboard.

Section Simulator.

Context {F : Type} {num : Number F} {cmp : Compare F}.

Local Open Scope num_scope.

(** ** The world: the clock and the random generator

    [datetime.now()] reads the clock.  The generator is the sequence of the
    values [random.random()] is still to return to [random.uniform];
    [random.choice] picks the name of a test, which is only printed, and is
    left out.  [time.time()] decides how often the loop runs: the number of
    its iterations is a parameter of [run_simulation]. *)
Record world : Type := {
  readings : clock;
  draws : nat -> F
}.

Definition simulated (A : Type) : Type := world -> outcome (A * world).

Definition sret {A : Type} (a : A) : simulated A := fun w => Returned (a, w).

Definition sbind {A B : Type} (m : simulated A) (k : A -> simulated B)
    : simulated B :=
  fun w =>
    match m w with
    | Returned (a, w') => k a w'
    | Raised e => Raised e
    end.

Definition slift {A : Type} (o : outcome A) : simulated A :=
  fun w =>
    match o with
    | Returned a => Returned (a, w)
    | Raised e => Raised e
    end.

Definition datetime_now : simulated isoformat :=
  fun w => Returned (readings w 0%nat,
                     {| readings := fun n => readings w (S n);
                        draws := draws w |}).

Definition random : simulated F :=
  fun w => Returned (draws w 0%nat,
                     {| readings := readings w;
                        draws := fun n => draws w (S n) |}).

(** [random.uniform(a, b)] is [a + (b - a) * self.random()]. *)
Definition uniform (a b : F) : simulated F :=
  sbind random (fun r => sret (a + (b - a) * r)).

(** ** [class CarbonDashboardSimulator] *)

Record FrameworkMetrics : Type := {
  energy : F;
  carbon : F;
  tests_run : Z
}.

Record CurrentMetrics : Type := {
  sustainable : FrameworkMetrics;
  wasteful : FrameworkMetrics
}.

Record CarbonDashboardSimulator : Type := {
  grid_intensity : F;
  cpu_watts : F;
  memory_watts_per_gb : F;
  current_metrics : CurrentMetrics
}.

(** [__init__]; the totals start at the int 0. *)
Definition init : CarbonDashboardSimulator := {|
  grid_intensity := int 400;
  cpu_watts := int 30;
  memory_watts_per_gb := lit 0.372;
  current_metrics := {|
    sustainable := {| energy := int 0; carbon := int 0; tests_run := 0 |};
    wasteful := {| energy := int 0; carbon := int 0; tests_run := 0 |}
  |}
|}.

(** The result of [simulate_test_execution]. *)
Record Execution : Type := {
  energy_joules : F;
  carbon_g_co2e : F;
  duration_seconds : F;
  cpu_utilization : F;
  memory_gb : F;
  network_efficiency : F
}.

Definition simulate_test_execution (self : CarbonDashboardSimulator)
    (framework_type : string) (test_duration : F) : simulated Execution :=
  let is_sustainable := String.eqb framework_type "sustainable" in
  sbind (if is_sustainable then uniform (lit 0.15) (lit 0.25)
         else uniform (lit 0.6) (lit 0.8)) (fun cpu_utilization =>
  sbind (if is_sustainable then uniform (lit 0.5) (lit 1.0)
         else uniform (lit 2.0) (lit 3.5)) (fun memory_gb =>
  let network_efficiency :=
    if is_sustainable then lit 0.8 else lit 0.3 in
  sbind (slift ((cpu_watts self * cpu_utilization * test_duration)
                / int 3600)) (fun cpu_energy =>
  sbind (slift ((memory_watts_per_gb self * memory_gb * test_duration)
                / int 3600)) (fun memory_energy =>
  sbind (if is_sustainable then sret (int 0)
         else uniform (lit 0.1) (lit 0.2)) (fun network_overhead =>
  let total_energy_wh := cpu_energy + memory_energy + network_overhead in
  let total_energy_joules := total_energy_wh * int 3600 in
  sbind (slift ((total_energy_wh * grid_intensity self) / int 1000))
    (fun carbon_g_co2e =>
  sret {|
    energy_joules := total_energy_joules;
    carbon_g_co2e := carbon_g_co2e;
    duration_seconds := test_duration;
    cpu_utilization := cpu_utilization;
    memory_gb := memory_gb;
    network_efficiency := network_efficiency
  |})))))).

(** The savings [display_dashboard] prints, when it prints them. *)
Definition display_dashboard (self : CarbonDashboardSimulator)
    : simulated (option (F * F)) :=
  sbind datetime_now (fun updated =>
  let sustainable := sustainable (current_metrics self) in
  let wasteful := wasteful (current_metrics self) in
  if gtb (energy wasteful) (int 0) then
    sbind (slift ((energy wasteful - energy sustainable) / energy wasteful))
      (fun energy_ratio =>
    sbind (slift ((carbon wasteful - carbon sustainable) / carbon wasteful))
      (fun carbon_ratio =>
    sret (Some (energy_ratio * int 100, carbon_ratio * int 100))))
  else sret None).

(** [+=] on the three entries of a framework's metrics. *)
Definition updated (m : FrameworkMetrics) (result : Execution)
    : FrameworkMetrics := {|
  energy := energy m + energy_joules result;
  carbon := carbon m + carbon_g_co2e result;
  tests_run := (tests_run m + 1)%Z
|}.

(** The dict [save_simulation_results] dumps. *)
Record Savings : Type := {
  energy_reduction_percent : F;
  carbon_reduction_percent : F;
  energy_saved_joules : F;
  carbon_saved_g_co2e : F
}.

Record SimulationSummary : Type := {
  total_tests_per_framework : Z;
  sustainable_framework : FrameworkMetrics;
  wasteful_framework : FrameworkMetrics;
  savings : Savings
}.

Record Results : Type := {
  timestamp : isoformat;
  simulation_summary : SimulationSummary
}.

Definition save_simulation_results (self : CarbonDashboardSimulator)
    : simulated Results :=
  let s := sustainable (current_metrics self) in
  let w := wasteful (current_metrics self) in
  sbind datetime_now (fun stamp =>
  sbind (slift ((energy w - energy s) / energy w)) (fun energy_ratio =>
  sbind (slift ((carbon w - carbon s) / carbon w)) (fun carbon_ratio =>
  sret {|
    timestamp := stamp;
    simulation_summary := {|
      total_tests_per_framework := tests_run s;
      sustainable_framework := s;
      wasteful_framework := w;
      savings := {|
        energy_reduction_percent := energy_ratio * int 100;
        carbon_reduction_percent := carbon_ratio * int 100;
        energy_saved_joules := energy w - energy s;
        carbon_saved_g_co2e := carbon w - carbon s
      |}
    |}
  |}))).

(** The body of the [while] loop of [run_simulation]. *)
Definition run_test (self : CarbonDashboardSimulator)
    : simulated CarbonDashboardSimulator :=
  sbind (uniform (int 3) (int 8)) (fun test_duration =>
  sbind (simulate_test_execution self "sustainable" test_duration)
    (fun sustainable_result =>
  sbind (simulate_test_execution self "wasteful" test_duration)
    (fun wasteful_result =>
  let self := {|
    grid_intensity := grid_intensity self;
    cpu_watts := cpu_watts self;
    memory_watts_per_gb := memory_watts_per_gb self;
    current_metrics := {|
      sustainable :=
        updated (sustainable (current_metrics self)) sustainable_result;
      wasteful := updated (wasteful (current_metrics self)) wasteful_result
    |}
  |} in
  sbind (display_dashboard self) (fun displayed =>
  sbind (uniform (int 2) (int 4)) (fun pause =>
  sret self))))).

Fixpoint run_tests (iterations : nat) (self : CarbonDashboardSimulator)
    : simulated CarbonDashboardSimulator :=
  match iterations with
  | O => sret self
  | S n => sbind (run_test self) (run_tests n)
  end.

(** The dashboard after the run, and the results it saved. *)
Definition run_simulation (iterations : nat) (self : CarbonDashboardSimulator)
    : simulated (CarbonDashboardSimulator * Results) :=
  sbind (run_tests iterations self) (fun self =>
  sbind (save_simulation_results self) (fun results =>
  sret (self, results))).

(** ** Vocabulary *)

(** The two numbers the results divide by are nonzero. *)
Definition baseline_nonzero (self : CarbonDashboardSimulator) : Prop :=
  is_zero (energy (wasteful (current_metrics self))) = false /\
  is_zero (carbon (wasteful (current_metrics self))) = false.

End Simulator.

Arguments world F : clear implicits.
Arguments simulated F A : clear implicits.
Arguments FrameworkMetrics F : clear implicits.
Arguments CurrentMetrics F : clear implicits.
Arguments CarbonDashboardSimulator F : clear implicits.
Arguments Execution F : clear implicits.
Arguments Savings F : clear implicits.
Arguments SimulationSummary F : clear implicits.
Arguments Results F : clear implicits.

End Dashboard.

(** * [main] of [Demo/impact_calculator.py]

    The report of the three sample scenarios; the file it is dumped to and
    the lines printed from it are left out. *)
Definition main {F : Type} {num : Number F} : clocked (Report F) :=
  generate_carbon_report init test_scenarios.

(** * Properties *)

(** ** The two number systems are lawful and count *)

#[export] Instance Q_lawful : Lawful Q.
Proof.
  split.
  - reflexivity.
  - intros z Hz. simpl in Hz.
    repeat (destruct Hz as [<- | Hz]; [reflexivity |]). contradiction.
  - intros q Hq. simpl in Hq.
    repeat (destruct Hq as [<- | Hq]; [reflexivity |]). contradiction.
Qed.

#[export] Instance Q_counts : Counts Q.
Proof.
  split. intros n. cbn [is_zero int Q_number].
  apply not_true_is_false. intros H. apply Qeq_bool_iff in H.
  unfold Qeq in H. cbn [Qnum Qden inject_Z] in H. lia.
Qed.

#[export] Instance float_lawful : Lawful float.
Proof.
  split.
  - vm_compute. reflexivity.
  - intros z Hz. simpl in Hz.
    repeat (destruct Hz as [<- | Hz]; [vm_compute; reflexivity |]). contradiction.
  - intros q Hq. simpl in Hq.
    repeat (destruct Hq as [<- | Hq]; [vm_compute; reflexivity |]). contradiction.
Qed.

(** The conversions of binary64 on a few values: an [int] that is a double,
    one that is halfway between two doubles and goes to the even one, and the
    coefficient 0.372. *)
Example of_int_3600 : Binary64.of_int 3600 = 3600%float.
Proof. vm_compute. reflexivity. Qed.

Example of_int_ties_to_even :
  Binary64.of_int (2 ^ 53 + 1) = Binary64.of_int (2 ^ 53) /\
  Binary64.of_int (2 ^ 53 + 3) = Binary64.of_int (2 ^ 53 + 4).
Proof. split; vm_compute; reflexivity. Qed.

(** The largest int that converts, and the first that does not. *)
Example of_int_largest :
  Binary64.of_int (2 ^ 1024 - 2 ^ 970 - 1) = 0x1.fffffffffffffp+1023%float /\
  Binary64.of_int (2 ^ 1024 - 2 ^ 970) = infinity.
Proof. split; vm_compute; reflexivity. Qed.

Example of_literal_0_372 :
  Binary64.of_literal 0.372 = 0x1.7ced916872b02p-2%float.
Proof. vm_compute. reflexivity. Qed.

(** *** Binary64 counts

    [float(n)] is not zero for a positive [n]: rounding a positive integer
    to 53 bits leaves a positive mantissa, or overflows to an infinity.  The
    lemmas follow the steps of [binary_round]: align the mantissa, shift it
    right to 53 bits ([shr_fexp]), round to nearest even, shift once more if
    the rounding carried. *)

Section Binary64Counts.

Local Open Scope Z_scope.

Lemma digits2_pos_size (p : positive) : digits2_pos p = Pos.size p.
Proof. induction p as [p IH | p IH |]; cbn; [rewrite IH .. |]; reflexivity. Qed.

Lemma Zdigits2_log2 (m : Z) : 0 < m -> Zdigits2 m = Z.log2 m + 1.
Proof.
  destruct m as [| p | p]; try lia. intros _. cbn [Zdigits2].
  rewrite digits2_pos_size. destruct p; cbn [Pos.size Z.log2]; lia.
Qed.

Lemma shr_1_m (r : shr_record) : 0 <= shr_m r -> shr_m (shr_1 r) = shr_m r / 2.
Proof.
  destruct r as [m rr ss]. cbn [shr_m]. intros Hm.
  rewrite <- Z.div2_div.
  destruct m as [| [p | p |] | p]; try reflexivity. lia.
Qed.

Lemma pow2_xO (k : positive) : 2 ^ Zpos k~0 = 2 ^ Zpos k * 2 ^ Zpos k.
Proof. rewrite <- Z.pow_add_r by lia. f_equal. lia. Qed.

Lemma pow2_xI (k : positive) : 2 ^ Zpos k~1 = 2 * (2 ^ Zpos k * 2 ^ Zpos k).
Proof.
  rewrite <- Z.pow_add_r by lia. rewrite <- Z.pow_succ_r by lia.
  f_equal. lia.
Qed.

Lemma iter_shr_1_m (k : positive) :
  forall r, 0 <= shr_m r ->
            shr_m (iter_pos shr_1 k r) = shr_m r / 2 ^ Zpos k.
Proof.
  induction k as [k IH | k IH |]; intros r Hr; cbn [iter_pos].
  - assert (H1 : 0 <= shr_m (shr_1 r)).
    { rewrite shr_1_m by lia. apply Z.div_pos; lia. }
    assert (H2 : 0 <= shr_m (iter_pos shr_1 k (shr_1 r))).
    { rewrite IH by lia. apply Z.div_pos; [lia | apply Z.pow_pos_nonneg; lia]. }
    rewrite IH, IH, shr_1_m by lia.
    rewrite !Z.div_div by (try apply Z.pow_pos_nonneg; lia).
    rewrite pow2_xI. f_equal; try lia.
  - assert (H2 : 0 <= shr_m (iter_pos shr_1 k r)).
    { rewrite IH by lia. apply Z.div_pos; [lia | apply Z.pow_pos_nonneg; lia]. }
    rewrite IH, IH by lia.
    rewrite !Z.div_div by (try apply Z.pow_pos_nonneg; lia).
    rewrite pow2_xO. reflexivity.
  - rewrite shr_1_m by lia. reflexivity.
Qed.

Lemma shr_record_of_loc_m (m : Z) (l : location) :
  shr_m (shr_record_of_loc m l) = m.
Proof. destruct l as [| []]; reflexivity. Qed.

Lemma shr_fexp_m (m e : Z) (l : location) :
  0 <= m ->
  let k := fexp prec emax (Zdigits2 m + e) - e in
  shr_m (fst (shr_fexp prec emax m e l)) = (if 0 <? k then m / 2 ^ k else m) /\
  snd (shr_fexp prec emax m e l) = (if 0 <? k then e + k else e).
Proof.
  intros Hm k. unfold shr_fexp, shr. fold k.
  destruct k as [| kp | kp]; cbn [fst snd Z.ltb Z.compare].
  - rewrite shr_record_of_loc_m. split; reflexivity.
  - rewrite iter_shr_1_m by (rewrite shr_record_of_loc_m; lia).
    rewrite shr_record_of_loc_m. split; reflexivity.
  - rewrite shr_record_of_loc_m. split; reflexivity.
Qed.

Lemma round_nearest_even_bounds (m : Z) (l : location) :
  m <= round_nearest_even m l <= m + 1.
Proof.
  unfold round_nearest_even. destruct l as [| []]; try lia.
  destruct (Z.even m); lia.
Qed.

Lemma log2_div_pow2 (m k : Z) :
  0 < m -> 0 <= k -> k <= Z.log2 m ->
  0 < m / 2 ^ k /\ Z.log2 (m / 2 ^ k) = Z.log2 m - k.
Proof.
  intros Hm Hk Hle.
  rewrite <- Z.shiftr_div_pow2 by lia.
  rewrite Z.log2_shiftr by lia.
  split; [| lia].
  rewrite Z.shiftr_div_pow2 by lia.
  apply Z.div_str_pos. split; [apply Z.pow_pos_nonneg; lia |].
  apply Z.le_trans with (2 ^ Z.log2 m).
  - apply Z.pow_le_mono_r; lia.
  - apply Z.log2_spec. lia.
Qed.

Lemma fexp_eq (x : Z) : fexp prec emax x = Z.max (x - 53) (-1074).
Proof. reflexivity. Qed.

Lemma binary_round_aux_positive (sx : bool) (m e : Z) (l : location) :
  0 < m -> -1074 <= e -> e <= fexp prec emax (Zdigits2 m + e) ->
  (exists m' e',
     binary_round_aux prec emax sx m e l = S754_finite sx m' e' /\
     bounded prec emax m' e' = true) \/
  binary_round_aux prec emax sx m e l = S754_infinity sx.
Proof.
  intros Hm He Hk. unfold binary_round_aux.
  destruct (shr_fexp_m m e l ltac:(lia)) as [Hm1 He1].
  destruct (shr_fexp prec emax m e l) as [mrs1 e1]. cbn [fst snd] in Hm1, He1.
  rewrite Zdigits2_log2, fexp_eq in Hm1, He1, Hk by lia.
  remember (shr_m mrs1) as m1 eqn:Em1. clear Em1.
  assert (H1 : 0 < m1 /\ Z.log2 m1 + 1 + e1 = Z.log2 m + 1 + e /\
               e1 = Z.max (Z.log2 m + 1 + e - 53) (-1074)).
  { pose proof (Z.log2_nonneg m) as Hl.
    destruct (Z_lt_dec 0 (Z.max (Z.log2 m + 1 + e - 53) (-1074) - e))
      as [Hpos | Hpos];
      [ rewrite (proj2 (Z.ltb_lt _ _) Hpos) in Hm1, He1
      | apply Z.nlt_ge in Hpos;
        rewrite (proj2 (Z.ltb_ge _ _) Hpos) in Hm1, He1 ].
    - destruct (log2_div_pow2 m (Z.max (Z.log2 m + 1 + e - 53) (-1074) - e))
        as [Hp Hlog]; try lia.
      rewrite <- Hm1 in Hp, Hlog. lia.
    - subst m1 e1. lia. }
  destruct H1 as (Hm1pos & Hsum1 & He1eq).
  set (m2 := round_nearest_even m1 (loc_of_shr_record mrs1)).
  pose proof (round_nearest_even_bounds m1 (loc_of_shr_record mrs1)) as Hm2.
  fold m2 in Hm2.
  assert (Hlog2 : Z.log2 m1 <= Z.log2 m2 <= Z.log2 m1 + 1).
  { split.
    - apply Z.log2_le_mono. lia.
    - apply Z.le_trans with (Z.log2 (Z.succ m1)).
      + apply Z.log2_le_mono. lia.
      + apply Z.log2_succ_le. }
  destruct (shr_fexp_m m2 e1 loc_Exact ltac:(lia)) as [Hm3 He3].
  destruct (shr_fexp prec emax m2 e1 loc_Exact) as [mrs3 e3].
  cbn [fst snd] in Hm3, He3.
  rewrite Zdigits2_log2, fexp_eq in Hm3, He3 by lia.
  remember (shr_m mrs3) as m3 eqn:Em3'. clear Em3'.
  assert (H3 : 0 < m3 /\ Z.max (Z.log2 m3 + 1 + e3 - 53) (-1074) = e3).
  { pose proof (Z.log2_nonneg m1) as Hl1.
    destruct (Z_lt_dec 0 (Z.max (Z.log2 m2 + 1 + e1 - 53) (-1074) - e1))
      as [Hpos | Hpos];
      [ rewrite (proj2 (Z.ltb_lt _ _) Hpos) in Hm3, He3
      | apply Z.nlt_ge in Hpos;
        rewrite (proj2 (Z.ltb_ge _ _) Hpos) in Hm3, He3 ].
    - assert (Hone : Z.max (Z.log2 m2 + 1 + e1 - 53) (-1074) - e1 = 1) by lia.
      rewrite Hone in Hm3, He3.
      destruct (log2_div_pow2 m2 1) as [Hp Hlog]; try lia.
      rewrite <- Hm3 in Hp, Hlog. lia.
    - subst m3 e3. lia. }
  destruct H3 as (Hm3pos & Hcanon).
  destruct m3 as [| p3 | p3]; try lia.
  destruct (e3 <=? emax - prec) eqn:Hbound; [left | right; reflexivity].
  exists p3, e3. split; [reflexivity |].
  unfold bounded, canonical_mantissa. rewrite Hbound, andb_true_r.
  apply Z.eqb_eq.
  change (Z.pos (digits2_pos p3)) with (Zdigits2 (Zpos p3)).
  rewrite Zdigits2_log2, fexp_eq by lia. exact Hcanon.
Qed.

Lemma iter_xO (d : positive) (p : positive) :
  Zpos (Pos.iter xO p d) = Zpos p * 2 ^ Zpos d.
Proof.
  induction d as [| d IH] using Pos.peano_ind.
  - cbn [Pos.iter]. lia.
  - rewrite Pos.iter_succ, Pos2Z.inj_xO, IH, Pos2Z.inj_succ.
    rewrite Z.pow_succ_r by lia. lia.
Qed.

Lemma binary_round_positive (sx : bool) (p : positive) :
  (exists m' e',
     binary_round prec emax sx p 0 = S754_finite sx m' e' /\
     bounded prec emax m' e' = true) \/
  binary_round prec emax sx p 0 = S754_infinity sx.
Proof.
  unfold binary_round, shl_align.
  change (Z.pos (digits2_pos p)) with (Zdigits2 (Zpos p)).
  rewrite Zdigits2_log2, fexp_eq by lia.
  pose proof (Z.log2_nonneg (Zpos p)) as Hl.
  destruct (Z.max (Z.log2 (Z.pos p) + 1 + 0 - 53) (-1074) - 0)
    as [| d | d] eqn:Hd.
  - apply binary_round_aux_positive; try lia.
    rewrite Zdigits2_log2, fexp_eq by lia. lia.
  - apply binary_round_aux_positive; try lia.
    rewrite Zdigits2_log2, fexp_eq by lia. lia.
  - apply binary_round_aux_positive; try lia.
    rewrite Zdigits2_log2, fexp_eq by lia.
    rewrite iter_xO, Z.log2_mul_pow2 by lia. lia.
Qed.

Lemma of_int_positive_nonzero (p : positive) :
  Binary64.is_zero (Binary64.of_int (Zpos p)) = false.
Proof.
  unfold Binary64.is_zero, Binary64.of_int. cbn [binary_normalize].
  rewrite FloatAxioms.eqb_spec.
  destruct (binary_round_positive false p) as [(m' & e' & Hr & Hb) | Hr];
    rewrite Hr.
  - rewrite Prim2SF_SF2Prim by exact Hb. reflexivity.
  - rewrite Prim2SF_SF2Prim by reflexivity. reflexivity.
Qed.

End Binary64Counts.

#[export] Instance float_counts : Counts float.
Proof.
  split. intros n. cbn [is_zero int float_number].
  change (Z.of_nat (S n)) with (Zpos (Pos.of_succ_nat n)).
  apply of_int_positive_nonzero.
Qed.

(** ** The login test, evaluated *)

(** Over the rationals the sustainable profile of the login test draws
    30 * 0.20 * 2.1 / 3600 = 0.0035 Wh for the CPU and
    0.372 * 0.8 * 2.1 / 3600 = 0.0001736 Wh for the memory; with storage,
    network and the overhead factor the total is 0.004162778666... Wh. *)
Example login_sustainable_rational :
  exists r,
    calculate_base_consumption_kw (F := Q) init (sustainable_metrics login_test)
    = Returned r /\
    (cpu_wh (breakdown (energy r)) == 0.0035)%Q /\
    (memory_wh (breakdown (energy r)) == 0.0001736)%Q /\
    (total_wh (energy r) == 49953344 # 12000000000)%Q /\
    (total_joules (energy r) == 14.9860032)%Q.
Proof.
  eexists. split; [vm_compute; reflexivity |].
  repeat split; vm_compute; reflexivity.
Qed.

(** In binary64 the same figures carry the rounding of each operation:
    0.0035000000000000005 Wh and 14.986003200000004 J. *)
Example login_sustainable_binary64 :
  exists r,
    calculate_base_consumption_kw (F := float) init
      (sustainable_metrics login_test) = Returned r /\
    cpu_wh (breakdown (energy r))
    = 0x1.cac083126e97ap-9%float /\
    total_joules (energy r) = 0x1.df8d5695380b3p+3%float.
Proof.
  eexists. split; [vm_compute; reflexivity |].
  split; vm_compute; reflexivity.
Qed.

(** The comparison of the login test over the rationals: the energy and the
    carbon fall by the same share, the duration by 4.7 / 6.8. *)
Example login_comparison_rational :
  exists c k,
    calculate_framework_comparison (F := Q) init
      (sustainable_metrics login_test) (wasteful_metrics login_test)
      example_clock = Returned (c, k) /\
    timestamp c = "2025-01-01T00:00:00.000000"%string /\
    (energy_reduction_percent (comparison_summary c)
     == carbon_reduction_percent (comparison_summary c))%Q /\
    (performance_improvement_percent (comparison_summary c) == 470 / 6.8)%Q /\
    (cpu_efficiency_improvement (efficiency_analysis c) == 55 / 0.75)%Q /\
    (memory_efficiency_improvement (efficiency_analysis c) == 75)%Q.
Proof.
  do 2 eexists. split; [vm_compute; reflexivity |].
  repeat split; vm_compute; reflexivity.
Qed.

(** ** Outcomes *)

Lemma Returned_inj {A : Type} (a b : A) : Returned a = Returned b -> a = b.
Proof. intros H. injection H as H. exact H. Qed.

Lemma cbind_run {A B : Type} (m : clocked A) (k : A -> clocked B) (c : clock) :
  cbind m k c
  = match m c with
    | Returned (a, c') => k a c'
    | Raised e => Raised e
    end.
Proof. reflexivity. Qed.

(** ** Division *)

Section Division.

Context {F : Type} {num : Number F}.

Lemma div_nonzero (a b : F) :
  is_zero b = false -> div a b = Returned (quot a b).
Proof. intros H. unfold div. rewrite H. reflexivity. Qed.

Lemma div_zero (a b : F) :
  is_zero b = true -> div a b = Raised ZeroDivisionError.
Proof. intros H. unfold div. rewrite H. reflexivity. Qed.

Context {law : Lawful F}.

Lemma div_int_divisor (a : F) (z : Z) :
  In z int_divisors -> div a (int z) = Returned (quot a (int z)).
Proof. intros Hz. apply div_nonzero, int_divisor_nonzero, Hz. Qed.

Lemma div_lit_divisor (a : F) (q : Q) :
  In q lit_divisors -> div a (lit q) = Returned (quot a (lit q)).
Proof. intros Hq. apply div_nonzero, lit_divisor_nonzero, Hq. Qed.

End Division.

(** Rewrites every division by a literal of the source into its quotient. *)
Ltac divide_by_literals :=
  repeat (first
    [ rewrite div_int_divisor by (simpl; tauto)
    | rewrite div_lit_divisor by (simpl; tauto) ];
    cbn [bind]).

(** ** The energy estimator *)

Section Estimator.

Context {F : Type} {num : Number F} {law : Lawful F}.
Variable self : CarbonImpactCalculator F.
Variables duration_s cpu mem sto net : F.

(** The estimator in closed form: none of its three divisions, all by
    literals, can raise. *)
Lemma calculate_base_consumption_closed :
  exists r,
    calculate_base_consumption self duration_s cpu mem sto net = Returned r /\
    energy_formulas self duration_s cpu mem sto net r /\
    carbon_formulas self r /\
    echoes_input duration_s cpu mem sto net r.
Proof.
  unfold calculate_base_consumption. divide_by_literals.
  eexists. split; [reflexivity |].
  unfold energy_formulas, carbon_formulas, echoes_input. cbn.
  repeat split.
Qed.

(** C1. For every utilization sample and coefficient set the estimator
    returns a result whose [cpu_wh] is
    [cpu_base_watts * cpu_utilization * (duration_seconds / 3600)], whose
    [memory_wh], [storage_wh] and [network_wh] are the same with their own
    coefficient and quantity, whose [total_wh] is the sum of the four times
    the overhead factor, whose [total_joules] is [total_wh * 3600] and whose
    [total_kwh] is [total_wh / 1000]. *)
Theorem estimator_energy_formulas :
  exists r,
    calculate_base_consumption self duration_s cpu mem sto net = Returned r /\
    energy_formulas self duration_s cpu mem sto net r.
Proof.
  destruct calculate_base_consumption_closed as (r & Hr & He & _).
  exists r. split; assumption.
Qed.

(** C2. For every estimated result [carbon_g = total_kwh *
    grid_intensity_g_per_kwh], [carbon_kg = carbon_g / 1000], and the grid
    intensity used is recorded next to them. *)
Theorem estimator_carbon_formulas :
  exists r,
    calculate_base_consumption self duration_s cpu mem sto net = Returned r /\
    carbon_formulas self r.
Proof.
  destruct calculate_base_consumption_closed as (r & Hr & _ & Hc & _).
  exists r. split; assumption.
Qed.

(** C4, as the code has it.  The estimator validates nothing: on every
    sample, a negative duration or quantity and a utilization outside [0,1]
    included, it returns the result of its formulas and records the sample
    unchanged. *)
Theorem estimator_never_rejects :
  exists r,
    calculate_base_consumption self duration_s cpu mem sto net = Returned r /\
    energy_formulas self duration_s cpu mem sto net r /\
    echoes_input duration_s cpu mem sto net r.
Proof.
  destruct calculate_base_consumption_closed as (r & Hr & He & _ & Hi).
  exists r. split; [assumption | split; assumption].
Qed.

End Estimator.

Lemma estimator_energy_formulas_witness :
  exists r,
    calculate_base_consumption (F := float) init
      (lit 2.1) (lit 0.20) (lit 0.8) (lit 0.1) (lit 2.5) = Returned r /\
    energy_formulas init (lit 2.1) (lit 0.20) (lit 0.8) (lit 0.1) (lit 2.5) r.
Proof.
  exact (estimator_energy_formulas (law := float_lawful) init
           (lit 2.1) (lit 0.20) (lit 0.8) (lit 0.1) (lit 2.5)).
Defined.

Lemma estimator_carbon_formulas_witness :
  exists r,
    calculate_base_consumption (F := float) init
      (lit 6.8) (lit 0.75) (lit 3.2) (lit 0.5) (lit 8.1) = Returned r /\
    carbon_formulas init r.
Proof.
  exact (estimator_carbon_formulas (law := float_lawful) init
           (lit 6.8) (lit 0.75) (lit 3.2) (lit 0.5) (lit 8.1)).
Defined.

(** A sample with a negative duration, negative quantities and a utilization
    of 2: one hour backwards at 200% of the CPU. *)
Lemma estimator_never_rejects_witness :
  exists r,
    calculate_base_consumption (F := float) init
      (int (-3600)) (int 2) (int (-1)) (int (-1)) (int (-1)) = Returned r /\
    energy_formulas init
      (int (-3600)) (int 2) (int (-1)) (int (-1)) (int (-1)) r /\
    echoes_input (int (-3600)) (int 2) (int (-1)) (int (-1)) (int (-1)) r.
Proof.
  exact (estimator_never_rejects (law := float_lawful) init
           (int (-3600)) (int 2) (int (-1)) (int (-1)) (int (-1))).
Defined.

(** C4 fails on the code: the sample above is not rejected with
    [InvalidInput]; the estimator returns, and the energy it returns is
    negative. *)
Lemma estimator_accepts_invalid_sample :
  (exists r,
     calculate_base_consumption (F := float) init
       (int (-3600)) (int 2) (int (-1)) (int (-1)) (int (-1)) = Returned r /\
     PrimFloat.ltb (total_wh (energy r)) 0 = true) /\
  ~ fails_with
      (calculate_base_consumption (F := float) init
         (int (-3600)) (int 2) (int (-1)) (int (-1)) (int (-1)))
      InvalidInput.
Proof.
  split.
  - eexists. split; vm_compute; reflexivity.
  - intros (e & He & _). vm_compute in He. discriminate He.
Qed.

(** ** The projection engine *)

Section Projection.

Context {F : Type} {num : Number F} {law : Lawful F}.
Variable self : CarbonImpactCalculator F.

(** The projection in closed form: none of its five divisions, all by
    literals, can raise. *)
Lemma calculate_annual_projections_closed (daily_tests : Z) (c : Savings F) :
  exists p,
    calculate_annual_projections self daily_tests c = Returned p /\
    projection_formulas self daily_tests c p.
Proof.
  unfold calculate_annual_projections. divide_by_literals.
  eexists. split; [reflexivity |].
  unfold projection_formulas. cbn. repeat split.
Qed.

(** C7. For every comparison result and every number of daily tests that
    converts to a float the projection returns [daily_energy_saved_kwh =
    energy_saved_joules * daily_tests / 3600000], annual figures that are the
    daily ones times 365, [annual_carbon_saved_tons = annual_carbon_saved_kg
    / 1000], cost savings that are the annual energy times the energy price
    and the annual tons times the carbon-credit price, [cars_removed =
    annual_carbon_saved_tons / 4.6] and [trees_planted =
    annual_carbon_saved_kg / 22].  (For a larger int CPython raises
    [OverflowError] at the first product.) *)
Theorem projection_formulas_hold (daily_tests : Z) (c : Savings F) :
  converts_to_float daily_tests ->
  exists p,
    calculate_annual_projections self daily_tests c = Returned p /\
    projection_formulas self daily_tests c p.
Proof. intros _. apply calculate_annual_projections_closed. Qed.

End Projection.

Lemma projection_formulas_hold_witness :
  converts_to_float 100 /\
  exists p,
    calculate_annual_projections (F := float) init 100
      {| saved_energy_joules := lit 168.1; saved_carbon_g_co2e := lit 0.0187 |}
      = Returned p /\
    projection_formulas init 100
      {| saved_energy_joules := lit 168.1; saved_carbon_g_co2e := lit 0.0187 |} p.
Proof.
  assert (H : converts_to_float 100) by (vm_compute; reflexivity).
  split; [exact H |].
  exact (projection_formulas_hold (law := float_lawful) init 100
           {| saved_energy_joules := lit 168.1;
              saved_carbon_g_co2e := lit 0.0187 |} H).
Defined.

(** ** The comparative analyzer *)

Section Analyzer.

Context {F : Type} {num : Number F}.
Variable self : CarbonImpactCalculator F.

(** Whatever is raised is a [ZeroDivisionError]. *)
Lemma raised_zero_division {A : Type} (e : exn) :
  @Raised A e = Raised ZeroDivisionError.
Proof. destruct e. reflexivity. Qed.

(** A zero among the baseline's [total_joules], carbon and duration makes the
    comparison raise, at whatever the clock reads. *)
Lemma comparison_raises_on_zero_denominator (sm wm : Metrics F) (clk : clock) :
  zero_denominator self wm ->
  calculate_framework_comparison self sm wm clk = Raised ZeroDivisionError.
Proof.
  intros (rw & Hw & Hz).
  unfold calculate_framework_comparison, cbind, lift.
  destruct (calculate_base_consumption_kw self sm) as [rs | e];
    [| apply raised_zero_division].
  rewrite Hw. unfold div.
  destruct (is_zero (total_joules (energy rw))) eqn:Hj;
    [reflexivity |].
  destruct (is_zero (total_g_co2e (carbon rw))) eqn:Hg;
    [reflexivity |].
  destruct (is_zero (duration_seconds wm)) eqn:Hd; [reflexivity |].
  destruct Hz as [Hz | [Hz | Hz]]; discriminate Hz.
Qed.

(** A zero in the baseline's utilization or memory makes it raise as well. *)
Lemma comparison_raises_on_zero_resource (sm wm : Metrics F) (clk : clock) :
  is_zero (cpu_utilization wm) = true \/ is_zero (memory_gb wm) = true ->
  calculate_framework_comparison self sm wm clk = Raised ZeroDivisionError.
Proof.
  intros Hz.
  unfold calculate_framework_comparison, cbind, lift.
  destruct (calculate_base_consumption_kw self sm) as [rs | e];
    [| apply raised_zero_division].
  destruct (calculate_base_consumption_kw self wm) as [rw | e];
    [| apply raised_zero_division].
  unfold div, now.
  repeat match goal with
         | |- context [if is_zero ?x then _ else _] =>
             let H := fresh "H" in
             destruct (is_zero x) eqn:H; [reflexivity |]
         end.
  destruct Hz as [Hz | Hz]; congruence.
Qed.

(** The loop of the report raises as soon as one comparison does. *)
Lemma compare_scenarios_raises (scs : list (Scenario F)) :
  forall (acc : list (Comparison F)) (clk : clock),
    Exists (fun sc => forall clk',
              calculate_framework_comparison self
                (sustainable_metrics sc) (wasteful_metrics sc) clk'
              = Raised ZeroDivisionError) scs ->
    compare_scenarios self scs acc clk = Raised ZeroDivisionError.
Proof.
  induction scs as [| sc scs IH]; intros acc clk Hex.
  - inversion Hex.
  - cbn [compare_scenarios]. unfold cbind.
    destruct (calculate_framework_comparison self (sustainable_metrics sc)
                (wasteful_metrics sc) clk) as [[c clk'] | e] eqn:Hc;
      [| apply raised_zero_division].
    inversion Hex as [? ? Hhere | ? ? Hlater]; subst.
    + rewrite Hhere in Hc. discriminate Hc.
    + apply IH. exact Hlater.
Qed.

Lemma report_raises_with_its_loop (scs : list (Scenario F)) (clk : clock) :
  compare_scenarios self scs [] clk = Raised ZeroDivisionError ->
  generate_carbon_report self scs clk = Raised ZeroDivisionError.
Proof.
  intros H. unfold generate_carbon_report, cbind. rewrite H. reflexivity.
Qed.

(** C3, as the code has it.  For every pair of samples where the baseline's
    [total_joules], carbon in grams or duration is exactly zero, the analyzer
    raises Python's [ZeroDivisionError], and nothing in the engine catches
    it: a report over any collection that contains the pair raises it too. *)
Theorem zero_denominator_raises (sc : Scenario F) :
  zero_denominator self (wasteful_metrics sc) ->
  (forall clk,
     value (calculate_framework_comparison self
              (sustainable_metrics sc) (wasteful_metrics sc) clk)
     = Raised ZeroDivisionError) /\
  (forall scs clk,
     In sc scs ->
     value (generate_carbon_report self scs clk) = Raised ZeroDivisionError).
Proof.
  intros Hz. split.
  - intros clk. rewrite comparison_raises_on_zero_denominator by exact Hz.
    reflexivity.
  - intros scs clk Hin.
    rewrite report_raises_with_its_loop; [reflexivity |].
    apply compare_scenarios_raises. apply Exists_exists.
    exists sc. split; [exact Hin |].
    intros clk'. apply comparison_raises_on_zero_denominator. exact Hz.
Qed.

Context {law : Lawful F}.

(** C10. For every pair of samples in which the baseline's [total_joules],
    carbon and duration are all nonzero but its [cpu_utilization] or
    [memory_gb] is exactly zero, the three percentages of the summary are
    defined and the comparison still fails with a division by zero: the
    efficiency analysis divides by both. *)
Theorem zero_resource_raises (sm wm : Metrics F) (clk : clock) :
  nonzero_denominators self wm ->
  is_zero (cpu_utilization wm) = true \/ is_zero (memory_gb wm) = true ->
  summary_defined self sm wm /\
  value (calculate_framework_comparison self sm wm clk)
  = Raised ZeroDivisionError /\
  fails_with (value (calculate_framework_comparison self sm wm clk))
    DivisionByZero.
Proof.
  intros (rw & Hw & Hj & Hg & Hd) Hz. split.
  - destruct (calculate_base_consumption_closed self (duration_seconds sm)
                (cpu_utilization sm) (memory_gb sm) (default (storage_gb sm))
                (default (network_mb sm))) as (rs & Hs & _).
    exists rs, rw. do 3 eexists.
    split; [exact Hs |]. split; [exact Hw |].
    rewrite !div_nonzero by assumption. repeat split.
  - rewrite comparison_raises_on_zero_resource by exact Hz.
    split; [reflexivity |].
    exists ZeroDivisionError. split; reflexivity.
Qed.

End Analyzer.

Lemma stalled_test_zero_denominator :
  zero_denominator (F := float) init (wasteful_metrics stalled_test).
Proof.
  eexists. split; [vm_compute; reflexivity |].
  right. right. vm_compute. reflexivity.
Defined.

Lemma zero_denominator_raises_witness :
  zero_denominator (F := float) init (wasteful_metrics stalled_test) /\
  (forall clk,
     value (calculate_framework_comparison (F := float) init
              (sustainable_metrics stalled_test) (wasteful_metrics stalled_test)
              clk)
     = Raised ZeroDivisionError) /\
  (forall scs clk,
     In stalled_test scs ->
     value (generate_carbon_report (F := float) init scs clk)
     = Raised ZeroDivisionError).
Proof.
  split.
  - exact stalled_test_zero_denominator.
  - exact (zero_denominator_raises init stalled_test
             stalled_test_zero_denominator).
Defined.

(** C3 fails on the code in what it says of the failure being caught and
    reported.  The baseline of [stalled_test] has a zero duration (and so zero
    joules and zero carbon); its comparison raises [ZeroDivisionError]; the
    report of the login test alone is returned, but the report of the login
    test and the stalled one raises: the engine reports neither. *)
Lemma zero_denominator_escapes_the_engine :
  zero_denominator (F := float) init (wasteful_metrics stalled_test) /\
  value (calculate_framework_comparison (F := float) init
           (sustainable_metrics stalled_test) (wasteful_metrics stalled_test)
           example_clock)
  = Raised ZeroDivisionError /\
  reported_by_engine (F := float) init [login_test] example_clock /\
  ~ reported_by_engine (F := float) init [login_test; stalled_test] example_clock.
Proof.
  split; [exact stalled_test_zero_denominator |].
  split; [vm_compute; reflexivity |].
  split.
  - eexists. vm_compute. reflexivity.
  - intros (r & Hr). vm_compute in Hr. discriminate Hr.
Qed.

Lemma zero_resource_raises_witness :
  nonzero_denominators (F := float) init (wasteful_metrics idle_test) /\
  (is_zero (cpu_utilization (wasteful_metrics (F := float) idle_test)) = true \/
   is_zero (memory_gb (wasteful_metrics (F := float) idle_test)) = true) /\
  summary_defined (F := float) init
    (sustainable_metrics idle_test) (wasteful_metrics idle_test) /\
  value (calculate_framework_comparison (F := float) init
           (sustainable_metrics idle_test) (wasteful_metrics idle_test)
           example_clock)
  = Raised ZeroDivisionError /\
  fails_with
    (value (calculate_framework_comparison (F := float) init
              (sustainable_metrics idle_test) (wasteful_metrics idle_test)
              example_clock))
    DivisionByZero.
Proof.
  assert (Hn : nonzero_denominators (F := float) init
                 (wasteful_metrics idle_test)).
  { eexists. split; [vm_compute; reflexivity |].
    repeat split; vm_compute; reflexivity. }
  assert (Hz : is_zero (cpu_utilization (wasteful_metrics (F := float) idle_test))
               = true \/
               is_zero (memory_gb (wasteful_metrics (F := float) idle_test))
               = true).
  { left. vm_compute. reflexivity. }
  split; [exact Hn |]. split; [exact Hz |].
  exact (zero_resource_raises (law := float_lawful) init
           (sustainable_metrics idle_test) (wasteful_metrics idle_test)
           example_clock Hn Hz).
Defined.

(** ** What depends on the clock *)

Section Clock.

Context {F : Type} {num : Number F}.
Variable self : CarbonImpactCalculator F.

(** The clock decides only the timestamp of a comparison. *)
Lemma comparison_up_to_timestamp (sm wm : Metrics F) (clk1 clk2 : clock) :
  map_outcome without_timestamp
    (value (calculate_framework_comparison self sm wm clk1))
  = map_outcome without_timestamp
      (value (calculate_framework_comparison self sm wm clk2)).
Proof.
  unfold calculate_framework_comparison, cbind, lift, now, ret, div.
  destruct (calculate_base_consumption_kw self sm) as [rs | e]; [| reflexivity].
  destruct (calculate_base_consumption_kw self wm) as [rw | e]; [| reflexivity].
  repeat match goal with
         | |- context [if is_zero ?x then _ else _] =>
             destruct (is_zero x); [reflexivity |]
         end.
  reflexivity.
Qed.

Lemma without_timestamp_set_scenario_name (c : Comparison F) (n : string) :
  without_timestamp (set_scenario_name c n)
  = set_scenario_name (without_timestamp c) n.
Proof. reflexivity. Qed.

(** Nor does it decide more of the loop of the report. *)
Lemma compare_scenarios_up_to_timestamps (scs : list (Scenario F)) :
  forall (acc1 acc2 : list (Comparison F)) (clk1 clk2 : clock),
    map without_timestamp acc1 = map without_timestamp acc2 ->
    map_outcome (map without_timestamp)
      (value (compare_scenarios self scs acc1 clk1))
    = map_outcome (map without_timestamp)
        (value (compare_scenarios self scs acc2 clk2)).
Proof.
  induction scs as [| sc scs IH]; intros acc1 acc2 clk1 clk2 Hacc.
  - cbn. rewrite Hacc. reflexivity.
  - cbn [compare_scenarios]. unfold cbind.
    pose proof (comparison_up_to_timestamp (sustainable_metrics sc)
                  (wasteful_metrics sc) clk1 clk2) as Hc.
    destruct (calculate_framework_comparison self (sustainable_metrics sc)
                (wasteful_metrics sc) clk1) as [[c1 k1] | e1];
      destruct (calculate_framework_comparison self (sustainable_metrics sc)
                  (wasteful_metrics sc) clk2) as [[c2 k2] | e2];
      cbn [value map_outcome] in Hc; try discriminate Hc.
    + apply IH. rewrite !map_app. cbn [map].
      rewrite !without_timestamp_set_scenario_name.
      apply Returned_inj in Hc. rewrite Hc, Hacc. reflexivity.
    + cbn. destruct e1, e2. reflexivity.
Qed.

(** The sums of the report read the summaries only. *)
Lemma map_summary_without_timestamp (f : ComparisonSummary F -> F)
    (cs : list (Comparison F)) :
  map (fun c => f (comparison_summary c)) (map without_timestamp cs)
  = map (fun c => f (comparison_summary c)) cs.
Proof. rewrite map_map. reflexivity. Qed.

Lemma map_summary_up_to_timestamps (f : ComparisonSummary F -> F)
    (cs1 cs2 : list (Comparison F)) :
  map without_timestamp cs1 = map without_timestamp cs2 ->
  map (fun c => f (comparison_summary c)) cs1
  = map (fun c => f (comparison_summary c)) cs2.
Proof.
  intros H.
  rewrite <- (map_summary_without_timestamp f cs1), H.
  apply map_summary_without_timestamp.
Qed.

Lemma len_up_to_timestamps (cs1 cs2 : list (Comparison F)) :
  map without_timestamp cs1 = map without_timestamp cs2 ->
  len cs1 = len cs2.
Proof.
  intros H. unfold len.
  rewrite <- (length_map without_timestamp cs1), H, length_map. reflexivity.
Qed.

Lemma report_up_to_timestamps (scs : list (Scenario F)) (clk1 clk2 : clock) :
  map_outcome without_timestamps (value (generate_carbon_report self scs clk1))
  = map_outcome without_timestamps
      (value (generate_carbon_report self scs clk2)).
Proof.
  unfold generate_carbon_report. rewrite !cbind_run.
  pose proof (compare_scenarios_up_to_timestamps scs [] [] clk1 clk2 eq_refl)
    as Hloop.
  destruct (compare_scenarios self scs [] clk1) as [[cs1 k1] | e1];
    destruct (compare_scenarios self scs [] clk2) as [[cs2 k2] | e2];
    cbn [value map_outcome] in Hloop; try discriminate Hloop;
    [| destruct e1, e2; reflexivity].
  apply Returned_inj in Hloop. rename Hloop into Hcs. cbv zeta.
  rewrite (map_summary_up_to_timestamps energy_saved_joules _ _ Hcs).
  rewrite (map_summary_up_to_timestamps carbon_saved_g_co2e _ _ Hcs).
  rewrite (map_summary_up_to_timestamps carbon_reduction_percent _ _ Hcs).
  rewrite (map_summary_up_to_timestamps energy_reduction_percent _ _ Hcs).
  rewrite (len_up_to_timestamps _ _ Hcs).
  unfold cbind, lift, now, ret.
  repeat match goal with
         | |- context [match ?d with Returned _ => _ | Raised _ => _ end] =>
             match d with
             | div _ _ => destruct d; [| reflexivity]
             | calculate_annual_projections _ _ _ => destruct d; [| reflexivity]
             end
         end.
  cbn. unfold without_timestamps. cbn. rewrite Hcs. reflexivity.
Qed.

(** C6, as the code has it.  Two calls of the comparison, or of the report,
    on identical inputs fail alike or return results that agree in every
    field but the clock readings they record: the [timestamp] of each
    comparison and the [generated_timestamp] of the report.  Two calls of
    the projection yield the same outcome whatever the clock reads. *)
Theorem results_agree_up_to_timestamps (clk1 clk2 : clock) :
  (forall sm wm,
     map_outcome without_timestamp
       (value (calculate_framework_comparison self sm wm clk1))
     = map_outcome without_timestamp
         (value (calculate_framework_comparison self sm wm clk2))) /\
  (forall scs,
     map_outcome without_timestamps
       (value (generate_carbon_report self scs clk1))
     = map_outcome without_timestamps
         (value (generate_carbon_report self scs clk2))) /\
  (forall daily_tests c,
     value (lift (calculate_annual_projections self daily_tests c) clk1)
     = value (lift (calculate_annual_projections self daily_tests c) clk2)).
Proof.
  split; [| split].
  - intros sm wm. apply comparison_up_to_timestamp.
  - intros scs. apply report_up_to_timestamps.
  - intros daily_tests c. unfold lift.
    destruct (calculate_annual_projections self daily_tests c); reflexivity.
Qed.

End Clock.

(** C6 fails on the code: two calls in a row of the comparison on the login
    test return different results, and so do two calls in a row of the
    report, since each records the time of its call. *)
Lemma successive_calls_differ :
  (exists r1 k1 r2 k2,
     calculate_framework_comparison (F := float) init
       (sustainable_metrics login_test) (wasteful_metrics login_test)
       example_clock = Returned (r1, k1) /\
     calculate_framework_comparison (F := float) init
       (sustainable_metrics login_test) (wasteful_metrics login_test)
       k1 = Returned (r2, k2) /\
     r1 <> r2) /\
  (exists r1 k1 r2 k2,
     generate_carbon_report (F := float) init test_scenarios example_clock
     = Returned (r1, k1) /\
     generate_carbon_report (F := float) init test_scenarios k1
     = Returned (r2, k2) /\
     r1 <> r2).
Proof.
  split.
  - do 4 eexists. split; [vm_compute; reflexivity |].
    split; [vm_compute; reflexivity |].
    intros H. apply (f_equal timestamp) in H.
    vm_compute in H. discriminate H.
  - do 4 eexists. split; [vm_compute; reflexivity |].
    split; [vm_compute; reflexivity |].
    intros H.
    apply (f_equal (fun r => generated_timestamp (report_metadata r))) in H.
    vm_compute in H. discriminate H.
Qed.

(** ** The report aggregator *)

Section Report.

Context {F : Type} {num : Number F} {law : Lawful F}.
Variable self : CarbonImpactCalculator F.

(** C5, as the code has it.  On an empty scenario collection the report
    raises [ZeroDivisionError]: the first average divides the empty sum, the
    [int] 0, by the length 0.  No report is returned. *)
Theorem empty_report_raises (clk : clock) :
  value (generate_carbon_report self [] clk) = Raised ZeroDivisionError.
Proof.
  unfold generate_carbon_report. rewrite cbind_run.
  cbn [compare_scenarios ret map]. cbv zeta.
  rewrite cbind_run. unfold lift, len. cbn [List.length Z.of_nat].
  cbn [sum fold_left]. rewrite div_zero by apply int_0_is_zero.
  reflexivity.
Qed.

(** A comparison that succeeds at one reading of the clock succeeds at all. *)
Lemma comparison_succeeds_at_any_clock (sc : Scenario F) (clk : clock) :
  comparison_succeeds self sc ->
  exists c k,
    calculate_framework_comparison self
      (sustainable_metrics sc) (wasteful_metrics sc) clk = Returned (c, k) /\
    comparison_of self sc (set_scenario_name c (name sc)).
Proof.
  intros (c & clk0 & c0 & Hc0 & _).
  pose proof (comparison_up_to_timestamp self (sustainable_metrics sc)
                (wasteful_metrics sc) clk clk0) as H.
  rewrite Hc0 in H.
  destruct (calculate_framework_comparison self (sustainable_metrics sc)
              (wasteful_metrics sc) clk) as [[c1 k1] | e] eqn:Hc1;
    [| discriminate H].
  exists c1, k1. split; [reflexivity |].
  exists clk, c1. rewrite Hc1. split; reflexivity.
Qed.

(** The loop returns the comparisons of the scenarios, in their order. *)
Lemma compare_scenarios_returns (scs : list (Scenario F)) :
  forall (acc : list (Comparison F)) (clk : clock),
    Forall (comparison_succeeds self) scs ->
    exists cs k,
      compare_scenarios self scs acc clk = Returned (acc ++ cs, k) /\
      Forall2 (comparison_of self) scs cs.
Proof.
  induction scs as [| sc scs IH]; intros acc clk Hall.
  - exists [], clk. rewrite app_nil_r. split; [reflexivity | constructor].
  - inversion Hall as [| ? ? Hsc Hrest]; subst.
    destruct (comparison_succeeds_at_any_clock sc clk Hsc) as (c & k & Hc & Hof).
    destruct (IH (acc ++ [set_scenario_name c (name sc)]) k Hrest)
      as (cs & k' & Hcs & Hall2).
    exists (set_scenario_name c (name sc) :: cs), k'. split.
    + cbn [compare_scenarios]. rewrite cbind_run, Hc, Hcs.
      rewrite <- app_assoc. reflexivity.
    + constructor; assumption.
Qed.

(** Python's [sum] adds the items in their order to the int 0. *)
Lemma fold_left_added_in_order (items : list F) :
  forall start : F, fold_left add items start = added_in_order start items.
Proof.
  induction items as [| x rest IH]; intros start; [reflexivity |].
  cbn [fold_left added_in_order]. apply IH.
Qed.

Lemma sum_is_sum_over (items : list F) : sum items = sum_over items.
Proof. unfold sum, sum_over. apply fold_left_added_in_order. Qed.

Context {cnt : Counts F}.

Lemma len_nonzero {A : Type} (l : list A) :
  l <> [] -> is_zero (len l) = false.
Proof.
  destruct l as [| a l]; [congruence |]. intros _.
  unfold len. cbn [List.length]. apply count_nonzero.
Qed.

(** C8. For every non-empty scenario list on which every comparison
    succeeds, the report is returned; it lists the comparisons of the
    scenarios in order; its average reduction percentages are the means over
    the scenarios, the percentages added in order from 0 and divided by
    their number; its totals of energy and carbon saved are the sums, added
    in order from 0; and the figures of its annual projection are those of
    100 tests a day at the mean saving, the totals divided by the number of
    scenarios. *)
Theorem report_summarises (scs : list (Scenario F)) (clk : clock) :
  scs <> [] ->
  Forall (comparison_succeeds self) scs ->
  exists r,
    value (generate_carbon_report self scs clk) = Returned r /\
    Forall2 (comparison_of self) scs (detailed_scenarios r) /\
    report_aggregates self scs r.
Proof.
  intros Hne Hall.
  destruct (compare_scenarios_returns scs [] clk Hall) as (cs & k & Hloop & Hcs).
  cbn [app] in Hloop.
  assert (Hlen : len cs = len scs).
  { unfold len. rewrite (Forall2_length Hcs). reflexivity. }
  pose proof (len_nonzero scs Hne) as Hnz.
  unfold generate_carbon_report. rewrite cbind_run, Hloop. cbv zeta.
  rewrite Hlen. unfold cbind, lift.
  rewrite !div_nonzero by exact Hnz.
  destruct (calculate_annual_projections_closed self 100
              {| saved_energy_joules :=
                   quot (sum (map (fun c =>
                                     energy_saved_joules (comparison_summary c))
                                   cs))
                     (len scs);
                 saved_carbon_g_co2e :=
                   quot (sum (map (fun c =>
                                     carbon_saved_g_co2e (comparison_summary c))
                                   cs))
                     (len scs) |}) as (p & Hp & Hf).
  rewrite Hp. unfold now, ret, value.
  eexists. split; [reflexivity |].
  split; [exact Hcs |].
  unfold report_aggregates, mean_over. cbv zeta.
  cbn [detailed_scenarios executive_summary annual_projections
       average_carbon_reduction_percent average_energy_reduction_percent
       total_energy_saved_joules total_carbon_saved_g_co2e].
  rewrite !length_map, <- !sum_is_sum_over, <- (Forall2_length Hcs).
  fold (@len F num (Scenario F) scs).
  repeat (split; [reflexivity |]). exact Hf.
Qed.

End Report.

Lemma empty_report_raises_witness :
  value (generate_carbon_report (F := float) init [] example_clock)
  = Raised ZeroDivisionError.
Proof.
  exact (empty_report_raises (law := float_lawful) init example_clock).
Defined.

(** C5 fails on the code: the report of no scenario raises
    [ZeroDivisionError], which is not of the kind [EmptyInput]. *)
Lemma empty_report_is_a_division_by_zero :
  fails_with
    (value (generate_carbon_report (F := float) init [] example_clock))
    DivisionByZero /\
  ~ fails_with
      (value (generate_carbon_report (F := float) init [] example_clock))
      EmptyInput.
Proof.
  split.
  - exists ZeroDivisionError. split; [vm_compute; reflexivity | reflexivity].
  - intros (e & _ & Hk). destruct e. discriminate Hk.
Qed.

Lemma main_comparisons_succeed :
  Forall (comparison_succeeds (F := float) init) test_scenarios.
Proof.
  repeat constructor;
    (eexists; exists example_clock; eexists;
     split; [vm_compute; reflexivity | reflexivity]).
Defined.

Lemma report_summarises_witness :
  test_scenarios (F := float) <> [] /\
  Forall (comparison_succeeds (F := float) init) test_scenarios /\
  exists r,
    value (generate_carbon_report (F := float) init test_scenarios
             example_clock)
    = Returned r /\
    Forall2 (comparison_of init) test_scenarios (detailed_scenarios r) /\
    report_aggregates init test_scenarios r.
Proof.
  assert (Hne : test_scenarios (F := float) <> []) by discriminate.
  split; [exact Hne |]. split; [exact main_comparisons_succeed |].
  exact (report_summarises (law := float_lawful) (cnt := float_counts) init
           test_scenarios example_clock Hne main_comparisons_succeed).
Defined.

(** ** Rounding to binary64 is monotone

    The operations of binary64 round the exact result to the nearest float,
    and rounding keeps the order: on non-negative floats the sum, the product
    and the quotient by a positive number are monotone.  The lemmas follow
    [binary_round_aux] of the specification of the Standard Library. *)

Section Rounding.

Local Open Scope Z_scope.

(** *** Shifting to the right keeps the location *)

Lemma loc_of_shr_record_of_loc (m : Z) (l : location) :
  loc_of_shr_record (shr_record_of_loc m l) = l.
Proof. destruct l as [| []]; reflexivity. Qed.

Lemma shr_m_of_loc (m : Z) (l : location) :
  shr_m (shr_record_of_loc m l) = m.
Proof. destruct l as [| []]; reflexivity. Qed.

Lemma shr_1_div2 (r : shr_record) :
  0 <= shr_m r -> shr_m (shr_1 r) = shr_m r / 2.
Proof.
  destruct r as [m rr ss]. cbn [shr_m]. intros Hm.
  rewrite <- Z.div2_div.
  destruct m as [| [p | p |] | p]; try reflexivity. lia.
Qed.

Lemma shr_1_bits (r : shr_record) :
  0 <= shr_m r ->
  shr_r (shr_1 r) = Z.odd (shr_m r) /\
  shr_s (shr_1 r) = (shr_r r || shr_s r)%bool.
Proof.
  destruct r as [m rr ss]. cbn [shr_m shr_r shr_s]. intros Hm.
  destruct m as [| [p | p |] | p]; try (split; reflexivity). lia.
Qed.

Lemma located_shr_1 (A D : Z) (r : shr_record) :
  located A D (shr_m r) (loc_of_shr_record r) ->
  located A (2 * D) (shr_m (shr_1 r)) (loc_of_shr_record (shr_1 r)).
Proof.
  intros ((HA & HD & Hm) & Hl).
  assert (Hm0 : 0 <= shr_m r) by (rewrite Hm; apply Z.div_pos; lia).
  pose proof (shr_1_div2 r Hm0) as Hdiv.
  destruct (shr_1_bits r Hm0) as (Hr & Hs).
  pose proof (Z.mod_pos_bound A D HD) as Hrem.
  pose proof (Z.div_mod A D ltac:(lia)) as HAD.
  assert (Hq : A / (D * 2) = A / D / 2) by (rewrite Z.div_div; lia).
  assert (Hr2 : A mod (D * 2) = A mod D + D * ((A / D) mod 2))
    by (apply Z.rem_mul_r; lia).
  replace (2 * D) with (D * 2) by lia.
  split; [split; [exact HA | split; [lia |]] |].
  - rewrite Hdiv, Hm, Hq. reflexivity.
  - rewrite Hr2.
    destruct (shr_1 r) as [m1 r1 s1]. cbn [shr_m shr_r shr_s] in *.
    subst r1 s1. rewrite Hm.
    pose proof (Z.mod_pos_bound (A / D) 2 ltac:(lia)) as Hbit.
    rewrite Zodd_mod.
    destruct r as [m0 r0 s0]. cbn [shr_m shr_r shr_s loc_of_shr_record] in *.
    unfold loc_of in *.
    destruct (Z.eqb_spec (A mod D) 0) as [H0 | H0].
    + (* the rest was zero *)
      destruct r0, s0; try discriminate Hl. cbn [orb].
      destruct (Z.eqb_spec ((A / D) mod 2) 1) as [H1 | H1].
      * rewrite H0, H1.
        destruct (Z.eqb_spec (0 + D * 1) 0) as [H2 | H2]; [lia |].
        replace (2 * (0 + D * 1) ?= D * 2) with Eq
          by (symmetry; apply Z.compare_eq_iff; lia).
        reflexivity.
      * assert (H2 : (A / D) mod 2 = 0) by lia.
        rewrite H0, H2.
        destruct (Z.eqb_spec (0 + D * 0) 0) as [H3 | H3]; [| lia].
        reflexivity.
    + assert (Hs' : (r0 || s0)%bool = true)
        by (destruct r0, s0; try reflexivity; discriminate Hl).
      rewrite Hs'.
      destruct (Z.eqb_spec ((A / D) mod 2) 1) as [H1 | H1].
      * rewrite H1.
        destruct (Z.eqb_spec (A mod D + D * 1) 0) as [H2 | H2]; [lia |].
        replace (2 * (A mod D + D * 1) ?= D * 2) with Gt
          by (symmetry; apply Z.compare_gt_iff; lia).
        reflexivity.
      * assert (H2 : (A / D) mod 2 = 0) by lia.
        rewrite H2.
        destruct (Z.eqb_spec (A mod D + D * 0) 0) as [H3 | H3]; [lia |].
        replace (2 * (A mod D + D * 0) ?= D * 2) with Lt
          by (symmetry; apply Z.compare_lt_iff; lia).
        reflexivity.
Qed.

Lemma located_iter_shr_1 (k : positive) :
  forall (A D : Z) (r : shr_record),
    located A D (shr_m r) (loc_of_shr_record r) ->
    located A (D * 2 ^ Zpos k) (shr_m (iter_pos shr_1 k r))
      (loc_of_shr_record (iter_pos shr_1 k r)).
Proof.
  induction k as [k IH | k IH |]; intros A D r H; cbn [iter_pos].
  - apply located_shr_1, IH, IH in H.
    replace (D * 2 ^ Z.pos k~1) with (2 * D * 2 ^ Z.pos k * 2 ^ Z.pos k);
      [exact H |].
    replace (Z.pos k~1) with (Z.pos k + Z.pos k + 1) by lia.
    rewrite !Z.pow_add_r by lia. lia.
  - apply IH, IH in H.
    replace (D * 2 ^ Z.pos k~0) with (D * 2 ^ Z.pos k * 2 ^ Z.pos k);
      [exact H |].
    replace (Z.pos k~0) with (Z.pos k + Z.pos k) by lia.
    rewrite !Z.pow_add_r by lia. lia.
  - apply located_shr_1 in H.
    replace (D * 2 ^ 1) with (2 * D) by lia. exact H.
Qed.

(** [shr_fexp] brings a located mantissa to the exponent [fexp] asks for,
    when that is not below its own. *)
Lemma located_shr_fexp (A D m e : Z) (l : location) :
  located A D m l ->
  let k := fexp prec emax (Zdigits2 m + e) - e in
  0 <= k ->
  located A (D * 2 ^ k)
    (shr_m (fst (shr_fexp prec emax m e l)))
    (loc_of_shr_record (fst (shr_fexp prec emax m e l))) /\
  snd (shr_fexp prec emax m e l) = e + k.
Proof.
  intros H k Hk. unfold shr_fexp, shr. fold k.
  destruct k as [| kp | kp]; cbn [fst snd]; try lia.
  - rewrite shr_m_of_loc, loc_of_shr_record_of_loc.
    rewrite Z.pow_0_r, Z.mul_1_r, Z.add_0_r. split; [exact H | reflexivity].
  - split; [| reflexivity].
    apply located_iter_shr_1.
    rewrite shr_m_of_loc, loc_of_shr_record_of_loc. exact H.
Qed.

End Rounding.

Section NearestEven.

Local Open Scope Z_scope.

Lemma rne_located (A D m : Z) (l : location) :
  located A D m l -> round_nearest_even m l = rne A D.
Proof. intros ((_ & _ & ->) & ->). reflexivity. Qed.

Lemma rne_exact (A D : Z) : A mod D = 0 -> rne A D = A / D.
Proof. intros H. unfold rne, loc_of. rewrite H. reflexivity. Qed.

Lemma rne_bounds (A D : Z) : A / D <= rne A D <= A / D + 1.
Proof.
  unfold rne, loc_of.
  destruct (A mod D =? 0); cbn [round_nearest_even]; [lia |].
  destruct (2 * (A mod D) ?= D); [destruct (Z.even (A / D)) | |]; lia.
Qed.

Lemma div_le_cross (A1 D1 A2 D2 : Z) :
  0 < D1 -> 0 < D2 -> A1 * D2 <= A2 * D1 -> A1 / D1 <= A2 / D2.
Proof.
  intros H1 H2 H.
  rewrite <- (Z.div_mul_cancel_r A1 D1 D2), <- (Z.div_mul_cancel_r A2 D2 D1)
    by lia.
  rewrite (Z.mul_comm D2 D1). apply Z.div_le_mono; nia.
Qed.

(** Rounding to nearest even is monotone. *)
Lemma rne_monotone (A1 D1 A2 D2 : Z) :
  0 < D1 -> 0 < D2 -> A1 * D2 <= A2 * D1 -> rne A1 D1 <= rne A2 D2.
Proof.
  intros H1 H2 H.
  pose proof (div_le_cross _ _ _ _ H1 H2 H) as Hq.
  pose proof (rne_bounds A1 D1) as Hb1.
  pose proof (rne_bounds A2 D2) as Hb2.
  destruct (Z.eq_dec (A1 / D1) (A2 / D2)) as [Heq | Hne]; [| lia].
  pose proof (Z.div_mod A1 D1 ltac:(lia)) as E1.
  pose proof (Z.div_mod A2 D2 ltac:(lia)) as E2.
  pose proof (Z.mod_pos_bound A1 D1 H1) as B1.
  pose proof (Z.mod_pos_bound A2 D2 H2) as B2.
  assert (Hr : (A1 mod D1) * D2 <= (A2 mod D2) * D1).
  { rewrite <- Heq in E2. nia. }
  clear Hb1 Hb2 Hq.
  unfold rne, loc_of. rewrite <- Heq.
  set (q := A1 / D1) in *. set (r1 := A1 mod D1) in *.
  set (r2 := A2 mod D2) in *.
  destruct (Z.eqb_spec r1 0) as [Z1 | Z1];
    destruct (Z.eqb_spec r2 0) as [Z2 | Z2]; cbn [round_nearest_even].
  - lia.
  - destruct (2 * r2 ?= D2); [destruct (Z.even q) | |]; lia.
  - nia.
  - destruct (Z.compare_spec (2 * r1) D1) as [C1 | C1 | C1];
      destruct (Z.compare_spec (2 * r2) D2) as [C2 | C2 | C2];
      try (destruct (Z.even q)); try lia; nia.
Qed.

Lemma rne_le_integer (A D N : Z) : 0 < D -> A <= N * D -> rne A D <= N.
Proof.
  intros HD H.
  replace N with (rne (N * D) D).
  - apply rne_monotone; nia.
  - rewrite rne_exact by apply Z.mod_mul, Z.neq_sym, Z.lt_neq, HD.
    apply Z.div_mul. lia.
Qed.

Lemma rne_ge_integer (A D N : Z) : 0 < D -> N * D <= A -> N <= rne A D.
Proof.
  intros HD H.
  replace N with (rne (N * D) D) at 1.
  - apply rne_monotone; nia.
  - rewrite rne_exact by apply Z.mod_mul, Z.neq_sym, Z.lt_neq, HD.
    apply Z.div_mul. lia.
Qed.

End NearestEven.

Section RoundAux.

Local Open Scope Z_scope.

Lemma digits2_pos_bounds (p : positive) :
  2 ^ (Zpos (digits2_pos p) - 1) <= Zpos p < 2 ^ Zpos (digits2_pos p).
Proof.
  induction p as [p IH | p IH |]; cbn [digits2_pos].
  - rewrite Pos2Z.inj_succ.
    replace (Z.succ (Z.pos (digits2_pos p)) - 1)
      with (Z.succ (Z.pos (digits2_pos p) - 1)) by lia.
    rewrite !Z.pow_succ_r by lia. lia.
  - rewrite Pos2Z.inj_succ.
    replace (Z.succ (Z.pos (digits2_pos p)) - 1)
      with (Z.succ (Z.pos (digits2_pos p) - 1)) by lia.
    rewrite !Z.pow_succ_r by lia. lia.
  - cbn. lia.
Qed.

Lemma Zdigits2_upper (m : Z) : 0 <= m -> m < 2 ^ Zdigits2 m.
Proof.
  destruct m as [| p | p]; intros H; [cbn; lia | | lia].
  apply digits2_pos_bounds.
Qed.

Lemma Zdigits2_lower (m : Z) : 0 < m -> 2 ^ (Zdigits2 m - 1) <= m.
Proof.
  destruct m as [| p | p]; intros H; try lia.
  apply digits2_pos_bounds.
Qed.

Lemma Zdigits2_nonneg (m : Z) : 0 <= Zdigits2 m.
Proof. destruct m; cbn; lia. Qed.

Lemma Zdigits2_le (m b : Z) : 0 <= b -> 0 <= m < 2 ^ b -> Zdigits2 m <= b.
Proof.
  intros Hb [H0 H].
  destruct (Z.eq_dec m 0) as [-> | Hm]; [cbn; lia |].
  pose proof (Zdigits2_lower m ltac:(lia)) as Hl.
  destruct (Z_le_gt_dec (Zdigits2 m) b) as [Hle | Hgt]; [exact Hle |].
  assert (2 ^ b <= 2 ^ (Zdigits2 m - 1)) by (apply Z.pow_le_mono_r; lia).
  lia.
Qed.

Lemma Zdigits2_ge (m b : Z) : 2 ^ b <= m -> b + 1 <= Zdigits2 m.
Proof.
  intros H.
  destruct (Z_lt_le_dec b 0) as [Hb | Hb].
  - pose proof (Zdigits2_nonneg m). lia.
  - assert (0 < 2 ^ b) by (apply Z.pow_pos_nonneg; lia).
    pose proof (Zdigits2_upper m ltac:(lia)) as Hu.
    destruct (Z_lt_le_dec b (Zdigits2 m)) as [Hlt | Hge]; [lia |].
    assert (2 ^ Zdigits2 m <= 2 ^ b)
      by (apply Z.pow_le_mono_r; [lia | exact Hge]).
    lia.
Qed.

(** The mantissa after the shift to the exponent [fexp] asks for has at most
    53 bits, and exactly 53 above the smallest exponent. *)
Lemma shifted_mantissa_bounds (A D m e : Z) :
  0 <= A -> 0 < D -> m = A / D ->
  let f := fexp prec emax (Zdigits2 m + e) in
  e <= f ->
  A / (D * 2 ^ (f - e)) < 2 ^ 53 /\
  (2 ^ 52 <= A / (D * 2 ^ (f - e)) \/ f = -1074) /\ -1074 <= f.
Proof.
  intros HA HD Hm f Hf. unfold f in *. clear f. rewrite fexp_eq in *.
  set (d := Zdigits2 m) in *.
  set (f := Z.max (d + e - 53) (-1074)) in *.
  assert (Hm0 : 0 <= m) by (rewrite Hm; apply Z.div_pos; lia).
  pose proof (Zdigits2_upper m Hm0) as Hu. fold d in Hu.
  pose proof (Zdigits2_nonneg m) as Hd. fold d in Hd.
  pose proof (Z.div_mod A D ltac:(lia)) as HAD.
  pose proof (Z.mod_pos_bound A D HD) as Hrem.
  rewrite <- Hm in HAD.
  assert (Hk : 0 < 2 ^ (f - e)) by (apply Z.pow_pos_nonneg; lia).
  assert (HD' : 0 < D * 2 ^ (f - e)) by nia.
  split; [| split; [| lia]].
  - apply Z.div_lt_upper_bound; [exact HD' |].
    assert (H1 : 2 ^ d <= 2 ^ (53 + (f - e)))
      by (apply Z.pow_le_mono_r; lia).
    rewrite Z.pow_add_r in H1 by lia.
    nia.
  - destruct (Z.eq_dec f (-1074)) as [E | E]; [right; exact E | left].
    assert (Hfe : f - e = d - 53) by lia.
    assert (Hmpos : 0 < m).
    { destruct (Z.eq_dec m 0) as [Z0 | Z0]; [| lia].
      exfalso. unfold d in *. rewrite Z0 in *. cbn in Hfe, E, f. lia. }
    pose proof (Zdigits2_lower m Hmpos) as Hl. fold d in Hl.
    apply Z.div_le_lower_bound; [exact HD' |].
    rewrite Hfe.
    assert (H1 : 2 ^ (d - 1) = 2 ^ 52 * 2 ^ (d - 53)).
    { rewrite <- Z.pow_add_r by lia. f_equal. lia. }
    nia.
Qed.

Lemma shr_fexp_carry (f : Z) :
  -1074 <= f ->
  shr_fexp prec emax (2 ^ 53) f loc_Exact =
  ({| shr_m := 2 ^ 52; shr_r := false; shr_s := false |}, f + 1).
Proof.
  intros Hf. unfold shr_fexp. rewrite fexp_eq.
  replace (Zdigits2 (2 ^ 53)) with 54 by reflexivity.
  replace (Z.max (54 + f - 53) (-1074) - f) with 1 by lia.
  reflexivity.
Qed.

Lemma shr_fexp_settled (n f : Z) :
  -1074 <= f -> 0 <= n < 2 ^ 53 ->
  shr_fexp prec emax n f loc_Exact =
  ({| shr_m := n; shr_r := false; shr_s := false |}, f).
Proof.
  intros Hf Hn. unfold shr_fexp. rewrite fexp_eq.
  pose proof (Zdigits2_le n 53 ltac:(lia) Hn) as Hd.
  unfold shr.
  destruct (Z.max (Zdigits2 n + f - 53) (-1074) - f) eqn:E;
    try reflexivity.
  lia.
Qed.

(** [binary_round_aux] on a located fraction: the float of the fraction
    rounded to the nearest even at the exponent [fexp] asks for. *)
Lemma binary_round_aux_located (A D m e : Z) (l : location) :
  located A D m l ->
  let f := fexp prec emax (Zdigits2 m + e) in
  e <= f ->
  binary_round_aux prec emax false m e l = encode (rne A (D * 2 ^ (f - e))) f.
Proof.
  intros Hloc f Hf.
  pose proof Hloc as ((HA & HD & Hm) & _).
  destruct (shifted_mantissa_bounds A D m e HA HD Hm Hf) as (Hlt & _ & Hmin).
  fold f in Hlt, Hmin.
  destruct (located_shr_fexp A D m e l Hloc) as (Hloc' & He'); [fold f; lia |].
  fold f in Hloc', He'.
  unfold binary_round_aux.
  destruct (shr_fexp prec emax m e l) as [mrs' e'].
  cbn [fst snd] in Hloc', He'. subst e'.
  replace (e + (f - e)) with f by lia.
  rewrite (rne_located _ _ _ _ Hloc').
  set (n := rne A (D * 2 ^ (f - e))).
  pose proof (rne_bounds A (D * 2 ^ (f - e))) as Hn. fold n in Hn.
  assert (Hq : 0 <= A / (D * 2 ^ (f - e))).
  { apply Z.div_pos; [exact HA |].
    assert (0 < 2 ^ (f - e)) by (apply Z.pow_pos_nonneg; lia). nia. }
  unfold encode.
  destruct (Z.eqb_spec n (2 ^ 53)) as [E | E].
  - rewrite E, shr_fexp_carry by exact Hmin. reflexivity.
  - rewrite shr_fexp_settled by lia. reflexivity.
Qed.

End RoundAux.

Section Order.

Local Open Scope Z_scope.

Lemma pow2_pos (k : Z) : 0 <= k -> 0 < 2 ^ k.
Proof. intros H. apply Z.pow_pos_nonneg; lia. Qed.

Lemma pow2_split (a b : Z) : 0 <= b <= a -> 2 ^ a = 2 ^ (a - b) * 2 ^ b.
Proof. intros H. rewrite <- Z.pow_add_r by lia. f_equal. lia. Qed.

(** Among canonical pairs below [2 ^ 53] the values are ordered as the
    exponents, then the mantissas. *)
Lemma units_order (m1 g1 m2 g2 : Z) :
  0 < m1 -> 0 <= m2 < 2 ^ 53 -> -1074 <= g2 ->
  (2 ^ 52 <= m1 \/ g1 = -1074) ->
  units m1 g1 <= units m2 g2 ->
  g1 < g2 \/ (g1 = g2 /\ m1 <= m2).
Proof.
  unfold units. intros H1 H2 Hg2 Hc H.
  destruct (Z.lt_trichotomy g1 g2) as [Hlt | [Heq | Hgt]].
  - left. exact Hlt.
  - right. split; [exact Heq |]. subst g2.
    pose proof (pow2_pos (g1 + 1074) ltac:(lia)). nia.
  - exfalso.
    destruct Hc as [Hc | Hc]; [| lia].
    rewrite (pow2_split (g1 + 1074) (g2 + 1074)) in H by lia.
    pose proof (pow2_pos (g2 + 1074) ltac:(lia)) as P2.
    replace (g1 + 1074 - (g2 + 1074)) with (Z.succ (g1 - g2 - 1)) in H by lia.
    rewrite Z.pow_succ_r in H by lia.
    pose proof (pow2_pos (g1 - g2 - 1) ltac:(lia)) as P1.
    assert (2 ^ 53 * 2 ^ (g2 + 1074) <=
            m1 * (2 * 2 ^ (g1 - g2 - 1) * 2 ^ (g2 + 1074))).
    { replace (2 ^ 53) with (2 ^ 52 * 2) by reflexivity.
      assert (2 ^ 52 * 1 <= m1 * 2 ^ (g1 - g2 - 1)) by nia.
      nia. }
    nia.
Qed.

Lemma units_order_conv (m1 g1 m2 g2 : Z) :
  0 <= m1 <= 2 ^ 53 -> 0 <= m2 -> -1074 <= g1 ->
  (2 ^ 52 <= m2 \/ g2 = -1074) ->
  g1 < g2 \/ (g1 = g2 /\ m1 <= m2) ->
  units m1 g1 <= units m2 g2.
Proof.
  unfold units. intros H1 H2 Hg1 Hc [Hlt | [Heq Hm]].
  - destruct Hc as [Hc | Hc]; [| lia].
    rewrite (pow2_split (g2 + 1074) (g1 + 1074)) by lia.
    pose proof (pow2_pos (g1 + 1074) ltac:(lia)) as P1.
    replace (g2 + 1074 - (g1 + 1074)) with (Z.succ (g2 - g1 - 1)) by lia.
    rewrite Z.pow_succ_r by lia.
    pose proof (pow2_pos (g2 - g1 - 1) ltac:(lia)) as P2.
    assert (2 ^ 52 * 1 <= m2 * 2 ^ (g2 - g1 - 1)) by nia.
    replace (2 ^ 53) with (2 ^ 52 * 2) in H1 by reflexivity.
    nia.
  - subst g2. pose proof (pow2_pos (g1 + 1074) ltac:(lia)). nia.
Qed.

Lemma SFleb_finite (p1 p2 : positive) (g1 g2 : Z) :
  SFleb (S754_finite false p1 g1) (S754_finite false p2 g2) = true <->
  g1 < g2 \/ (g1 = g2 /\ Zpos p1 <= Zpos p2).
Proof.
  unfold SFleb, SFcompare.
  change (Pos.compare_cont Eq p1 p2) with (Pos.compare p1 p2).
  destruct (Z.compare_spec g1 g2) as [E | L | G].
  - destruct (Pos.compare_spec p1 p2) as [E' | L' | G']; split;
      try (intros _; right; split; [exact E | lia]);
      try (intros _; reflexivity); try discriminate;
      intros [H | [_ H]]; lia.
  - split; [intros _; left; exact L | reflexivity].
  - split; [discriminate | intros [H | [H _]]; lia].
Qed.

(** The floats of two canonical pairs compare as their values. *)
Lemma SFleb_encode (n1 f1 n2 f2 : Z) :
  canonical_pair n1 f1 -> canonical_pair n2 f2 ->
  units n1 f1 <= units n2 f2 ->
  SFleb (encode n1 f1) (encode n2 f2) = true.
Proof.
  intros (Hn1 & Hf1 & Hc1) (Hn2 & Hf2 & Hc2) H.
  assert (N : forall n f, 0 <= n <= 2 ^ 53 -> -1074 <= f ->
              (2 ^ 52 <= n \/ f = -1074) ->
              exists m g, encode n f =
                          match m with
                          | Zpos p => if g <=? 971 then S754_finite false p g
                                      else S754_infinity false
                          | Z0 => S754_zero false
                          | Zneg _ => S754_nan
                          end /\
                          0 <= m < 2 ^ 53 /\ -1074 <= g /\
                          (2 ^ 52 <= m \/ g = -1074) /\
                          units m g = units n f).
  { intros n f Hn Hf Hc. unfold encode.
    destruct (Z.eqb_spec n (2 ^ 53)) as [E | E].
    - exists (2 ^ 52), (f + 1). split; [reflexivity |].
      split; [split; [apply Z.lt_le_incl |]; reflexivity |].
      split; [lia |]. split; [left; lia |].
      subst n. unfold units.
      replace (f + 1 + 1074) with (Z.succ (f + 1074)) by lia.
      rewrite Z.pow_succ_r by lia.
      replace (2 ^ 53) with (2 ^ 52 * 2) by reflexivity. lia.
    - exists n, f. split; [reflexivity |]. repeat split; lia. }
  destruct (N n1 f1 Hn1 Hf1 Hc1) as (m1 & g1 & -> & Hm1 & Hg1 & Hk1 & U1).
  destruct (N n2 f2 Hn2 Hf2 Hc2) as (m2 & g2 & -> & Hm2 & Hg2 & Hk2 & U2).
  rewrite <- U1, <- U2 in H. clear N U1 U2. destruct m1 as [| p1 | p1]; [| | lia].
  - destruct m2 as [| p2 | p2]; [reflexivity | | lia].
    destruct (g2 <=? 971); reflexivity.
  - assert (Hm2' : 0 < m2).
    { destruct (Z.eq_dec m2 0) as [Z0 | Z0]; [| lia].
      subst m2. unfold units in H.
      pose proof (pow2_pos (g1 + 1074) ltac:(lia)). nia. }
    destruct m2 as [| p2 | p2]; try lia.
    pose proof (units_order (Zpos p1) g1 (Zpos p2) g2 ltac:(lia) Hm2 Hg2 Hk1 H)
      as Ho.
    destruct (Z.leb_spec g2 971) as [L2 | L2].
    + destruct (Z.leb_spec g1 971) as [L1 | L1]; [| lia].
      apply SFleb_finite. exact Ho.
    + destruct (g1 <=? 971); reflexivity.
Qed.

(** A valid finite float has a canonical mantissa and exponent. *)
Lemma valid_finite (s : bool) (m : positive) (e : Z) :
  valid64 (S754_finite s m e) ->
  canonical_pair (Zpos m) e /\ Zpos m < 2 ^ 53 /\ e <= 971 /\
  e = fexp prec emax (Zdigits2 (Zpos m) + e).
Proof.
  unfold valid64, SpecFloat.valid_binary, bounded, canonical_mantissa.
  intros H. apply andb_prop in H. destruct H as [Hc He].
  apply Z.eqb_eq in Hc. apply Z.leb_le in He.
  change (emax - prec) with 971 in He.
  change (Zpos (digits2_pos m)) with (Zdigits2 (Zpos m)) in Hc.
  pose proof Hc as Hc'. rewrite fexp_eq in Hc.
  pose proof (Zdigits2_upper (Zpos m) ltac:(lia)) as Hu.
  pose proof (Zdigits2_lower (Zpos m) ltac:(lia)) as Hl.
  set (d := Zdigits2 (Zpos m)) in *.
  assert (Hd : d <= 53) by lia.
  assert (H53 : Zpos m < 2 ^ 53).
  { assert (2 ^ d <= 2 ^ 53) by (apply Z.pow_le_mono_r; lia). lia. }
  split; [split; [lia | split; [lia |]] | split; [exact H53 | split; [exact He | lia]]].
  destruct (Z.eq_dec e (-1074)) as [E | E]; [right; exact E | left].
  assert (d = 53) by lia.
  replace (d - 1) with 52 in Hl by lia. exact Hl.
Qed.

Lemma SFleb_units (p1 p2 : positive) (g1 g2 : Z) :
  valid64 (S754_finite false p1 g1) -> valid64 (S754_finite false p2 g2) ->
  (SFleb (S754_finite false p1 g1) (S754_finite false p2 g2) = true <->
   units (Zpos p1) g1 <= units (Zpos p2) g2).
Proof.
  intros V1 V2.
  destruct (valid_finite _ _ _ V1) as ((_ & Hg1 & Hk1) & Hm1 & _).
  destruct (valid_finite _ _ _ V2) as ((_ & Hg2 & Hk2) & Hm2 & _).
  rewrite SFleb_finite. split.
  - apply units_order_conv; lia.
  - apply units_order; lia.
Qed.

Lemma SFleb_zero_l (s : bool) (y : spec_float) :
  nonneg y -> SFleb (S754_zero s) y = true.
Proof. destruct y as [| [] | | [] ? ?]; cbn; intros H; try reflexivity; try discriminate; contradiction. Qed.

Lemma SFleb_infinity_r (x : spec_float) :
  nonneg x -> SFleb x (S754_infinity false) = true.
Proof. destruct x as [| [] | | [] ? ?]; cbn; intros H; try reflexivity; try discriminate; contradiction. Qed.

Lemma nonneg_encode (n e : Z) : 0 <= n -> nonneg (encode n e).
Proof.
  intros H. unfold encode.
  destruct (n =? 2 ^ 53); [destruct (e + 1 <=? 971); reflexivity |].
  destruct n as [| p | p]; [exact I | | lia].
  destruct (e <=? 971); reflexivity.
Qed.

End Order.

Section MonotoneRounding.

Local Open Scope Z_scope.

Lemma rounded_pair (A D m e : Z) (l : location) :
  located A D m l ->
  let f := fexp prec emax (Zdigits2 m + e) in
  e <= f ->
  let n := rne A (D * 2 ^ (f - e)) in
  binary_round_aux prec emax false m e l = encode n f /\
  canonical_pair n f /\
  A / (D * 2 ^ (f - e)) <= n <= A / (D * 2 ^ (f - e)) + 1 /\
  0 <= A / (D * 2 ^ (f - e)) < 2 ^ 53 /\
  (2 ^ 52 <= A / (D * 2 ^ (f - e)) \/ f = -1074).
Proof.
  intros Hloc f Hf n.
  pose proof Hloc as ((HA & HD & Hm) & _).
  destruct (shifted_mantissa_bounds A D m e HA HD Hm Hf) as (Hlt & Hk & Hmin).
  fold f in Hlt, Hk, Hmin.
  pose proof (rne_bounds A (D * 2 ^ (f - e))) as Hn. fold n in Hn.
  assert (Hq : 0 <= A / (D * 2 ^ (f - e))).
  { apply Z.div_pos; [exact HA |].
    pose proof (pow2_pos (f - e) ltac:(lia)). nia. }
  split; [apply binary_round_aux_located; assumption |].
  split; [| split; [exact Hn | split; [lia | exact Hk]]].
  unfold canonical_pair. lia.
Qed.

(** Rounding is monotone: of two located fractions, the smaller rounds to
    the smaller float. *)
Lemma binary_round_aux_monotone
  (c A1 D1 m1 e1 : Z) (l1 : location) (A2 D2 m2 e2 : Z) (l2 : location) :
  located A1 D1 m1 l1 -> located A2 D2 m2 l2 ->
  e1 <= fexp prec emax (Zdigits2 m1 + e1) ->
  e2 <= fexp prec emax (Zdigits2 m2 + e2) ->
  c <= e1 -> c <= e2 ->
  A1 * D2 * 2 ^ (e1 - c) <= A2 * D1 * 2 ^ (e2 - c) ->
  SFleb (binary_round_aux prec emax false m1 e1 l1)
        (binary_round_aux prec emax false m2 e2 l2) = true.
Proof.
  intros L1 L2 P1 P2 C1 C2 H.
  destruct (rounded_pair _ _ _ _ _ L1 P1) as (-> & K1 & N1 & Q1 & B1).
  destruct (rounded_pair _ _ _ _ _ L2 P2) as (-> & K2 & N2 & Q2 & B2).
  destruct L1 as ((HA1 & HD1 & _) & _). destruct L2 as ((HA2 & HD2 & _) & _).
  set (f1 := fexp prec emax (Zdigits2 m1 + e1)) in *.
  set (f2 := fexp prec emax (Zdigits2 m2 + e2)) in *.
  clearbody f1 f2.
  pose proof (pow2_pos (f1 - e1) ltac:(lia)) as U1.
  pose proof (pow2_pos (f2 - e2) ltac:(lia)) as U2.
  pose proof (pow2_pos (e1 - c) ltac:(lia)) as Pa.
  pose proof (pow2_pos (e2 - c) ltac:(lia)) as Pb.
  assert (T1 : 2 ^ (f1 - e1) * 2 ^ (e1 - c) = 2 ^ (f1 - c)).
  { rewrite <- Z.pow_add_r by lia. f_equal. lia. }
  assert (T2 : 2 ^ (f2 - e2) * 2 ^ (e2 - c) = 2 ^ (f2 - c)).
  { rewrite <- Z.pow_add_r by lia. f_equal. lia. }
  set (u1 := 2 ^ (f1 - e1)) in *. set (u2 := 2 ^ (f2 - e2)) in *.
  set (a := 2 ^ (e1 - c)) in *. set (b := 2 ^ (e2 - c)) in *.
  assert (HD1' : 0 < D1 * u1) by nia.
  assert (HD2' : 0 < D2 * u2) by nia.
  set (n1 := rne A1 (D1 * u1)) in *. set (n2 := rne A2 (D2 * u2)) in *.
  apply SFleb_encode; [exact K1 | exact K2 |].
  destruct K1 as (Hn1 & Hf1 & Hc1). destruct K2 as (Hn2 & Hf2 & Hc2).
  apply units_order_conv; [lia | lia | lia | exact Hc2 |].
  destruct (Z.lt_trichotomy f1 f2) as [Hlt | [Heq | Hgt]].
  - left. exact Hlt.
  - right. split; [exact Heq |].
    apply rne_monotone; [exact HD1' | exact HD2' |].
    rewrite <- Heq in T2.
    apply (proj2 (Z.mul_le_mono_pos_r _ _ (a * b) ltac:(nia))).
    replace (A1 * (D2 * u2) * (a * b)) with (A1 * D2 * a * (u2 * b)) by ring.
    replace (A2 * (D1 * u1) * (a * b)) with (A2 * D1 * b * (u1 * a)) by ring.
    rewrite T1, T2.
    apply Z.mul_le_mono_nonneg_r; [| exact H].
    apply Z.lt_le_incl, pow2_pos. lia.
  - exfalso.
    destruct B1 as [B1 | B1]; [| lia].
    pose proof (Z.div_mod A1 (D1 * u1) ltac:(lia)) as E1.
    pose proof (Z.mod_pos_bound A1 (D1 * u1) HD1') as R1.
    pose proof (Z.div_mod A2 (D2 * u2) ltac:(lia)) as E2.
    pose proof (Z.mod_pos_bound A2 (D2 * u2) HD2') as R2.
    set (q1 := A1 / (D1 * u1)) in *. set (q2 := A2 / (D2 * u2)) in *.
    assert (L : 2 ^ 52 * (D1 * u1) <= A1) by nia.
    assert (R : A2 < 2 ^ 53 * (D2 * u2)) by nia.
    assert (TT : 2 * 2 ^ (f2 - c) <= 2 ^ (f1 - c)).
    { rewrite <- Z.pow_succ_r by lia. apply Z.pow_le_mono_r; lia. }
    assert (PT2 : 0 < 2 ^ (f2 - c)) by (apply pow2_pos; lia).
    assert (S1 : 2 ^ 52 * (D1 * D2) * 2 ^ (f1 - c) <= A1 * D2 * a).
    { rewrite <- T1.
      replace (2 ^ 52 * (D1 * D2) * (u1 * a))
        with (2 ^ 52 * (D1 * u1) * (D2 * a)) by ring.
      replace (A1 * D2 * a) with (A1 * (D2 * a)) by ring.
      apply Z.mul_le_mono_nonneg_r; [nia | exact L]. }
    assert (S2 : A2 * D1 * b < 2 ^ 53 * (D1 * D2) * 2 ^ (f2 - c)).
    { rewrite <- T2.
      replace (2 ^ 53 * (D1 * D2) * (u2 * b))
        with (2 ^ 53 * (D2 * u2) * (D1 * b)) by ring.
      replace (A2 * D1 * b) with (A2 * (D1 * b)) by ring.
      apply Z.mul_lt_mono_pos_r; [nia | exact R]. }
    assert (S3 : 2 ^ 53 * (D1 * D2) * 2 ^ (f2 - c) <=
                 2 ^ 52 * (D1 * D2) * 2 ^ (f1 - c)).
    { replace (2 ^ 53) with (2 ^ 52 * 2) by reflexivity.
      replace (2 ^ 52 * 2 * (D1 * D2) * 2 ^ (f2 - c))
        with (2 ^ 52 * (D1 * D2) * (2 * 2 ^ (f2 - c))) by ring.
      apply Z.mul_le_mono_nonneg_l; [nia | exact TT]. }
    lia.
Qed.

Lemma binary_round_aux_nonneg (A D m e : Z) (l : location) :
  located A D m l -> e <= fexp prec emax (Zdigits2 m + e) ->
  nonneg (binary_round_aux prec emax false m e l).
Proof.
  intros L P.
  destruct (rounded_pair _ _ _ _ _ L P) as (-> & (Hn & _) & _).
  apply nonneg_encode. lia.
Qed.

End MonotoneRounding.

Section Operations.

Local Open Scope Z_scope.

Lemma located_exact (m : Z) : 0 <= m -> located m 1 m loc_Exact.
Proof.
  intros H. unfold located.
  rewrite Z.div_1_r, Z.mod_1_r. repeat split; lia.
Qed.

Lemma rounding_monotone (c : Z) (x1 : spec_float) (A1 D1 e1 : Z)
    (x2 : spec_float) (A2 D2 e2 : Z) :
  rounding x1 A1 D1 e1 -> rounding x2 A2 D2 e2 ->
  c <= e1 -> c <= e2 ->
  A1 * D2 * 2 ^ (e1 - c) <= A2 * D1 * 2 ^ (e2 - c) ->
  le64 x1 x2.
Proof.
  intros (m1 & l1 & -> & L1 & P1) (m2 & l2 & -> & L2 & P2) C1 C2 H.
  exact (binary_round_aux_monotone c _ _ _ _ _ _ _ _ _ _ L1 L2 P1 P2 C1 C2 H).
Qed.

Lemma rounding_nonneg (x : spec_float) (A D e : Z) :
  rounding x A D e -> nonneg x.
Proof.
  intros (m & l & -> & L & P). exact (binary_round_aux_nonneg _ _ _ _ _ L P).
Qed.

(** A valid float is the rounding of itself. *)
Lemma rounding_valid (m : positive) (e : Z) :
  valid64 (S754_finite false m e) ->
  rounding (S754_finite false m e) (Zpos m) 1 e.
Proof.
  intros V.
  destruct (valid_finite _ _ _ V) as ((_ & Hmin & Hk) & H53 & H971 & Hc).
  assert (L : located (Zpos m) 1 (Zpos m) loc_Exact)
    by (apply located_exact; lia).
  exists (Zpos m), loc_Exact. split; [| split; [exact L | lia]].
  rewrite (binary_round_aux_located _ _ _ _ _ L) by lia.
  rewrite <- Hc, Z.sub_diag, Z.pow_0_r, Z.mul_1_r.
  rewrite rne_exact by apply Z.mod_1_r. rewrite Z.div_1_r.
  unfold encode.
  destruct (Z.eqb_spec (Zpos m) (2 ^ 53)) as [E | E]; [lia |].
  destruct (Z.leb_spec e 971); [reflexivity | lia].
Qed.

(** *** The product *)

Lemma SFmul_rounding (mx my : positive) (ex ey : Z) :
  valid64 (S754_finite false mx ex) -> valid64 (S754_finite false my ey) ->
  rounding (SFmul prec emax (S754_finite false mx ex) (S754_finite false my ey))
    (Zpos mx * Zpos my) 1 (ex + ey).
Proof.
  intros Vx Vy.
  destruct (valid_finite _ _ _ Vx) as (_ & _ & _ & Hx).
  destruct (valid_finite _ _ _ Vy) as (_ & _ & _ & Hy).
  exists (Zpos mx * Zpos my), loc_Exact.
  split; [reflexivity |]. split; [apply located_exact; lia |].
  pose proof (Zdigits2_lower (Zpos mx) ltac:(lia)) as Lx.
  pose proof (Zdigits2_lower (Zpos my) ltac:(lia)) as Ly.
  pose proof (Zdigits2_nonneg (Zpos mx)) as Nx.
  pose proof (Zdigits2_nonneg (Zpos my)) as Ny.
  assert (Dx : 1 <= Zdigits2 (Zpos mx)) by (cbn; lia).
  assert (Dy : 1 <= Zdigits2 (Zpos my)) by (cbn; lia).
  set (dx := Zdigits2 (Zpos mx)) in *. set (dy := Zdigits2 (Zpos my)) in *.
  assert (Hd : dx + dy - 2 + 1 <= Zdigits2 (Zpos mx * Zpos my)).
  { apply Zdigits2_ge.
    replace (dx + dy - 2) with ((dx - 1) + (dy - 1)) by lia.
    rewrite Z.pow_add_r by lia.
    apply Z.mul_le_mono_nonneg; try assumption;
      apply Z.lt_le_incl, pow2_pos; lia. }
  rewrite fexp_eq in *. lia.
Qed.

(** *** The sum *)

Lemma shl_align_spec (mx : positive) (ex ex' : Z) :
  snd (shl_align mx ex ex') = Z.min ex ex' /\
  Zpos (fst (shl_align mx ex ex')) = Zpos mx * 2 ^ (ex - Z.min ex ex').
Proof.
  unfold shl_align.
  destruct (ex' - ex) as [| d | d] eqn:E; cbn [fst snd].
  - replace (Z.min ex ex') with ex by lia.
    rewrite Z.sub_diag. split; lia.
  - replace (Z.min ex ex') with ex by lia.
    rewrite Z.sub_diag. split; lia.
  - replace (Z.min ex ex') with ex' by lia.
    split; [reflexivity |].
    rewrite iter_xO. f_equal. f_equal. lia.
Qed.

Lemma Zdigits2_shift (A j : Z) :
  0 < A -> 0 <= j -> Zdigits2 (A * 2 ^ j) = Zdigits2 A + j.
Proof.
  intros HA Hj.
  pose proof (Zdigits2_lower A HA) as Hl.
  pose proof (Zdigits2_upper A ltac:(lia)) as Hu.
  pose proof (Zdigits2_nonneg A) as Hn.
  assert (Hd : 1 <= Zdigits2 A) by (destruct A; cbn; lia).
  pose proof (pow2_pos j Hj) as Pj.
  apply Z.le_antisymm.
  - apply Zdigits2_le; [lia |].
    rewrite Z.pow_add_r by lia. nia.
  - replace (Zdigits2 A + j) with (Zdigits2 A - 1 + j + 1) by lia.
    apply Zdigits2_ge. rewrite Z.pow_add_r by lia. nia.
Qed.

Lemma binary_round_rounding (m : positive) (e : Z) :
  -1074 <= e ->
  exists A e',
    rounding (binary_round prec emax false m e) A 1 e' /\
    0 < A /\ -1074 <= e' /\ units A e' = units (Zpos m) e.
Proof.
  intros He. unfold binary_round.
  pose proof (shl_align_spec m e
                (fexp prec emax (Zpos (digits2_pos m) + e))) as (S1 & S2).
  destruct (shl_align m e (fexp prec emax (Zpos (digits2_pos m) + e)))
    as [mz ez].
  cbn [fst snd] in S1, S2.
  change (Zpos (digits2_pos m)) with (Zdigits2 (Zpos m)) in *.
  set (F := fexp prec emax (Zdigits2 (Zpos m) + e)) in *.
  assert (HF : -1074 <= F) by (unfold F; rewrite fexp_eq; lia).
  exists (Zpos mz), ez. repeat split; try lia.
  - exists (Zpos mz), loc_Exact.
    split; [reflexivity |]. split; [apply located_exact; lia |].
    rewrite S2, Zdigits2_shift by lia.
    replace (Zdigits2 (Zpos m) + (e - Z.min e F) + ez)
      with (Zdigits2 (Zpos m) + e) by lia.
    fold F. lia.
  - unfold units. rewrite S2, <- Z.mul_assoc, <- Z.pow_add_r by lia.
    f_equal. f_equal. lia.
Qed.

Lemma SFadd_rounding (mx my : positive) (ex ey : Z) :
  -1074 <= ex -> -1074 <= ey ->
  exists A e,
    rounding (SFadd prec emax (S754_finite false mx ex)
                (S754_finite false my ey)) A 1 e /\
    0 < A /\ -1074 <= e /\
    units A e = units (Zpos mx) ex + units (Zpos my) ey.
Proof.
  intros Hx Hy. cbn [SFadd cond_Zopp].
  pose proof (shl_align_spec mx ex (Z.min ex ey)) as (_ & Sx).
  pose proof (shl_align_spec my ey (Z.min ex ey)) as (_ & Sy).
  replace (Z.min ex (Z.min ex ey)) with (Z.min ex ey) in Sx by lia.
  replace (Z.min ey (Z.min ex ey)) with (Z.min ex ey) in Sy by lia.
  set (ez := Z.min ex ey) in *.
  destruct (Zpos (fst (shl_align mx ex ez)) + Zpos (fst (shl_align my ey ez)))
    as [| s | s] eqn:E; try lia.
  cbn [binary_normalize].
  destruct (binary_round_rounding s ez ltac:(lia)) as (A & e & R & HA & He & U).
  exists A, e. repeat split; try assumption.
  rewrite U, <- E, Sx, Sy. unfold units.
  rewrite Z.mul_add_distr_r, <- !Z.mul_assoc, <- !Z.pow_add_r by lia.
  f_equal; f_equal; f_equal; lia.
Qed.

(** *** The quotient *)

Lemma new_location_loc_of (D r : Z) :
  0 < D -> 0 <= r < D -> new_location D r = loc_of r D.
Proof.
  intros HD Hr. unfold new_location, new_location_even, new_location_odd,
    loc_of.
  destruct (Z.even D) eqn:Ev; [reflexivity |].
  destruct (Z.eqb_spec r 0) as [Z0 | Z0]; [reflexivity |].
  f_equal.
  assert (Ho : Z.odd D = true) by (rewrite <- Z.negb_even, Ev; reflexivity).
  apply Z.odd_spec in Ho. destruct Ho as (k & Hk).
  destruct (Z.compare_spec (2 * r + 1) D) as [C | C | C];
    symmetry.
  - apply Z.compare_lt_iff. lia.
  - apply Z.compare_lt_iff. lia.
  - apply Z.compare_gt_iff. lia.
Qed.

Lemma SFdiv_rounding (mx my : positive) (ex ey : Z) :
  exists s e,
    rounding (SFdiv prec emax (S754_finite false mx ex)
                (S754_finite false my ey))
      (Zpos mx * 2 ^ s) (Zpos my) e /\
    0 <= s /\ s + e = ex - ey /\ Z.min (-1074) (ex - ey) <= e.
Proof.
  cbn [SFdiv xorb]. unfold SFdiv_core_binary.
  set (d1 := Zdigits2 (Zpos mx)). set (d2 := Zdigits2 (Zpos my)).
  set (e' := Z.min (fexp prec emax (d1 + ex - (d2 + ey))) (ex - ey)).
  set (s := ex - ey - e').
  assert (Hs : 0 <= s) by (unfold s, e'; lia).
  set (m' := match s with
             | 0 => Zpos mx
             | Zpos _ => Z.shiftl (Zpos mx) s
             | Zneg _ => 0
             end).
  assert (Hm' : m' = Zpos mx * 2 ^ s).
  { unfold m'. destruct s as [| p | p] eqn:E; [| | lia].
    - rewrite Z.pow_0_r. lia.
    - apply Z.shiftl_mul_pow2. lia. }
  clearbody m'.
  pose proof (Z.div_eucl_eq m' (Zpos my) ltac:(lia)) as Heq.
  pose proof (Z.mod_pos_bound m' (Zpos my) ltac:(lia)) as Hr.
  unfold Z.modulo in Hr.
  assert (Hq : fst (Z.div_eucl m' (Zpos my)) = m' / Zpos my) by reflexivity.
  assert (Hrm : snd (Z.div_eucl m' (Zpos my)) = m' mod Zpos my)
    by reflexivity.
  destruct (Z.div_eucl m' (Zpos my)) as [q r]. cbn [fst snd] in Hq, Hrm.
  exists s, e'.
  pose proof (pow2_pos s Hs) as Ps.
  split; [| split; [exact Hs | split; [unfold s; lia |]]].
  - exists q, (new_location (Zpos my) r).
    split; [reflexivity |]. rewrite <- Hm'. split.
    + unfold located. rewrite new_location_loc_of by lia.
      rewrite <- Hrm. repeat split; lia.
    + (* the quotient has at least the digits the exponent counts on *)
      assert (Hd : d1 - d2 + s <= Zdigits2 q).
      { destruct (Z_lt_le_dec (d1 - 1 + s - d2) 0) as [Neg | Pos].
        - pose proof (Zdigits2_nonneg q). lia.
        - replace (d1 - d2 + s) with (d1 - 1 + s - d2 + 1) by lia.
          apply Zdigits2_ge. rewrite Hq.
          apply Z.div_le_lower_bound; [lia |].
          pose proof (Zdigits2_lower (Zpos mx) ltac:(lia)) as L1.
          pose proof (Zdigits2_upper (Zpos my) ltac:(lia)) as U2.
          fold d1 in L1. fold d2 in U2.
          assert (Hd1 : 1 <= d1) by (unfold d1; cbn; lia).
          assert (Hd2 : 1 <= d2) by (unfold d2; cbn; lia).
          rewrite Hm'.
          assert (T : 2 ^ (d1 - 1) * 2 ^ s
                      = 2 ^ d2 * 2 ^ (d1 - 1 + s - d2)).
          { rewrite <- !Z.pow_add_r by lia. f_equal. lia. }
          pose proof (pow2_pos (d1 - 1 + s - d2) Pos) as PT.
          nia. }
      assert (He' : e' <= fexp prec emax (d1 + ex - (d2 + ey)))
        by (unfold e'; lia).
      rewrite fexp_eq in *. unfold s in Hd. lia.
  - unfold e'. rewrite fexp_eq. lia.
Qed.

End Operations.

Section OrderedOperations.

Local Open Scope Z_scope.

(** *** The order of the non-negative floats *)

Lemma le64_refl (x : spec_float) : nonneg x -> le64 x x.
Proof.
  unfold le64.
  destruct x as [s | s | | s m e]; cbn [nonneg]; intros H;
    try contradiction; try subst s; try reflexivity.
  apply SFleb_finite. right. split; lia.
Qed.

Lemma le64_trans (x y z : spec_float) :
  nonneg x -> nonneg y -> nonneg z -> le64 x y -> le64 y z -> le64 x z.
Proof.
  unfold le64.
  destruct x as [sx | sx | | sx mx ex]; cbn [nonneg]; intros Hx;
    try contradiction; try subst sx;
    destruct y as [sy | sy | | sy my ey]; cbn [nonneg]; intros Hy;
    try contradiction; try subst sy;
    destruct z as [sz | sz | | sz mz ez]; cbn [nonneg]; intros Hz;
    try contradiction; try subst sz;
    intros H1 H2;
    try reflexivity; try discriminate H1; try discriminate H2.
  rewrite SFleb_finite in *. lia.
Qed.

Lemma le64_finite (x y : spec_float) :
  nonneg x -> le64 x y -> finite_nonneg y -> finite_nonneg x.
Proof.
  unfold le64.
  destruct x as [sx | sx | | sx mx ex]; cbn [nonneg finite_nonneg];
    intros Hx; try contradiction; try subst sx; try reflexivity;
    destruct y as [sy | sy | | sy my ey]; cbn [finite_nonneg]; intros H Hy;
    try contradiction; try subst sy; discriminate H.
Qed.

Lemma finite_nonneg_nonneg (x : spec_float) : finite_nonneg x -> nonneg x.
Proof. destruct x; cbn; intros H; try contradiction; exact H. Qed.

Lemma positive_finite_nonneg (x : spec_float) :
  positive_finite x -> finite_nonneg x.
Proof. intros (m & e & ->). reflexivity. Qed.

(** The largest float bounds the finite ones. *)
Lemma le64_largest (x : spec_float) :
  valid64 x -> finite_nonneg x ->
  le64 x (S754_finite false (2 ^ 53 - 1) 971).
Proof.
  unfold le64.
  destruct x as [s | s | | s m e]; cbn [finite_nonneg]; intros V H;
    try contradiction; try reflexivity.
  subst s. destruct (valid_finite _ _ _ V) as (_ & H53 & H971 & _).
  apply SFleb_finite.
  change (Zpos (2 ^ 53 - 1)) with (2 ^ 53 - 1). lia.
Qed.

(** *** The product *)

Lemma SFmul_comm (x y : spec_float) :
  SFmul prec emax x y = SFmul prec emax y x.
Proof.
  destruct x as [sx | sx | | sx mx ex], y as [sy | sy | | sy my ey];
    cbn [SFmul]; try reflexivity; try (rewrite xorb_comm; reflexivity).
  rewrite xorb_comm, Pos.mul_comm, Z.add_comm. reflexivity.
Qed.

Lemma SFmul_nonneg_positive (x y : spec_float) :
  valid64 x -> valid64 y -> nonneg x -> positive_finite y ->
  nonneg (SFmul prec emax x y).
Proof.
  intros Vx Vy Hx (my & ey & ->).
  destruct x as [s | s | | s m e]; cbn [nonneg] in Hx; try contradiction;
    try subst s; try exact I; try reflexivity.
  exact (rounding_nonneg _ _ _ _ (SFmul_rounding _ _ _ _ Vx Vy)).
Qed.

Lemma SFmul_nonneg_finite (x y : spec_float) :
  valid64 x -> valid64 y -> finite_nonneg x -> finite_nonneg y ->
  nonneg (SFmul prec emax x y).
Proof.
  intros Vx Vy Hx Hy.
  destruct y as [sy | sy | | sy my ey]; cbn [finite_nonneg] in Hy;
    try contradiction.
  - destruct x as [s | s | | s m e]; cbn [finite_nonneg] in Hx;
      try contradiction; exact I.
  - subst sy. apply SFmul_nonneg_positive; try assumption.
    + apply finite_nonneg_nonneg, Hx.
    + exists my, ey. reflexivity.
Qed.

(** The product by a positive number keeps the order. *)
Lemma SFmul_le_positive (x x' y : spec_float) :
  valid64 x -> valid64 x' -> valid64 y ->
  nonneg x -> nonneg x' -> positive_finite y ->
  le64 x x' ->
  le64 (SFmul prec emax x y) (SFmul prec emax x' y).
Proof.
  intros Vx Vx' Vy Hx Hx' Py H.
  pose proof (SFmul_nonneg_positive x y Vx Vy Hx Py) as N.
  pose proof (SFmul_nonneg_positive x' y Vx' Vy Hx' Py) as N'.
  destruct Py as (my & ey & ->).
  destruct x as [s | s | | s m e]; cbn [nonneg] in Hx; try contradiction.
  - apply SFleb_zero_l. exact N'.
  - subst s.
    destruct x' as [s' | s' | | s' m' e']; cbn [nonneg] in Hx';
      try contradiction; try subst s'; try discriminate H.
    reflexivity.
  - subst s.
    destruct x' as [s' | s' | | s' m' e']; cbn [nonneg] in Hx';
      try contradiction; try subst s'; try discriminate H.
    + apply SFleb_infinity_r. exact N.
    + pose proof (SFmul_rounding _ _ _ _ Vx Vy) as R.
      pose proof (SFmul_rounding _ _ _ _ Vx' Vy) as R'.
      destruct (valid_finite _ _ _ Vx) as ((_ & Hg & _) & _).
      destruct (valid_finite _ _ _ Vx') as ((_ & Hg' & _) & _).
      apply (proj1 (SFleb_units _ _ _ _ Vx Vx')) in H. unfold units in H.
      apply (rounding_monotone (-1074 + ey) _ _ _ _ _ _ _ _ R R'); try lia.
      replace (e + ey - (-1074 + ey)) with (e + 1074) by lia.
      replace (e' + ey - (-1074 + ey)) with (e' + 1074) by lia.
      rewrite !Z.mul_1_r.
      replace (Zpos m * Zpos my * 2 ^ (e + 1074))
        with (Zpos m * 2 ^ (e + 1074) * Zpos my) by ring.
      replace (Zpos m' * Zpos my * 2 ^ (e' + 1074))
        with (Zpos m' * 2 ^ (e' + 1074) * Zpos my) by ring.
      apply Z.mul_le_mono_nonneg_r; [lia | exact H].
Qed.

(** So does the product of finite numbers by a finite one, zero included. *)
Lemma SFmul_le_finite (x x' y : spec_float) :
  valid64 x -> valid64 x' -> valid64 y ->
  finite_nonneg x -> finite_nonneg x' -> finite_nonneg y ->
  le64 x x' ->
  le64 (SFmul prec emax x y) (SFmul prec emax x' y).
Proof.
  intros Vx Vx' Vy Hx Hx' Hy H.
  destruct y as [sy | sy | | sy my ey] eqn:E; cbn [finite_nonneg] in Hy;
    try contradiction.
  - destruct x as [s | s | | s m e]; cbn [finite_nonneg] in Hx;
      try contradiction;
      destruct x' as [s' | s' | | s' m' e']; cbn [finite_nonneg] in Hx';
      try contradiction; reflexivity.
  - subst sy. apply SFmul_le_positive; try assumption.
    + apply finite_nonneg_nonneg, Hx.
    + apply finite_nonneg_nonneg, Hx'.
    + exists my, ey. reflexivity.
Qed.

(** *** The sum *)

Lemma SFadd_comm (x y : spec_float) :
  nonneg x -> nonneg y -> SFadd prec emax x y = SFadd prec emax y x.
Proof.
  destruct x as [sx | sx | | sx mx ex]; cbn [nonneg]; intros Hx;
    try contradiction; try subst sx;
    destruct y as [sy | sy | | sy my ey]; cbn [nonneg]; intros Hy;
    try contradiction; try subst sy; try reflexivity.
  - destruct sx, sy; reflexivity.
  - cbn [SFadd]. rewrite (Z.min_comm ey ex), Z.add_comm. reflexivity.
Qed.

Lemma valid_exponent (s : bool) (m : positive) (e : Z) :
  valid64 (S754_finite s m e) -> -1074 <= e.
Proof. intros V. destruct (valid_finite _ _ _ V) as ((_ & H & _) & _). exact H. Qed.

Lemma SFadd_nonneg (x y : spec_float) :
  valid64 x -> valid64 y -> nonneg x -> nonneg y ->
  nonneg (SFadd prec emax x y).
Proof.
  intros Vx Vy.
  destruct x as [sx | sx | | sx mx ex]; cbn [nonneg]; intros Hx;
    try contradiction; try subst sx;
    destruct y as [sy | sy | | sy my ey]; cbn [nonneg]; intros Hy;
    try contradiction; try subst sy; try reflexivity; try exact I.
  - destruct sx, sy; exact I.
  - destruct (SFadd_rounding mx my ex ey (valid_exponent _ _ _ Vx)
                (valid_exponent _ _ _ Vy)) as (A & e & R & _).
    exact (rounding_nonneg _ _ _ _ R).
Qed.

(** The sum keeps the order. *)
Lemma SFadd_le (x x' y : spec_float) :
  valid64 x -> valid64 x' -> valid64 y ->
  nonneg x -> nonneg x' -> nonneg y ->
  le64 x x' ->
  le64 (SFadd prec emax x y) (SFadd prec emax x' y).
Proof.
  intros Vx Vx' Vy Hx Hx' Hy H.
  pose proof (SFadd_nonneg x y Vx Vy Hx Hy) as N.
  pose proof (SFadd_nonneg x' y Vx' Vy Hx' Hy) as N'.
  destruct y as [sy | sy | | sy my ey]; cbn [nonneg] in Hy;
    try contradiction.
  - (* a zero is added *)
    destruct x as [s | s | | s m e]; cbn [nonneg] in Hx; try contradiction.
    + replace (SFadd prec emax (S754_zero s) (S754_zero sy))
        with (S754_zero (s && sy)) by (destruct s, sy; reflexivity).
      apply SFleb_zero_l. exact N'.
    + subst s.
      destruct x' as [s' | s' | | s' m' e']; cbn [nonneg] in Hx';
        try contradiction; try subst s'; try discriminate H.
      reflexivity.
    + subst s.
      destruct x' as [s' | s' | | s' m' e']; cbn [nonneg] in Hx';
        try contradiction; try subst s'; try discriminate H;
        exact H.
  - (* the infinity is added *)
    subst sy.
    destruct x as [s | s | | s m e]; cbn [nonneg] in Hx; try contradiction;
      try subst s;
      destruct x' as [s' | s' | | s' m' e']; cbn [nonneg] in Hx';
      try contradiction; try subst s'; reflexivity.
  - (* a positive number is added *)
    subst sy.
    pose proof (valid_exponent _ _ _ Vy) as Ey.
    destruct x as [s | s | | s m e]; cbn [nonneg] in Hx; try contradiction.
    + change (SFadd prec emax (S754_zero s) (S754_finite false my ey))
        with (S754_finite false my ey).
      destruct x' as [s' | s' | | s' m' e']; cbn [nonneg] in Hx';
        try contradiction; try subst s'.
      * apply (le64_refl (S754_finite false my ey)). reflexivity.
      * reflexivity.
      * pose proof (valid_exponent _ _ _ Vx') as Ex'.
        destruct (SFadd_rounding m' my e' ey Ex' Ey)
          as (A & f & R & HA & Hf & U).
        apply (rounding_monotone (-1074) _ _ _ _ _ _ _ _
                 (rounding_valid _ _ Vy) R); try lia.
        unfold units in U.
        replace (f - -1074) with (f + 1074) by lia.
        replace (ey - -1074) with (ey + 1074) by lia.
        rewrite !Z.mul_1_r, U.
        pose proof (pow2_pos (e' + 1074) ltac:(lia)). nia.
    + subst s.
      destruct x' as [s' | s' | | s' m' e']; cbn [nonneg] in Hx';
        try contradiction; try subst s'; try discriminate H.
      reflexivity.
    + subst s.
      destruct x' as [s' | s' | | s' m' e']; cbn [nonneg] in Hx';
        try contradiction; try subst s'; try discriminate H.
      * apply SFleb_infinity_r. exact N.
      * pose proof (valid_exponent _ _ _ Vx) as Ex.
        pose proof (valid_exponent _ _ _ Vx') as Ex'.
        destruct (SFadd_rounding m my e ey Ex Ey)
          as (A & f & R & HA & Hf & U).
        destruct (SFadd_rounding m' my e' ey Ex' Ey)
          as (A' & f' & R' & HA' & Hf' & U').
        apply (proj1 (SFleb_units _ _ _ _ Vx Vx')) in H.
        apply (rounding_monotone (-1074) _ _ _ _ _ _ _ _ R R'); try lia.
        unfold units in U, U'.
        replace (f - -1074) with (f + 1074) by lia.
        replace (f' - -1074) with (f' + 1074) by lia.
        rewrite !Z.mul_1_r, U, U'. unfold units in H. lia.
Qed.

(** *** The quotient *)

Lemma SFdiv_nonneg (x y : spec_float) :
  nonneg x -> positive_finite y -> nonneg (SFdiv prec emax x y).
Proof.
  intros Hx (my & ey & ->).
  destruct x as [s | s | | s m e]; cbn [nonneg] in Hx; try contradiction;
    try subst s; try exact I; try reflexivity.
  destruct (SFdiv_rounding m my e ey) as (s & f & R & _).
  exact (rounding_nonneg _ _ _ _ R).
Qed.

(** The quotient by a positive number keeps the order. *)
Lemma SFdiv_le (x x' y : spec_float) :
  valid64 x -> valid64 x' ->
  nonneg x -> nonneg x' -> positive_finite y ->
  le64 x x' ->
  le64 (SFdiv prec emax x y) (SFdiv prec emax x' y).
Proof.
  intros Vx Vx' Hx Hx' Py H.
  pose proof (SFdiv_nonneg x y Hx Py) as N.
  pose proof (SFdiv_nonneg x' y Hx' Py) as N'.
  destruct Py as (my & ey & ->).
  destruct x as [s | s | | s m e]; cbn [nonneg] in Hx; try contradiction.
  - apply SFleb_zero_l. exact N'.
  - subst s.
    destruct x' as [s' | s' | | s' m' e']; cbn [nonneg] in Hx';
      try contradiction; try subst s'; try discriminate H.
    reflexivity.
  - subst s.
    destruct x' as [s' | s' | | s' m' e']; cbn [nonneg] in Hx';
      try contradiction; try subst s'; try discriminate H.
    + apply SFleb_infinity_r. exact N.
    + pose proof (valid_exponent _ _ _ Vx) as Ex.
      pose proof (valid_exponent _ _ _ Vx') as Ex'.
      destruct (SFdiv_rounding m my e ey) as (s & f & R & Hs & Hsf & Hf).
      destruct (SFdiv_rounding m' my e' ey) as (s' & f' & R' & Hs' & Hsf' & Hf').
      apply (proj1 (SFleb_units _ _ _ _ Vx Vx')) in H. unfold units in H.
      set (c := Z.min (-1074) (-1074 - ey)).
      apply (rounding_monotone c _ _ _ _ _ _ _ _ R R'); try lia.
      set (w := - ey - 1074 - c).
      assert (Hw : 0 <= w) by lia.
      assert (T : Zpos m * 2 ^ s * 2 ^ (f - c)
                  = Zpos m * 2 ^ (e + 1074) * 2 ^ w).
      { rewrite <- !Z.mul_assoc, <- !Z.pow_add_r by lia.
        f_equal. f_equal. lia. }
      assert (T' : Zpos m' * 2 ^ s' * 2 ^ (f' - c)
                   = Zpos m' * 2 ^ (e' + 1074) * 2 ^ w).
      { rewrite <- !Z.mul_assoc, <- !Z.pow_add_r by lia.
        f_equal. f_equal. lia. }
      replace (Zpos m * 2 ^ s * Zpos my * 2 ^ (f - c))
        with (Zpos m * 2 ^ s * 2 ^ (f - c) * Zpos my) by ring.
      replace (Zpos m' * 2 ^ s' * Zpos my * 2 ^ (f' - c))
        with (Zpos m' * 2 ^ s' * 2 ^ (f' - c) * Zpos my) by ring.
      rewrite T, T'.
      apply Z.mul_le_mono_nonneg_r; [lia |].
      apply Z.mul_le_mono_nonneg_r; [| exact H].
      apply Z.lt_le_incl, pow2_pos, Hw.
Qed.

End OrderedOperations.

Section OrderedFloats.

Local Open Scope float_scope.

Lemma leb_le64 (a b : float) :
  (a <=? b) = true <-> le64 (Prim2SF a) (Prim2SF b).
Proof. rewrite FloatAxioms.leb_spec. reflexivity. Qed.

Lemma valid64_Prim2SF (a : float) : valid64 (Prim2SF a).
Proof. apply Prim2SF_valid. Qed.

Lemma nonneg_float_leb (a : float) : (0 <=? a) = true -> nonneg_float a.
Proof.
  unfold nonneg_float. rewrite FloatAxioms.leb_spec.
  change (Prim2SF 0) with (S754_zero false).
  destruct (Prim2SF a) as [s | [] | | [] m e]; cbn;
    intros H; try reflexivity; try discriminate H; exact I.
Qed.

Lemma leb_nonneg_float (a : float) : nonneg_float a -> (0 <=? a) = true.
Proof.
  unfold nonneg_float. rewrite FloatAxioms.leb_spec.
  change (Prim2SF 0) with (S754_zero false).
  destruct (Prim2SF a) as [s | [] | | [] m e]; cbn;
    intros H; try reflexivity; try discriminate H; contradiction.
Qed.

Lemma finite_float_ltb (a : float) :
  (0 <=? a) = true -> (a <? infinity) = true -> finite_float a.
Proof.
  unfold finite_float. rewrite FloatAxioms.leb_spec, FloatAxioms.ltb_spec.
  change (Prim2SF 0) with (S754_zero false).
  change (Prim2SF infinity) with (S754_infinity false).
  destruct (Prim2SF a) as [s | [] | | [] m e]; cbn;
    intros H H'; try reflexivity; try discriminate H; try discriminate H';
    exact I.
Qed.

Lemma finite_float_nonneg (a : float) : finite_float a -> nonneg_float a.
Proof. apply finite_nonneg_nonneg. Qed.

Lemma positive_float_finite (a : float) : positive_float a -> finite_float a.
Proof. apply positive_finite_nonneg. Qed.

Lemma finite_float_le (a b : float) :
  nonneg_float a -> (a <=? b) = true -> finite_float b -> finite_float a.
Proof. rewrite leb_le64. apply le64_finite. Qed.

Lemma leb_refl_nonneg (a : float) : nonneg_float a -> (a <=? a) = true.
Proof. rewrite leb_le64. apply le64_refl. Qed.

Lemma leb_largest (a : float) : finite_float a -> (a <=? largest) = true.
Proof.
  intros H. rewrite leb_le64.
  exact (le64_largest _ (valid64_Prim2SF a) H).
Qed.

(** The product of finite non-negative floats is monotone in both. *)
Lemma mul_nonneg_finite (a b : float) :
  finite_float a -> finite_float b -> nonneg_float (a * b).
Proof.
  intros Ha Hb. unfold nonneg_float. rewrite FloatAxioms.mul_spec.
  apply SFmul_nonneg_finite; try apply valid64_Prim2SF; assumption.
Qed.

Lemma mul_le_finite (a a' b b' : float) :
  finite_float a -> finite_float a' -> finite_float b -> finite_float b' ->
  (a <=? a') = true -> (b <=? b') = true ->
  (a * b <=? a' * b') = true.
Proof.
  intros Ha Ha' Hb Hb'. rewrite !leb_le64. intros H1 H2.
  apply (le64_trans _ (Prim2SF (a' * b))).
  - apply mul_nonneg_finite; assumption.
  - apply mul_nonneg_finite; assumption.
  - apply mul_nonneg_finite; assumption.
  - rewrite !FloatAxioms.mul_spec.
    apply SFmul_le_finite; try apply valid64_Prim2SF; assumption.
  - rewrite !FloatAxioms.mul_spec. unfold SF64mul.
    rewrite (SFmul_comm (Prim2SF a') (Prim2SF b)),
      (SFmul_comm (Prim2SF a') (Prim2SF b')).
    apply SFmul_le_finite; try apply valid64_Prim2SF; assumption.
Qed.

(** The product by a positive float keeps the order, of infinities too. *)
Lemma mul_nonneg_positive (a k : float) :
  nonneg_float a -> positive_float k -> nonneg_float (a * k).
Proof.
  intros Ha Hk. unfold nonneg_float. rewrite FloatAxioms.mul_spec.
  apply SFmul_nonneg_positive; try apply valid64_Prim2SF; assumption.
Qed.

Lemma mul_le_positive (a a' k : float) :
  nonneg_float a -> nonneg_float a' -> positive_float k ->
  (a <=? a') = true -> (a * k <=? a' * k) = true.
Proof.
  intros Ha Ha' Hk. rewrite !leb_le64, !FloatAxioms.mul_spec.
  apply SFmul_le_positive; try apply valid64_Prim2SF; assumption.
Qed.

(** The sum of non-negative floats is monotone in both. *)
Lemma add_nonneg (a b : float) :
  nonneg_float a -> nonneg_float b -> nonneg_float (a + b).
Proof.
  intros Ha Hb. unfold nonneg_float. rewrite FloatAxioms.add_spec.
  apply SFadd_nonneg; try apply valid64_Prim2SF; assumption.
Qed.

Lemma add_le (a a' b b' : float) :
  nonneg_float a -> nonneg_float a' -> nonneg_float b -> nonneg_float b' ->
  (a <=? a') = true -> (b <=? b') = true ->
  (a + b <=? a' + b') = true.
Proof.
  intros Ha Ha' Hb Hb'. rewrite !leb_le64. intros H1 H2.
  apply (le64_trans _ (Prim2SF (a' + b))).
  - apply add_nonneg; assumption.
  - apply add_nonneg; assumption.
  - apply add_nonneg; assumption.
  - rewrite !FloatAxioms.add_spec.
    apply SFadd_le; try apply valid64_Prim2SF; assumption.
  - rewrite !FloatAxioms.add_spec. unfold SF64add.
    rewrite (SFadd_comm (Prim2SF a') (Prim2SF b)),
      (SFadd_comm (Prim2SF a') (Prim2SF b')) by assumption.
    apply SFadd_le; try apply valid64_Prim2SF; assumption.
Qed.

(** The quotient by a positive float keeps the order. *)
Lemma div_nonneg (a k : float) :
  nonneg_float a -> positive_float k -> nonneg_float (a / k).
Proof.
  intros Ha Hk. unfold nonneg_float. rewrite FloatAxioms.div_spec.
  apply SFdiv_nonneg; assumption.
Qed.

Lemma div_le (a a' k : float) :
  nonneg_float a -> nonneg_float a' -> positive_float k ->
  (a <=? a') = true -> (a / k <=? a' / k) = true.
Proof.
  intros Ha Ha' Hk. rewrite !leb_le64, !FloatAxioms.div_spec.
  apply SFdiv_le; try apply valid64_Prim2SF; assumption.
Qed.

(** *** The estimate

    One term of the estimate, [k * q * h]: a coefficient, a quantity and the
    hours; and the estimate, the four terms summed and multiplied by the PUE.
    The coefficients are such that no product of a coefficient and a finite
    quantity overflows. *)

Section Estimate.

Variables (kc km ks kn pue per_hour : float).

Hypothesis kc_finite : finite_float kc.
Hypothesis km_finite : finite_float km.
Hypothesis ks_finite : finite_float ks.
Hypothesis kn_finite : finite_float kn.
Hypothesis kc_full : finite_float (kc * 1).
Hypothesis km_largest : finite_float (km * largest).
Hypothesis ks_largest : finite_float (ks * largest).
Hypothesis kn_largest : finite_float (kn * largest).
Hypothesis pue_positive : positive_float pue.
Hypothesis per_hour_positive : positive_float per_hour.
Hypothesis hours_largest : finite_float (largest / per_hour).

Lemma hours_finite (d : float) :
  finite_float d -> finite_float (d / per_hour).
Proof.
  intros Hd.
  apply (finite_float_le _ (largest / per_hour)).
  - apply div_nonneg; [apply finite_float_nonneg, Hd | assumption].
  - apply div_le; try assumption.
    + apply finite_float_nonneg, Hd.
    + reflexivity.
    + apply leb_largest, Hd.
  - exact hours_largest.
Qed.

Lemma term_finite (k q top : float) :
  finite_float k -> finite_float q -> finite_float top ->
  (q <=? top) = true -> finite_float (k * top) -> finite_float (k * q).
Proof.
  intros Hk Hq Htop Hle Hbound.
  apply (finite_float_le _ (k * top)).
  - apply mul_nonneg_finite; assumption.
  - apply mul_le_finite; try assumption.
    apply leb_refl_nonneg, finite_float_nonneg, Hk.
  - exact Hbound.
Qed.

Lemma term_le (k q q' top h h' : float) :
  finite_float k -> finite_float top -> finite_float (k * top) ->
  finite_float q -> finite_float q' ->
  (q <=? q') = true -> (q' <=? top) = true ->
  finite_float h -> finite_float h' -> (h <=? h') = true ->
  (k * q * h <=? k * q' * h') = true /\
  nonneg_float (k * q * h) /\ nonneg_float (k * q' * h').
Proof.
  intros Hk Htop Hbound Hq Hq' Hle Hle' Hh Hh' Hh_le.
  assert (F' : finite_float (k * q'))
    by (apply (term_finite k q' top); assumption).
  assert (L : (k * q <=? k * q') = true).
  { apply mul_le_finite; try assumption.
    apply leb_refl_nonneg, finite_float_nonneg, Hk. }
  assert (F : finite_float (k * q)).
  { apply (finite_float_le _ (k * q')); try assumption.
    apply mul_nonneg_finite; assumption. }
  split; [apply mul_le_finite; assumption |].
  split; apply mul_nonneg_finite; assumption.
Qed.

Lemma estimate_le_finite (d c m s n d' c' m' s' n' : float) :
  finite_float d -> finite_float c -> finite_float m -> finite_float s ->
  finite_float n ->
  finite_float d' -> finite_float c' -> finite_float m' -> finite_float s' ->
  finite_float n' ->
  (c' <=? 1) = true ->
  (d <=? d') = true -> (c <=? c') = true -> (m <=? m') = true ->
  (s <=? s') = true -> (n <=? n') = true ->
  ((kc * c * (d / per_hour) + km * m * (d / per_hour)
    + ks * s * (d / per_hour) + kn * n * (d / per_hour)) * pue
   <=? (kc * c' * (d' / per_hour) + km * m' * (d' / per_hour)
        + ks * s' * (d' / per_hour) + kn * n' * (d' / per_hour)) * pue)
  = true /\
  nonneg_float
    ((kc * c * (d / per_hour) + km * m * (d / per_hour)
      + ks * s * (d / per_hour) + kn * n * (d / per_hour)) * pue).
Proof.
  intros Fd Fc Fm Fs Fn Fd' Fc' Fm' Fs' Fn' C1 Ld Lc Lm Ls Ln.
  pose proof (hours_finite d Fd) as Fh.
  pose proof (hours_finite d' Fd') as Fh'.
  assert (Lh : (d / per_hour <=? d' / per_hour) = true).
  { apply div_le; try assumption; apply finite_float_nonneg; assumption. }
  assert (F1 : finite_float 1) by (vm_compute; reflexivity).
  assert (FL : finite_float largest) by (vm_compute; reflexivity).
  destruct (term_le kc c c' 1 _ _ kc_finite F1 kc_full Fc Fc' Lc C1 Fh Fh' Lh)
    as (Tc & Nc & Nc').
  destruct (term_le km m m' largest _ _ km_finite FL km_largest Fm Fm' Lm
              (leb_largest m' Fm') Fh Fh' Lh) as (Tm & Nm & Nm').
  destruct (term_le ks s s' largest _ _ ks_finite FL ks_largest Fs Fs' Ls
              (leb_largest s' Fs') Fh Fh' Lh) as (Ts & Ns & Ns').
  destruct (term_le kn n n' largest _ _ kn_finite FL kn_largest Fn Fn' Ln
              (leb_largest n' Fn') Fh Fh' Lh) as (Tn & Nn & Nn').
  set (h := d / per_hour) in *. set (h' := d' / per_hour) in *.
  assert (N2 : nonneg_float (kc * c * h + km * m * h))
    by (apply add_nonneg; assumption).
  assert (N2' : nonneg_float (kc * c' * h' + km * m' * h'))
    by (apply add_nonneg; assumption).
  assert (N3 : nonneg_float (kc * c * h + km * m * h + ks * s * h))
    by (apply add_nonneg; assumption).
  assert (N3' : nonneg_float (kc * c' * h' + km * m' * h' + ks * s' * h'))
    by (apply add_nonneg; assumption).
  assert (N4 : nonneg_float
                 (kc * c * h + km * m * h + ks * s * h + kn * n * h))
    by (apply add_nonneg; assumption).
  assert (N4' : nonneg_float
                  (kc * c' * h' + km * m' * h' + ks * s' * h' + kn * n' * h'))
    by (apply add_nonneg; assumption).
  split.
  - apply mul_le_positive; try assumption.
    repeat (apply add_le; try assumption).
  - apply mul_nonneg_positive; assumption.
Qed.

End Estimate.

End OrderedFloats.

(** ** The order of the estimates, in binary64 *)

Section EstimateOrder.

Local Open Scope float_scope.

(** A NaN, as the specification of the operations sees it. *)
Lemma is_nan_spec (x : float) : Prim2SF x = S754_nan -> is_nan x = true.
Proof.
  intros H. unfold is_nan. rewrite FloatAxioms.eqb_spec, H. reflexivity.
Qed.

Lemma leb_nan_r (x y : float) : Prim2SF y = S754_nan -> (x <=? y) = false.
Proof.
  intros H. rewrite FloatAxioms.leb_spec, H.
  destruct (Prim2SF x); reflexivity.
Qed.

Lemma add_nan_l (x y : float) :
  Prim2SF x = S754_nan -> Prim2SF (x + y) = S754_nan.
Proof. intros H. rewrite FloatAxioms.add_spec, H. reflexivity. Qed.

Lemma add_nan_r (x y : float) :
  Prim2SF y = S754_nan -> Prim2SF (x + y) = S754_nan.
Proof.
  intros H. rewrite FloatAxioms.add_spec, H.
  destruct (Prim2SF x); reflexivity.
Qed.

Lemma mul_nan_l (x y : float) :
  Prim2SF x = S754_nan -> Prim2SF (x * y) = S754_nan.
Proof. intros H. rewrite FloatAxioms.mul_spec, H. reflexivity. Qed.

(** A float equal to zero is one of the two zeros. *)
Lemma is_zero_spec (x : float) :
  Binary64.is_zero x = true -> exists s, Prim2SF x = S754_zero s.
Proof.
  unfold Binary64.is_zero. rewrite FloatAxioms.eqb_spec.
  destruct (Prim2SF x) as [s | s | | s m e]; try discriminate.
  - intros _. exists s. reflexivity.
  - destruct s; discriminate.
  - destruct s; discriminate.
Qed.

(** No hours make an infinity of watts a NaN. *)
Lemma infinity_times_no_hours (d : float) :
  Binary64.is_zero d = true ->
  Prim2SF (infinity * (d / Binary64.of_int 3600)) = S754_nan.
Proof.
  intros Hd. destruct (is_zero_spec d Hd) as (s & Hs).
  rewrite FloatAxioms.mul_spec, FloatAxioms.div_spec, Hs.
  destruct s; vm_compute; reflexivity.
Qed.

(** The estimate in binary64, its [total_wh] in one expression. *)
Lemma total_wh_binary64 (self : CarbonImpactCalculator float)
    (d c m s n : float) :
  exists r,
    calculate_base_consumption self d c m s n = Returned r /\
    total_wh (energy r)
    = (CPU_BASE_WATTS self * c * (d / Binary64.of_int 3600)
       + MEMORY_WATTS_PER_GB self * m * (d / Binary64.of_int 3600)
       + STORAGE_WATTS_PER_GB self * s * (d / Binary64.of_int 3600)
       + NETWORK_WATTS_PER_MB self * n * (d / Binary64.of_int 3600))
      * CLOUD_PUE self.
Proof.
  destruct (calculate_base_consumption_closed (law := float_lawful)
              self d c m s n)
    as (r & Hr & (Hc & Hm & Hs & Hn & Ht & _) & _).
  exists r. split; [exact Hr |].
  cbv zeta in Hc, Hm, Hs, Hn, Ht. rewrite Ht, Hc, Hm, Hs, Hn. reflexivity.
Qed.

(** The quantities of a finite valid sample are finite non-negative
    floats. *)
Lemma finite_valid_sample_finite (d c m s n : float) :
  finite_valid_sample d c m s n ->
  finite_float d /\ finite_float c /\ finite_float m /\ finite_float s /\
  finite_float n /\ (c <=? 1) = true.
Proof.
  intros ((Hd & Hc & Hc1 & Hm & Hs & Hn) & Fd & Fm & Fs & Fn).
  repeat split; try (apply finite_float_ltb; assumption); try exact Hc1.
  apply (finite_float_le c 1).
  - apply nonneg_float_leb, Hc.
  - exact Hc1.
  - vm_compute. reflexivity.
Qed.

(** The estimate of the default calculator does not decrease from a finite
    valid sample to a greater one. *)
Lemma total_wh_finite (d c m s n d' c' m' s' n' : float) :
  finite_valid_sample d c m s n -> finite_valid_sample d' c' m' s' n' ->
  (d <=? d') = true -> (c <=? c') = true -> (m <=? m') = true ->
  (s <=? s') = true -> (n <=? n') = true ->
  exists r r',
    calculate_base_consumption init d c m s n = Returned r /\
    calculate_base_consumption init d' c' m' s' n' = Returned r' /\
    (total_wh (energy r) <=? total_wh (energy r')) = true /\
    (0 <=? total_wh (energy r)) = true.
Proof.
  intros Hv Hv' Ld Lc Lm Ls Ln.
  destruct (finite_valid_sample_finite _ _ _ _ _ Hv)
    as (Fd & Fc & Fm & Fs & Fn & _).
  destruct (finite_valid_sample_finite _ _ _ _ _ Hv')
    as (Fd' & Fc' & Fm' & Fs' & Fn' & C1).
  destruct (total_wh_binary64 init d c m s n) as (r & Hr & Ht).
  destruct (total_wh_binary64 init d' c' m' s' n') as (r' & Hr' & Ht').
  exists r, r'. split; [exact Hr | split; [exact Hr' |]].
  rewrite Ht, Ht'.
  assert (K1 : finite_float (CPU_BASE_WATTS init))
    by (vm_compute; reflexivity).
  assert (K2 : finite_float (MEMORY_WATTS_PER_GB init))
    by (vm_compute; reflexivity).
  assert (K3 : finite_float (STORAGE_WATTS_PER_GB init))
    by (vm_compute; reflexivity).
  assert (K4 : finite_float (NETWORK_WATTS_PER_MB init))
    by (vm_compute; reflexivity).
  assert (B1 : finite_float (CPU_BASE_WATTS init * 1))
    by (vm_compute; reflexivity).
  assert (B2 : finite_float (MEMORY_WATTS_PER_GB init * largest))
    by (vm_compute; reflexivity).
  assert (B3 : finite_float (STORAGE_WATTS_PER_GB init * largest))
    by (vm_compute; reflexivity).
  assert (B4 : finite_float (NETWORK_WATTS_PER_MB init * largest))
    by (vm_compute; reflexivity).
  assert (P1 : positive_float (CLOUD_PUE init))
    by (eexists; eexists; vm_compute; reflexivity).
  assert (P2 : positive_float (Binary64.of_int 3600))
    by (eexists; eexists; vm_compute; reflexivity).
  assert (B5 : finite_float (largest / Binary64.of_int 3600))
    by (vm_compute; reflexivity).
  destruct (estimate_le_finite _ _ _ _ _ _ K1 K2 K3 K4 B1 B2 B3 B4 P1 P2 B5
              d c m s n d' c' m' s' n' Fd Fc Fm Fs Fn
              Fd' Fc' Fm' Fs' Fn' C1 Ld Lc Lm Ls Ln) as (Hle & Hnn).
  split; [exact Hle | apply leb_nonneg_float, Hnn].
Qed.

Lemma total_wh_le_finite (d c m s n d' c' m' s' n' : float) :
  finite_valid_sample d c m s n -> finite_valid_sample d' c' m' s' n' ->
  (d <=? d') = true -> (c <=? c') = true -> (m <=? m') = true ->
  (s <=? s') = true -> (n <=? n') = true ->
  total_wh_le (calculate_base_consumption init d c m s n)
    (calculate_base_consumption init d' c' m' s' n').
Proof.
  intros Hv Hv' Ld Lc Lm Ls Ln.
  destruct (total_wh_finite _ _ _ _ _ _ _ _ _ _ Hv Hv' Ld Lc Lm Ls Ln)
    as (r & r' & Hr & Hr' & Hle & _).
  exists r, r'. split; [exact Hr | split; [exact Hr' | exact Hle]].
Qed.

Lemma finite_valid_sample_refl (d c m s n : float) :
  finite_valid_sample d c m s n ->
  (d <=? d) = true /\ (c <=? c) = true /\ (m <=? m) = true /\
  (s <=? s) = true /\ (n <=? n) = true.
Proof.
  intros Hv.
  destruct (finite_valid_sample_finite _ _ _ _ _ Hv)
    as (Fd & Fc & Fm & Fs & Fn & _).
  repeat split; apply leb_refl_nonneg, finite_float_nonneg; assumption.
Qed.

(** C9, as the code has it.  In binary64 every operation rounds, and rounding
    keeps the order: among the valid samples of finite quantities, with the
    default coefficients, [total_wh] does not decrease ([<=] on floats) when
    one of the duration, the utilization, the memory, the storage and the
    network traffic grows and the others stay.  (With an infinite quantity it
    can be a NaN, and the order fails.) *)
Theorem total_wh_monotone_on_finite_samples (d c m s n : float) :
  finite_valid_sample d c m s n ->
  total_wh_monotone_among finite_valid_sample init d c m s n.
Proof.
  intros Hv.
  destruct (finite_valid_sample_refl _ _ _ _ _ Hv) as (Rd & Rc & Rm & Rs & Rn).
  unfold total_wh_monotone_among. cbv zeta.
  repeat split; intros x' Hle Hv'; apply total_wh_le_finite; assumption.
Qed.

Lemma total_wh_monotone_on_finite_samples_witness :
  finite_valid_sample 10 0.5 2 0.5 8.125 /\
  total_wh_monotone_among finite_valid_sample init 10 0.5 2 0.5 8.125.
Proof.
  assert (H : finite_valid_sample 10 0.5 2 0.5 8.125)
    by (repeat split; vm_compute; reflexivity).
  split; [exact H |].
  exact (total_wh_monotone_on_finite_samples 10 0.5 2 0.5 8.125 H).
Defined.

(** X31. The estimate of a finite valid sample is a non-negative float, an
    infinity at most: [calculate_base_consumption] returns and
    [0 <= total_wh]. *)
Theorem total_wh_nonneg_on_finite_samples (d c m s n : float) :
  finite_valid_sample d c m s n ->
  exists r,
    calculate_base_consumption init d c m s n = Returned r /\
    (0 <=? total_wh (energy r)) = true.
Proof.
  intros Hv.
  destruct (finite_valid_sample_refl _ _ _ _ _ Hv) as (Rd & Rc & Rm & Rs & Rn).
  destruct (total_wh_finite _ _ _ _ _ _ _ _ _ _ Hv Hv Rd Rc Rm Rs Rn)
    as (r & _ & Hr & _ & _ & Hnn).
  exists r. split; [exact Hr | exact Hnn].
Qed.

Lemma total_wh_nonneg_on_finite_samples_witness :
  finite_valid_sample 10 0.5 2 0.5 8.125 /\
  exists r,
    calculate_base_consumption init 10 0.5 2 0.5 8.125 = Returned r /\
    (0 <=? total_wh (energy r)) = true.
Proof.
  assert (H : finite_valid_sample 10 0.5 2 0.5 8.125)
    by (repeat split; vm_compute; reflexivity).
  split; [exact H |].
  exact (total_wh_nonneg_on_finite_samples 10 0.5 2 0.5 8.125 H).
Defined.

(** X30. With an infinite quantity the estimate can be undefined: with the
    default coefficients, whenever the duration is zero and [memory_gb] is
    infinite the [total_wh] returned is a NaN, whatever the three other
    quantities are, and no [total_wh] is less than or equal to it. *)
Theorem total_wh_undefined_at_infinite_memory (d c s n : float) :
  Binary64.is_zero d = true ->
  total_wh_is_nan (calculate_base_consumption init d c infinity s n) /\
  forall o,
    ~ total_wh_le o (calculate_base_consumption init d c infinity s n).
Proof.
  intros Hd.
  destruct (total_wh_binary64 init d c infinity s n) as (r & Hr & Ht).
  assert (Hnan : Prim2SF (total_wh (energy r)) = S754_nan).
  { rewrite Ht. apply mul_nan_l, add_nan_l, add_nan_l, add_nan_r.
    cbn [MEMORY_WATTS_PER_GB init].
    replace (lit 0.372 * infinity) with infinity
      by (vm_compute; reflexivity).
    apply infinity_times_no_hours. exact Hd. }
  split.
  - exists r. split; [exact Hr | apply is_nan_spec; exact Hnan].
  - intros o (r1 & r2 & _ & Hr2 & Hle).
    rewrite Hr in Hr2. apply Returned_inj in Hr2. subst r2.
    rewrite (leb_nan_r _ _ Hnan) in Hle. discriminate Hle.
Qed.

Lemma total_wh_undefined_at_infinite_memory_witness :
  Binary64.is_zero 0 = true /\
  total_wh_is_nan (calculate_base_consumption init 0 0.75 infinity 0.5 8.125) /\
  forall o,
    ~ total_wh_le o (calculate_base_consumption init 0 0.75 infinity 0.5 8.125).
Proof.
  assert (H : Binary64.is_zero 0 = true) by reflexivity.
  split; [exact H |].
  exact (total_wh_undefined_at_infinite_memory 0 0.75 0.5 8.125 H).
Defined.

(** C9 fails on the code: the sample of no duration, full utilization and
    1 GB of memory is valid, and so is the same sample with infinite memory,
    but [total_wh] goes from 0.0 to a NaN when the memory grows from the one
    to the other. *)
Lemma total_wh_not_monotone :
  valid_sample 0 1 1 0 0 /\
  ~ total_wh_monotone_at init 0 1 1 0 0.
Proof.
  split; [repeat split |].
  intros (_ & _ & Hmem & _).
  specialize (Hmem infinity eq_refl ltac:(repeat split)).
  destruct Hmem as (r1 & r2 & _ & Hr2 & Hle).
  vm_compute in Hr2. apply Returned_inj in Hr2. subst r2.
  cbn [energy total_wh] in Hle.
  rewrite leb_nan_r in Hle by (vm_compute; reflexivity).
  discriminate Hle.
Qed.

End EstimateOrder.

(** * More properties of the calculator *)

(** ** The clock *)

Lemma later_at (n : nat) : forall (clk : clock) (i : nat),
  later n clk i = clk (n + i)%nat.
Proof.
  induction n as [| n IH]; intros clk i; cbn [later]; [reflexivity |].
  rewrite IH. reflexivity.
Qed.

Lemma later_read (n : nat) : forall clk : clock,
  (fun i => later n clk (S i)) = later (S n) clk.
Proof.
  induction n as [| n IH]; intros clk; [reflexivity |].
  cbn [later] in *. apply (IH (fun i => clk (S i))).
Qed.

(** ** The comparison in closed form *)

Section ComparisonClosed.

Context {F : Type} {num : Number F}.
Variable self : CarbonImpactCalculator F.

(** A comparison that returns has found its five divisors nonzero, has read
    the clock once, and returns the dict of the source. *)
Lemma comparison_returned (sm wm : Metrics F) (clk : clock)
    (c : Comparison F) (k : clock) :
  calculate_framework_comparison self sm wm clk = Returned (c, k) ->
  exists rs rw,
    calculate_base_consumption_kw self sm = Returned rs /\
    calculate_base_consumption_kw self wm = Returned rw /\
    is_zero (total_joules (energy rw)) = false /\
    is_zero (total_g_co2e (carbon rw)) = false /\
    is_zero (duration_seconds wm) = false /\
    is_zero (cpu_utilization wm) = false /\
    is_zero (memory_gb wm) = false /\
    c = comparison_record sm wm rs rw (clk 0%nat) /\
    k = later 1 clk.
Proof.
  unfold calculate_framework_comparison, cbind, lift, now, ret, div.
  destruct (calculate_base_consumption_kw self sm) as [rs | e];
    [| discriminate].
  destruct (calculate_base_consumption_kw self wm) as [rw | e];
    [| discriminate].
  destruct (is_zero (total_joules (energy rw))) eqn:Hj; [discriminate |].
  destruct (is_zero (total_g_co2e (carbon rw))) eqn:Hg; [discriminate |].
  destruct (is_zero (duration_seconds wm)) eqn:Hd; [discriminate |].
  destruct (is_zero (cpu_utilization wm)) eqn:Hc; [discriminate |].
  destruct (is_zero (memory_gb wm)) eqn:Hm; [discriminate |].
  intros H. apply Returned_inj in H.
  exists rs, rw. repeat (split; [first [reflexivity | assumption] |]).
  split; [exact (eq_sym (f_equal fst H)) | exact (eq_sym (f_equal snd H))].
Qed.

(** And with the five divisors nonzero it returns. *)
Lemma comparison_returns (sm wm : Metrics F) (clk : clock)
    (rs rw : Consumption F) :
  calculate_base_consumption_kw self sm = Returned rs ->
  calculate_base_consumption_kw self wm = Returned rw ->
  is_zero (total_joules (energy rw)) = false ->
  is_zero (total_g_co2e (carbon rw)) = false ->
  is_zero (duration_seconds wm) = false ->
  is_zero (cpu_utilization wm) = false ->
  is_zero (memory_gb wm) = false ->
  calculate_framework_comparison self sm wm clk
  = Returned (comparison_record sm wm rs rw (clk 0%nat), later 1 clk).
Proof.
  intros Hs Hw Hj Hg Hd Hc Hm.
  unfold calculate_framework_comparison, cbind, lift, now, ret, div.
  rewrite Hs, Hw, Hj, Hg, Hd, Hc, Hm. reflexivity.
Qed.

End ComparisonClosed.

(** ** When the comparison returns, and what the report keeps *)

Section ComparisonReturns.

Context {F : Type} {num : Number F} {law : Lawful F}.
Variable self : CarbonImpactCalculator F.

(** X1. The comparison returns exactly when the five numbers it divides by
    are nonzero: the baseline's [total_joules], carbon and duration, and its
    [cpu_utilization] and [memory_gb]; otherwise it raises. *)
Theorem comparison_returns_iff (sm wm : Metrics F) (clk : clock) :
  (exists c,
     value (calculate_framework_comparison self sm wm clk) = Returned c)
  <-> all_divisors_nonzero self wm.
Proof.
  split.
  - intros (c & Hc).
    destruct (calculate_framework_comparison self sm wm clk)
      as [[c' k] | e] eqn:Hrun; [| discriminate Hc].
    destruct (comparison_returned self sm wm clk c' k Hrun)
      as (rs & rw & _ & Hw & Hj & Hg & Hd & Hcpu & Hmem & _).
    split; [| split; assumption].
    exists rw. repeat split; assumption.
  - intros ((rw & Hw & Hj & Hg & Hd) & Hcpu & Hmem).
    destruct (calculate_base_consumption_closed self (duration_seconds sm)
                (cpu_utilization sm) (memory_gb sm) (default (storage_gb sm))
                (default (network_mb sm))) as (rs & Hs & _).
    eexists.
    rewrite (comparison_returns self sm wm clk rs rw) by assumption.
    reflexivity.
Qed.

End ComparisonReturns.

Lemma comparison_returns_iff_witness :
  (exists c,
     value (calculate_framework_comparison (F := float) init
              (sustainable_metrics login_test) (wasteful_metrics login_test)
              example_clock) = Returned c)
  <-> all_divisors_nonzero (F := float) init (wasteful_metrics login_test).
Proof.
  exact (comparison_returns_iff (law := float_lawful) init
           (sustainable_metrics login_test) (wasteful_metrics login_test)
           example_clock).
Defined.

Section ReportBookkeeping.

Context {F : Type} {num : Number F}.
Variable self : CarbonImpactCalculator F.

(** The loop: each comparison takes the name of its scenario and the next
    reading of the clock. *)
Lemma compare_scenarios_bookkeeping (scs : list (Scenario F)) :
  forall (acc : list (Comparison F)) (clk : clock)
         (cs : list (Comparison F)) (k : clock),
    compare_scenarios self scs acc clk = Returned (cs, k) ->
    exists cs',
      cs = acc ++ cs' /\
      map scenario_name cs' = map (fun sc => Some (name sc)) scs /\
      map timestamp cs' = map clk (seq 0 (List.length scs)) /\
      k = later (List.length scs) clk.
Proof.
  induction scs as [| sc scs IH]; intros acc clk cs k Hrun.
  - cbn in Hrun. apply Returned_inj in Hrun.
    exists []. rewrite app_nil_r.
    injection Hrun as <- <-. repeat split.
  - cbn [compare_scenarios] in Hrun. rewrite cbind_run in Hrun.
    destruct (calculate_framework_comparison self (sustainable_metrics sc)
                (wasteful_metrics sc) clk) as [[c k1] | e] eqn:Hc;
      [| discriminate Hrun].
    destruct (comparison_returned self _ _ clk c k1 Hc)
      as (rs & rw & _ & _ & _ & _ & _ & _ & _ & -> & ->).
    destruct (IH _ _ _ _ Hrun) as (cs' & -> & Hnames & Hstamps & ->).
    exists (set_scenario_name
              (comparison_record (sustainable_metrics sc) (wasteful_metrics sc)
                 rs rw (clk 0%nat)) (name sc) :: cs').
    rewrite <- app_assoc. split; [reflexivity |].
    cbn [map List.length seq]. rewrite Hnames, Hstamps.
    split; [reflexivity |]. split; [| reflexivity].
    cbn [set_scenario_name comparison_record timestamp]. f_equal.
    rewrite <- seq_shift, map_map. reflexivity.
Qed.

(** X2. A report that is returned counts its scenarios, lists one comparison
    for each, under the scenario's name and in the order given, each with
    the reading of the clock at its turn; its own [generated_timestamp] is
    the reading after the last comparison's, so that [n] scenarios take
    [n + 1] readings; and its methodology records the coefficients of the
    calculator. *)
Theorem report_keeps_its_books (scs : list (Scenario F)) (clk : clock)
    (r : Report F) (k : clock) :
  generate_carbon_report self scs clk = Returned (r, k) ->
  report_bookkeeping self scs clk r k.
Proof.
  unfold generate_carbon_report. rewrite cbind_run.
  destruct (compare_scenarios self scs [] clk) as [[cs k1] | e] eqn:Hloop;
    [| discriminate].
  destruct (compare_scenarios_bookkeeping scs [] clk cs k1 Hloop)
    as (cs' & -> & Hnames & Hstamps & ->).
  cbn [app]. cbv zeta. unfold cbind, lift, now, ret.
  repeat match goal with
         | |- context [match ?d with Returned _ => _ | Raised _ => _ end] =>
             match d with
             | div _ _ => destruct d; [| discriminate]
             | calculate_annual_projections _ _ _ =>
                 destruct d; [| discriminate]
             end
         end.
  intros H. apply Returned_inj in H. injection H as <- <-.
  unfold report_bookkeeping. cbn.
  assert (Hlen : List.length cs' = List.length scs).
  { rewrite <- (length_map scenario_name cs'), Hnames, length_map.
    reflexivity. }
  repeat split; try assumption.
  - rewrite later_at, Nat.add_0_r. reflexivity.
  - apply later_read.
Qed.

End ReportBookkeeping.

Lemma report_keeps_its_books_witness :
  exists r k,
    generate_carbon_report (F := float) init test_scenarios example_clock
    = Returned (r, k) /\
    report_bookkeeping init test_scenarios example_clock r k.
Proof.
  destruct (generate_carbon_report (F := float) init test_scenarios
              example_clock) as [[r k] | e] eqn:Hrun.
  - exists r, k. split; [reflexivity |].
    exact (report_keeps_its_books init test_scenarios example_clock r k Hrun).
  - vm_compute in Hrun. discriminate Hrun.
Defined.

(** ** The report in closed form *)

Section ReportClosed.

Context {F : Type} {num : Number F}.
Variable self : CarbonImpactCalculator F.

(** A report that is returned has run its loop, divided by two nonzero
    lengths, projected the mean saving and read the clock once more. *)
Lemma report_returned (scs : list (Scenario F)) (clk : clock)
    (r : Report F) (k : clock) :
  generate_carbon_report self scs clk = Returned (r, k) ->
  exists cs k1 p,
    compare_scenarios self scs [] clk = Returned (cs, k1) /\
    is_zero (len cs) = false /\
    is_zero (len scs) = false /\
    calculate_annual_projections self 100 (mean_savings scs cs) = Returned p /\
    r = report_record self scs cs p (k1 0%nat) /\
    k = later 1 k1.
Proof.
  unfold generate_carbon_report. rewrite cbind_run.
  destruct (compare_scenarios self scs [] clk) as [[cs k1] | e];
    [| discriminate].
  cbv zeta. unfold cbind, lift, now, ret, div.
  destruct (is_zero (len cs)) eqn:Hcs; [discriminate |].
  destruct (is_zero (len scs)) eqn:Hscs; [discriminate |].
  fold (mean_savings scs cs).
  destruct (calculate_annual_projections self 100 (mean_savings scs cs))
    as [p | e] eqn:Hp; [| discriminate].
  intros H. apply Returned_inj in H.
  exists cs, k1, p. repeat (split; [first [reflexivity | assumption] |]).
  split; [exact (eq_sym (f_equal fst H)) | exact (eq_sym (f_equal snd H))].
Qed.

Lemma report_returns (scs : list (Scenario F)) (clk : clock)
    (cs : list (Comparison F)) (k1 : clock) (p : Projections F) :
  compare_scenarios self scs [] clk = Returned (cs, k1) ->
  is_zero (len cs) = false ->
  is_zero (len scs) = false ->
  calculate_annual_projections self 100 (mean_savings scs cs) = Returned p ->
  generate_carbon_report self scs clk
  = Returned (report_record self scs cs p (k1 0%nat), later 1 k1).
Proof.
  intros Hloop Hcs Hscs Hp.
  unfold generate_carbon_report. rewrite cbind_run, Hloop.
  cbv zeta. unfold cbind, lift, now, ret, div.
  rewrite Hcs, Hscs. fold (mean_savings scs cs). rewrite Hp. reflexivity.
Qed.

(** A loop that returns has seen every comparison succeed. *)
Lemma compare_scenarios_succeeded (scs : list (Scenario F)) :
  forall (acc : list (Comparison F)) (clk : clock)
         (cs : list (Comparison F)) (k : clock),
    compare_scenarios self scs acc clk = Returned (cs, k) ->
    Forall (comparison_succeeds self) scs.
Proof.
  induction scs as [| sc scs IH]; intros acc clk cs k Hrun; [constructor |].
  cbn [compare_scenarios] in Hrun. rewrite cbind_run in Hrun.
  destruct (calculate_framework_comparison self (sustainable_metrics sc)
              (wasteful_metrics sc) clk) as [[c k1] | e] eqn:Hc;
    [| discriminate Hrun].
  constructor; [| exact (IH _ _ _ _ Hrun)].
  exists (set_scenario_name c (name sc)), clk, c.
  rewrite Hc. split; reflexivity.
Qed.

Context {law : Lawful F} {cnt : Counts F}.

(** X3. The report is returned exactly when the collection is not empty and
    the comparison of every scenario succeeds; otherwise it raises. *)
Theorem report_returns_iff (scs : list (Scenario F)) (clk : clock) :
  (exists r, value (generate_carbon_report self scs clk) = Returned r)
  <-> scs <> [] /\ Forall (comparison_succeeds self) scs.
Proof.
  split.
  - intros (r & Hr).
    destruct (generate_carbon_report self scs clk) as [[r' k] | e] eqn:Hrun;
      [| discriminate Hr].
    destruct (report_returned scs clk r' k Hrun)
      as (cs & k1 & p & Hloop & _ & Hscs & _).
    split.
    + intros ->. unfold len in Hscs. cbn [List.length Z.of_nat] in Hscs.
      rewrite int_0_is_zero in Hscs. discriminate Hscs.
    + exact (compare_scenarios_succeeded scs [] clk cs k1 Hloop).
  - intros (Hne & Hall).
    destruct (compare_scenarios_returns self scs [] clk Hall)
      as (cs & k1 & Hloop & Hcs).
    cbn [app] in Hloop.
    assert (Hlen : len cs = len scs).
    { unfold len. rewrite (Forall2_length Hcs). reflexivity. }
    pose proof (len_nonzero scs Hne) as Hnz.
    destruct (calculate_annual_projections_closed self 100
                (mean_savings scs cs)) as (p & Hp & _).
    eexists.
    rewrite (report_returns scs clk cs k1 p Hloop); try assumption.
    + reflexivity.
    + rewrite Hlen. exact Hnz.
Qed.

End ReportClosed.

Lemma report_returns_iff_witness :
  (exists r,
     value (generate_carbon_report (F := float) init
              [login_test; stalled_test] example_clock) = Returned r)
  <-> [login_test; stalled_test] <> []
      /\ Forall (comparison_succeeds (F := float) init)
           [login_test; stalled_test].
Proof.
  exact (report_returns_iff (law := float_lawful) (cnt := float_counts) init
           [login_test; stalled_test] example_clock).
Defined.

(** * The hackathon demonstration *)

Section DemoSuites.

Import NetZeroDemo.

Context {F : Type} {num : Number F}.

Lemma log_execution_run (s : TestFrameworkSimulator F) (t : string)
    (d e c : F) (clk : clock) :
  log_execution s t d e c clk
  = Returned
      ({| name := name s;
          execution_logs :=
            execution_logs s
            ++ [{| test := t; duration_seconds := d; energy_joules := e;
                   carbon_g_co2e := c; timestamp := clk 0%nat |}];
          total_energy := add (total_energy s) e;
          total_carbon := add (total_carbon s) c |},
       later 1 clk).
Proof. reflexivity. Qed.

Lemma totals_after_log (s : TestFrameworkSimulator F) (t : string)
    (d e c : F) (stamp : isoformat) :
  totals_match_logs s ->
  totals_match_logs
    {| name := name s;
       execution_logs :=
         execution_logs s
         ++ [{| test := t; duration_seconds := d; energy_joules := e;
                carbon_g_co2e := c; timestamp := stamp |}];
       total_energy := add (total_energy s) e;
       total_carbon := add (total_carbon s) c |}.
Proof.
  intros (He & Hc). unfold totals_match_logs.
  cbn [execution_logs total_energy total_carbon].
  rewrite !map_app, !fold_left_app, <- He, <- Hc. split; reflexivity.
Qed.

(** X16. Logging an execution keeps the books: when the totals of a
    simulator are the sums of its log, they still are after
    [log_execution], which appends one entry with the reading of the
    clock. *)
Theorem log_execution_keeps_totals (s : TestFrameworkSimulator F)
    (t : string) (d e c : F) (clk : clock) :
  totals_match_logs s ->
  exists s',
    log_execution s t d e c clk = Returned (s', later 1 clk) /\
    totals_match_logs s' /\
    execution_logs s'
    = execution_logs s
      ++ [{| test := t; duration_seconds := d; energy_joules := e;
             carbon_g_co2e := c; timestamp := clk 0%nat |}].
Proof.
  intros Hs. eexists. split; [apply log_execution_run |].
  split; [apply totals_after_log; exact Hs | reflexivity].
Qed.

Lemma totals_after_suite (s s' : TestFrameworkSimulator F)
    (added : list (Execution F)) :
  execution_logs s' = execution_logs s ++ added ->
  total_energy s' = fold_left add (map energy_joules added) (total_energy s) ->
  total_carbon s' = fold_left add (map carbon_g_co2e added) (total_carbon s) ->
  totals_match_logs s -> totals_match_logs s'.
Proof.
  intros Hl He Hc (Hse & Hsc). unfold totals_match_logs.
  rewrite Hl, He, Hc, !map_app, !fold_left_app, <- Hse, <- Hsc.
  split; reflexivity.
Qed.

(** The wasteful loop is the green loop over the inflated scenarios. *)
Lemma non_green_tests_inflate (scs : list (string * F * F)) :
  forall (s : TestFrameworkSimulator F) (clk : clock),
    non_green_tests scs s clk
    = greener_tests
        (map (fun sc => (fst (fst sc), fst (inflated (snd (fst sc)) (snd sc)),
                         snd (inflated (snd (fst sc)) (snd sc)))) scs) s clk.
Proof.
  induction scs as [| [[t d] m] scs IH]; intros s clk; [reflexivity |].
  cbn [non_green_tests greener_tests map fst snd inflated]. cbv zeta.
  rewrite !cbind_run. unfold lift.
  destruct (calculate_carbon_footprint _) as [c | e]; [| reflexivity].
  rewrite !cbind_run, !log_execution_run. apply IH.
Qed.

Context {law : Lawful F}.

Lemma calculate_carbon_footprint_returns (e : F) :
  calculate_carbon_footprint e
  = Returned (mul (quot (quot e (int 3600)) (int 1000)) GRID_INTENSITY).
Proof.
  unfold calculate_carbon_footprint. divide_by_literals. reflexivity.
Qed.

(** The green loop logs one entry for each scenario. *)
Lemma greener_tests_logged (scs : list (string * F * F)) :
  forall (s : TestFrameworkSimulator F) (clk : clock),
    exists s' k,
      greener_tests scs s clk = Returned (s', k) /\
      suite_logged as_given scs clk s s' k.
Proof.
  induction scs as [| [[t d] m] scs IH]; intros s clk.
  - exists s, clk. split; [reflexivity |].
    exists []. rewrite app_nil_r. repeat split. constructor.
  - cbn [greener_tests]. cbv zeta. rewrite cbind_run. unfold lift.
    rewrite calculate_carbon_footprint_returns.
    rewrite cbind_run, log_execution_run.
    set (c := mul _ GRID_INTENSITY).
    set (entry := {| test := t; duration_seconds := d;
                     energy_joules := calculate_energy_consumption d m;
                     carbon_g_co2e := c; timestamp := clk 0%nat |}).
    set (s1 := {| name := name s;
                  execution_logs := execution_logs s ++ [entry];
                  total_energy := _; total_carbon := _ |}).
    destruct (IH s1 (later 1 clk))
      as (s' & k & Hrun & added & Hl & Hn & Ht & Hd & He & Hf & Hs & Hk
          & Hte & Htc).
    exists s', k. split; [exact Hrun |].
    exists (entry :: added).
    cbn [map fst snd as_given List.length seq fold_left].
    split; [rewrite Hl; subst s1; cbn [execution_logs];
            rewrite <- app_assoc; reflexivity |].
    split; [rewrite Hn; reflexivity |].
    split; [rewrite Ht; reflexivity |].
    split; [rewrite Hd; reflexivity |].
    split; [rewrite He; reflexivity |].
    split; [constructor; [| exact Hf];
            unfold footprint_logged; subst entry; cbn [energy_joules carbon_g_co2e];
            apply calculate_carbon_footprint_returns |].
    split; [rewrite Hs, <- seq_shift, map_map; reflexivity |].
    split; [rewrite Hk; reflexivity |].
    split; [rewrite Hte | rewrite Htc]; reflexivity.
Qed.

Lemma non_green_tests_logged (scs : list (string * F * F))
    (s : TestFrameworkSimulator F) (clk : clock) :
  exists s' k,
    non_green_tests scs s clk = Returned (s', k) /\
    suite_logged inflated scs clk s s' k.
Proof.
  rewrite non_green_tests_inflate.
  destruct (greener_tests_logged
              (map (fun sc => (fst (fst sc),
                               fst (inflated (snd (fst sc)) (snd sc)),
                               snd (inflated (snd (fst sc)) (snd sc)))) scs)
              s clk)
    as (s' & k & Hrun & added & Hl & Hn & Ht & Hd & He & Hf & Hs & Hk
        & Hte & Htc).
  exists s', k. split; [exact Hrun |].
  exists added. rewrite !map_map, length_map in *.
  cbn [fst snd as_given] in *.
  repeat (split; [assumption |]). assumption.
Qed.

(** X17. The green suite always returns: it logs its three tests in order,
    each with its duration as given, the energy of its duration and memory,
    the footprint of that energy and the next reading of the clock; it adds
    them to the totals, keeps totals that match the log matching, and leaves
    both flags set. *)
Theorem greener_suite_logs (self : GreenerFrameworkSimulator F)
    (clk : clock) :
  exists self' k,
    greener_run_test_suite self clk = Returned (self', k) /\
    suite_logged as_given greener_scenarios clk
      (simulator self) (simulator self') k /\
    (totals_match_logs (simulator self) ->
     totals_match_logs (simulator self')) /\
    http_client_initialized self' = true /\
    config_cached self' = true.
Proof.
  destruct (greener_tests_logged greener_scenarios (simulator self) clk)
    as (s' & k & Hrun & Hlogged).
  unfold greener_run_test_suite. rewrite cbind_run, Hrun. unfold ret.
  eexists. exists k. split; [reflexivity |].
  cbn [simulator http_client_initialized config_cached].
  split; [exact Hlogged |].
  split.
  - destruct Hlogged as (added & Hl & _ & _ & _ & _ & _ & _ & _ & Hte & Htc).
    exact (totals_after_suite _ _ added Hl Hte Htc).
  - split; [destruct (http_client_initialized self)
           | destruct (config_cached self)]; reflexivity.
Qed.

(** X18. The wasteful suite always returns: it logs its three tests in
    order, each with three tenths added to its duration and to its memory,
    the energy of these, the footprint of that energy and the next reading
    of the clock; it adds them to the totals and keeps totals that match the
    log matching. *)
Theorem non_green_suite_logs (self : TestFrameworkSimulator F)
    (clk : clock) :
  exists self' k,
    non_green_run_test_suite self clk = Returned (self', k) /\
    suite_logged inflated non_green_scenarios clk self self' k /\
    (totals_match_logs self -> totals_match_logs self').
Proof.
  destruct (non_green_tests_logged non_green_scenarios self clk)
    as (s' & k & Hrun & Hlogged).
  exists s', k. split; [exact Hrun |]. split; [exact Hlogged |].
  destruct Hlogged as (added & Hl & _ & _ & _ & _ & _ & _ & _ & Hte & Htc).
  exact (totals_after_suite _ _ added Hl Hte Htc).
Qed.

End DemoSuites.

Lemma log_execution_keeps_totals_witness :
  exists s',
    NetZeroDemo.log_execution (F := float)
      NetZeroDemo.NonGreenFrameworkSimulator_init "Test_Login"%string
      (lit 2.35) (lit 79.5) (lit 0.0088) example_clock
    = Returned (s', later 1 example_clock) /\
    NetZeroDemo.totals_match_logs s' /\
    NetZeroDemo.execution_logs s'
    = NetZeroDemo.execution_logs
        (F := float) NetZeroDemo.NonGreenFrameworkSimulator_init
      ++ [{| NetZeroDemo.test := "Test_Login"%string;
             NetZeroDemo.duration_seconds := lit 2.35;
             NetZeroDemo.energy_joules := lit 79.5;
             NetZeroDemo.carbon_g_co2e := lit 0.0088;
             NetZeroDemo.timestamp := example_clock 0%nat |}].
Proof.
  apply (log_execution_keeps_totals (F := float)).
  split; reflexivity.
Defined.

Lemma greener_suite_logs_witness :
  exists self' k,
    NetZeroDemo.greener_run_test_suite (F := float)
      NetZeroDemo.GreenerFrameworkSimulator_init example_clock
    = Returned (self', k) /\
    NetZeroDemo.suite_logged NetZeroDemo.as_given
      NetZeroDemo.greener_scenarios example_clock
      (NetZeroDemo.simulator NetZeroDemo.GreenerFrameworkSimulator_init)
      (NetZeroDemo.simulator self') k /\
    (NetZeroDemo.totals_match_logs
       (NetZeroDemo.simulator (F := float)
          NetZeroDemo.GreenerFrameworkSimulator_init) ->
     NetZeroDemo.totals_match_logs (NetZeroDemo.simulator self')) /\
    NetZeroDemo.http_client_initialized self' = true /\
    NetZeroDemo.config_cached self' = true.
Proof.
  exact (greener_suite_logs (law := float_lawful)
           NetZeroDemo.GreenerFrameworkSimulator_init example_clock).
Defined.

Lemma non_green_suite_logs_witness :
  exists self' k,
    NetZeroDemo.non_green_run_test_suite (F := float)
      NetZeroDemo.NonGreenFrameworkSimulator_init example_clock
    = Returned (self', k) /\
    NetZeroDemo.suite_logged NetZeroDemo.inflated
      NetZeroDemo.non_green_scenarios example_clock
      NetZeroDemo.NonGreenFrameworkSimulator_init self' k /\
    (NetZeroDemo.totals_match_logs
       (F := float) NetZeroDemo.NonGreenFrameworkSimulator_init ->
     NetZeroDemo.totals_match_logs self').
Proof.
  exact (non_green_suite_logs (law := float_lawful)
           NetZeroDemo.NonGreenFrameworkSimulator_init example_clock).
Defined.

(** ** The comparison of the two totals *)

Section DemoComparison.

Import NetZeroDemo.

Context {F : Type} {num : Number F}.

(** Results that are saved have found the three divisors nonzero and read
    the clock once. *)
Lemma save_results_returned (self : HackathonDemonstrtor F) (clk : clock)
    (r : Results F) (k : clock) :
  save_results self clk = Returned (r, k) ->
  baseline_nonzero self /\
  k = later 1 clk /\
  hackathon_demo_timestamp r = clk 0%nat /\
  baseline_framework r = framework_results (wasteful_framework self) /\
  optimized_framework r
  = framework_results (simulator (green_framework self)) /\
  energy_reduction_percentage (improvements r)
  = mul (quot (sub (total_energy (wasteful_framework self))
                 (total_energy (simulator (green_framework self))))
           (total_energy (wasteful_framework self))) (int 100) /\
  carbon_reduction_percentage (improvements r)
  = mul (quot (sub (total_carbon (wasteful_framework self))
                 (total_carbon (simulator (green_framework self))))
           (total_carbon (wasteful_framework self))) (int 100) /\
  performance_improvement_percentage (improvements r)
  = mul (quot (sub (logged_duration (wasteful_framework self))
                 (logged_duration (simulator (green_framework self))))
           (logged_duration (wasteful_framework self))) (int 100).
Proof.
  unfold save_results, baseline_nonzero, cbind, lift, now, ret, div.
  cbv zeta.
  destruct (is_zero (total_energy (wasteful_framework self)));
    [discriminate |].
  destruct (is_zero (total_carbon (wasteful_framework self)));
    [discriminate |].
  destruct (is_zero (logged_duration (wasteful_framework self)));
    [discriminate |].
  intros H. apply Returned_inj in H.
  pose proof (f_equal fst H) as Hr. pose proof (f_equal snd H) as Hk.
  cbn [fst snd] in Hr, Hk. subst r k.
  repeat split.
Qed.

Lemma save_results_returns (self : HackathonDemonstrtor F) (clk : clock) :
  baseline_nonzero self ->
  exists r, save_results self clk = Returned (r, later 1 clk).
Proof.
  intros (He & Hc & Hd).
  unfold save_results, cbind, lift, now, ret, div. cbv zeta.
  rewrite He, Hc, Hd. eexists. reflexivity.
Qed.

Context {law : Lawful F}.

Lemma display_returns (self : HackathonDemonstrtor F) :
  baseline_nonzero self ->
  exists d, display_comparison_results self = Returned d.
Proof.
  intros (He & Hc & Hd).
  unfold display_comparison_results. cbv zeta.
  rewrite (div_nonzero _ _ He). cbn [bind].
  rewrite (div_nonzero _ _ Hc). cbn [bind].
  rewrite (div_nonzero _ _ Hd). cbn [bind].
  divide_by_literals. eexists. reflexivity.
Qed.

Lemma display_returned (self : HackathonDemonstrtor F) (d : Displayed F) :
  display_comparison_results self = Returned d -> baseline_nonzero self.
Proof.
  unfold display_comparison_results, baseline_nonzero, div. cbv zeta.
  destruct (is_zero (total_energy (wasteful_framework self)));
    [discriminate |]. cbn [bind].
  destruct (is_zero (total_carbon (wasteful_framework self)));
    [discriminate |]. cbn [bind].
  destruct (is_zero (logged_duration (wasteful_framework self)));
    [discriminate |].
  intros _. repeat split.
Qed.

(** X19. The comparison of the totals, displayed or saved, returns exactly
    when the baseline's total energy, its total carbon and the sum of its
    logged durations are nonzero; otherwise it raises. *)
Theorem totals_comparison_returns_iff (self : HackathonDemonstrtor F)
    (clk : clock) :
  ((exists d, display_comparison_results self = Returned d)
   <-> baseline_nonzero self) /\
  ((exists r, value (save_results self clk) = Returned r)
   <-> baseline_nonzero self).
Proof.
  split; split.
  - intros (d & Hd). exact (display_returned self d Hd).
  - apply display_returns.
  - intros (r & Hr).
    destruct (save_results self clk) as [[r' k] | e] eqn:Hrun;
      [| discriminate Hr].
    exact (proj1 (save_results_returned self clk r' k Hrun)).
  - intros Hb. destruct (save_results_returns self clk Hb) as (r & Hr).
    exists r. rewrite Hr. reflexivity.
Qed.

End DemoComparison.

Lemma totals_comparison_returns_iff_witness :
  ((exists d,
      NetZeroDemo.display_comparison_results (F := float)
        NetZeroDemo.HackathonDemonstrtor_init = Returned d)
   <-> NetZeroDemo.baseline_nonzero (F := float)
         NetZeroDemo.HackathonDemonstrtor_init) /\
  ((exists r,
      value (NetZeroDemo.save_results (F := float)
               NetZeroDemo.HackathonDemonstrtor_init example_clock)
      = Returned r)
   <-> NetZeroDemo.baseline_nonzero (F := float)
         NetZeroDemo.HackathonDemonstrtor_init).
Proof.
  exact (totals_comparison_returns_iff (law := float_lawful)
           NetZeroDemo.HackathonDemonstrtor_init example_clock).
Defined.

(** ** The demonstration in binary64 *)

(** X22. In binary64 the demonstration runs to its end whatever the clock
    reads: both suites log three tests, none of the comparison's divisors
    is zero, and the results are saved with the seventh reading of the
    clock. *)
Theorem demo_main_returns (clk : clock) :
  exists self results,
    NetZeroDemo.main (F := float) clk = Returned ((self, results), later 7 clk) /\
    List.length (NetZeroDemo.logs (NetZeroDemo.baseline_framework results))
    = 3%nat /\
    List.length (NetZeroDemo.logs (NetZeroDemo.optimized_framework results))
    = 3%nat /\
    NetZeroDemo.baseline_nonzero self /\
    NetZeroDemo.hackathon_demo_timestamp results = clk 6%nat.
Proof.
  eexists. eexists. split; [vm_compute; reflexivity |].
  repeat split.
Qed.

(** * The dashboard *)

Section DashboardResults.

Import Dashboard.

Context {F : Type} {num : Number F} {cmp : Compare F}.

Lemma sbind_run {A B : Type} (m : simulated F A) (k : A -> simulated F B)
    (w : world F) :
  sbind m k w
  = match m w with
    | Returned (a, w') => k a w'
    | Raised e => Raised e
    end.
Proof. reflexivity. Qed.

Lemma save_simulation_results_returned (self : CarbonDashboardSimulator F)
    (w w' : world F) (r : Results F) :
  save_simulation_results self w = Returned (r, w') ->
  baseline_nonzero self /\
  timestamp r = readings w 0%nat /\
  energy_reduction_percent (savings (simulation_summary r))
  = mul (quot (sub (energy (wasteful (current_metrics self)))
                 (energy (sustainable (current_metrics self))))
           (energy (wasteful (current_metrics self)))) (int 100) /\
  carbon_reduction_percent (savings (simulation_summary r))
  = mul (quot (sub (carbon (wasteful (current_metrics self)))
                 (carbon (sustainable (current_metrics self))))
           (carbon (wasteful (current_metrics self)))) (int 100) /\
  energy_saved_joules (savings (simulation_summary r))
  = sub (energy (wasteful (current_metrics self)))
      (energy (sustainable (current_metrics self))).
Proof.
  unfold save_simulation_results, baseline_nonzero, sbind, slift,
    datetime_now, sret, div.
  cbv zeta.
  destruct (is_zero (energy (wasteful (current_metrics self))));
    [discriminate |].
  destruct (is_zero (carbon (wasteful (current_metrics self))));
    [discriminate |].
  intros H. apply Returned_inj in H.
  pose proof (f_equal fst H) as Hr. cbn [fst] in Hr. subst r.
  repeat split.
Qed.

Lemma save_simulation_results_returns (self : CarbonDashboardSimulator F)
    (w : world F) :
  baseline_nonzero self ->
  exists r w', save_simulation_results self w = Returned (r, w').
Proof.
  intros (He & Hc).
  unfold save_simulation_results, sbind, slift, datetime_now, sret, div.
  cbv zeta. rewrite He, Hc. eexists. eexists. reflexivity.
Qed.

(** X23. The results of the simulation are saved exactly when the wasteful
    totals of energy and of carbon are nonzero; otherwise
    [save_simulation_results] raises. *)
Theorem simulation_results_saved_iff (self : CarbonDashboardSimulator F)
    (w : world F) :
  (exists r w', save_simulation_results self w = Returned (r, w'))
  <-> baseline_nonzero self.
Proof.
  split.
  - intros (r & w' & Hrun).
    exact (proj1 (save_simulation_results_returned self w w' r Hrun)).
  - apply save_simulation_results_returns.
Qed.

Context {law : Lawful F}.

(** X24. A simulation that runs no test raises: on a new dashboard, whose
    totals are the int 0, [run_simulation] with no iteration of its loop
    divides by zero when it saves its results. *)
Theorem simulation_without_tests_raises (w : world F) :
  run_simulation 0 init w = Raised ZeroDivisionError.
Proof.
  unfold run_simulation, run_tests, save_simulation_results, sbind, slift,
    datetime_now, sret, div.
  cbn [init current_metrics wasteful sustainable energy carbon].
  rewrite int_0_is_zero. reflexivity.
Qed.

End DashboardResults.

Lemma simulation_without_tests_raises_witness :
  Dashboard.run_simulation (F := float) 0 Dashboard.init
    {| Dashboard.readings := example_clock;
       Dashboard.draws := fun _ => lit 0.5 |}
  = Raised ZeroDivisionError.
Proof.
  exact (simulation_without_tests_raises (law := float_lawful)
           {| Dashboard.readings := example_clock;
              Dashboard.draws := fun _ => lit 0.5 |}).
Defined.

(** ** The guard of the dashboard *)

Section DashboardGuard.

Import Dashboard.

Context {F : Type} {num : Number F} {cmp : Compare F}.

(** X28. [display_dashboard] guards its two divisions by the test that the
    wasteful energy is greater than 0, and by nothing else: it raises
    exactly when that test passes and the wasteful energy or the wasteful
    carbon is zero as a divisor; it displays no savings exactly when the
    test fails. *)
Theorem display_dashboard_guard (self : CarbonDashboardSimulator F)
    (w : world F) :
  (display_dashboard self w = Raised ZeroDivisionError
   <-> gtb (energy (wasteful (current_metrics self))) (int 0) = true /\
       (is_zero (energy (wasteful (current_metrics self))) = true \/
        is_zero (carbon (wasteful (current_metrics self))) = true)) /\
  ((exists w', display_dashboard self w = Returned (None, w'))
   <-> gtb (energy (wasteful (current_metrics self))) (int 0) = false).
Proof.
  unfold display_dashboard, sbind, slift, datetime_now, sret, div. cbv zeta.
  destruct (gtb (energy (wasteful (current_metrics self))) (int 0)).
  - destruct (is_zero (energy (wasteful (current_metrics self)))).
    + split; split; try discriminate.
      * intros _. split; [reflexivity | left; reflexivity].
      * reflexivity.
      * intros (w' & H). discriminate H.
    + destruct (is_zero (carbon (wasteful (current_metrics self)))).
      * split; split; try discriminate.
        -- intros _. split; [reflexivity | right; reflexivity].
        -- reflexivity.
        -- intros (w' & H). discriminate H.
      * split; split; try discriminate.
        -- intros (_ & [H | H]); discriminate H.
        -- intros (w' & H). discriminate H.
  - split; split; try discriminate.
    + intros (H & _). discriminate H.
    + reflexivity.
    + intros _. eexists. reflexivity.
Qed.

End DashboardGuard.

(** ** [main] of the impact calculator, in binary64 *)

(** X29. In binary64 [main] builds its report whatever the clock reads: none
    of the divisions of its three comparisons, of its averages and of its
    projection is by zero; the report counts three scenarios, lists them
    under their names, and carries the fourth reading of the clock. *)
Theorem impact_main_returns (clk : clock) :
  exists r,
    main (F := float) clk = Returned (r, later 4 clk) /\
    scenarios_analyzed (report_metadata r) = 3%nat /\
    map scenario_name (detailed_scenarios r)
    = [Some "E-commerce Login Test"%string;
       Some "Product Search Test"%string;
       Some "Checkout Process Test"%string] /\
    map timestamp (detailed_scenarios r) = [clk 0; clk 1; clk 2]%nat /\
    generated_timestamp (report_metadata r) = clk 3%nat.
Proof.
  eexists. split; [vm_compute; reflexivity |].
  repeat split.
Qed.
